(** * Adversarial training of ensembles: a shallow embedding

    The development embeds [torchensemble/adversarial_training.py] and the
    part of [torchensemble/_base.py] it calls.  Python exceptions are values
    of an error type, tensors are a shape together with the flattened list of
    their entries, and the numbers a tensor holds are exact rationals.  The
    rounding of floating point arithmetic enters in [Rounded] only, where the
    adversarial sample generator is evaluated with a rounding after each
    arithmetic operation. *)

From Stdlib Require Import String.
From Stdlib Require Import List ZArith QArith Qabs Qround Qpower Lqa Lia Bool.
From Stdlib Require Import Sorted Permutation.
Import ListNotations.
Open Scope Q_scope.

(** ** Python results *)

(** The message of a [ValueError] raised by the source, with the values that
    are passed to [msg.format]. *)
Inductive Msg : Type :=
| BadLearningRate (lr : Q)
| BadWeightDecay (weight_decay : Q)
| BadEpochs (epochs : Z)
| BadEpsilon (epsilon : Q)
| BadLogInterval (log_interval : Z)
| BadInputRange (min_value max_value : Q).

Inductive Exn : Type :=
| ValueError (msg : Msg)
| RuntimeError
| IndexError
| ZeroDivisionError
| AttributeError
| UnboundLocalError.

Inductive Result (A : Type) : Type :=
| Ok (a : A)
| Raise (e : Exn).

Arguments Ok {A} a.
Arguments Raise {A} e.

Definition bind {A B : Type} (r : Result A) (k : A -> Result B) : Result B :=
  match r with
  | Ok a => k a
  | Raise e => Raise e
  end.

Declare Scope py_scope.
Delimit Scope py_scope with py.
Notation "x <- e ;; k" := (bind e (fun x => k))
  (at level 100, e at next level, right associativity) : py_scope.
Open Scope py_scope.

(** ** Tensors *)

Record Tensor : Type := mkTensor { size : list nat; elems : list Q }.

Definition Qltb (x y : Q) : bool := negb (Qle_bool y x).

Definition Qminb (x y : Q) : Q := if Qle_bool x y then x else y.
Definition Qmaxb (x y : Q) : Q := if Qle_bool x y then y else x.

(** [torch.min(t)] and [torch.max(t)] over all entries; both raise on a
    tensor without entries. *)
Definition torch_min (t : Tensor) : Result Q :=
  match elems t with
  | [] => Raise RuntimeError
  | x :: xs => Ok (fold_left Qminb xs x)
  end.

Definition torch_max (t : Tensor) : Result Q :=
  match elems t with
  | [] => Raise RuntimeError
  | x :: xs => Ok (fold_left Qmaxb xs x)
  end.

(** [x.sign()] on one entry: -1, 0 or 1. *)
Definition sgn (x : Q) : Q := inject_Z (Z.sgn (Qnum x)).

Definition tensor_sign (t : Tensor) : Tensor :=
  mkTensor (size t) (map sgn (elems t)).

(** [c * t] for a Python number [c]. *)
Definition tensor_scale (c : Q) (t : Tensor) : Tensor :=
  mkTensor (size t) (map (Qmult c) (elems t)).

Definition same_dims (a b : list nat) : bool :=
  if list_eq_dec Nat.eq_dec a b then true else false.

(** Two tensors have the same shape and, with it, as many entries. *)
Definition same_shape (a b : Tensor) : bool :=
  same_dims (size a) (size b) && Nat.eqb (length (elems a)) (length (elems b)).

Fixpoint zip_with {A B C : Type} (f : A -> B -> C) (xs : list A) (ys : list B)
  : list C :=
  match xs, ys with
  | x :: xs', y :: ys' => f x y :: zip_with f xs' ys'
  | _, _ => []
  end.

(** [a + b] on tensors of one shape.  Operands of different shapes raise:
    the broadcasting of dimensions of size one is not modelled, the callers
    in this file add tensors of one shape. *)
Definition tensor_add (a b : Tensor) : Result Tensor :=
  if same_shape a b
  then Ok (mkTensor (size a) (zip_with Qplus (elems a) (elems b)))
  else Raise RuntimeError.

(** [torch.clamp] on one entry. *)
Definition clamp (x lo hi : Q) : Q :=
  if Qltb x lo then lo else if Qltb hi x then hi else x.

Definition torch_clamp (t : Tensor) (lo hi : Q) : Tensor :=
  mkTensor (size t) (map (fun x => clamp x lo hi) (elems t)).

(** ** The adversarial sample generator *)

(** [_get_fgsm_samples(sample, epsilon, sample_grad)]. *)
Definition _get_fgsm_samples (sample : Tensor) (epsilon : Q) (sample_grad : Tensor)
  : Result Tensor :=
  min_value <- torch_min sample ;;
  max_value <- torch_max sample ;;
  if negb (Qle_bool 0 min_value && Qltb min_value max_value && Qle_bool max_value 1)
  then Raise (ValueError (BadInputRange min_value max_value))
  else
    let sign_sample_grad := tensor_sign sample_grad in
    perturbed_sample <- tensor_add sample (tensor_scale epsilon sign_sample_grad) ;;
    Ok (torch_clamp perturbed_sample 0 1).

(** The least and the greatest entry of a list. *)
Definition is_min (m : Q) (xs : list Q) : Prop :=
  In m xs /\ forall y, In y xs -> m <= y.

Definition is_max (m : Q) (xs : list Q) : Prop :=
  In m xs /\ forall y, In y xs -> y <= m.

(** The formula of the specification for one entry of the batch. *)
Definition perturbed_entry (x epsilon g : Q) : Q := clamp (x + epsilon * sgn g) 0 1.

Definition in_unit_range (t : Tensor) : Prop :=
  forall x, In x (elems t) -> 0 <= x <= 1.

(** Two entries of the tensor differ: its minimum is below its maximum. *)
Definition not_constant (t : Tensor) : Prop :=
  exists x y, In x (elems t) /\ In y (elems t) /\ x < y.

(** ** The generator in rounded arithmetic *)

(** The tensors of the source hold binary32 numbers, and the result of a
    multiplication or an addition on them is the exact result rounded to a
    binary32 number.  [Rounded] evaluates the generator with a rounding
    [round] after each of the two operations; comparisons, [sign] and
    [clamp] are exact.  With the identity for [round] its definitions are the
    ones above. *)
Module Rounded.
Section WithRounding.
Variable round : Q -> Q.

(** [c * t] for a Python number [c]. *)
Definition tensor_scale (c : Q) (t : Tensor) : Tensor :=
  mkTensor (size t) (map (fun x => round (c * x)) (elems t)).

(** [a + b] on tensors of one shape. *)
Definition tensor_add (a b : Tensor) : Result Tensor :=
  if same_shape a b
  then Ok (mkTensor (size a)
             (zip_with (fun x y => round (x + y)) (elems a) (elems b)))
  else Raise RuntimeError.

(** [_get_fgsm_samples(sample, epsilon, sample_grad)]. *)
Definition _get_fgsm_samples (sample : Tensor) (epsilon : Q) (sample_grad : Tensor)
  : Result Tensor :=
  min_value <- torch_min sample ;;
  max_value <- torch_max sample ;;
  if negb (Qle_bool 0 min_value && Qltb min_value max_value && Qle_bool max_value 1)
  then Raise (ValueError (BadInputRange min_value max_value))
  else
    let sign_sample_grad := tensor_sign sample_grad in
    perturbed_sample <- tensor_add sample (tensor_scale epsilon sign_sample_grad) ;;
    Ok (torch_clamp perturbed_sample 0 1).

(** One entry of the output. *)
Definition perturbed_entry (x epsilon g : Q) : Q :=
  clamp (round (x + round (epsilon * sgn g))) 0 1.

End WithRounding.

(** [2 ^ k] for an integer [k]. *)
Definition pow2 (k : Z) : Q := Qpower 2 k.

(** The integer nearest to [x], the even one of two nearest. *)
Definition round_half_even (x : Q) : Z :=
  let f := Qfloor x in
  match Qcompare (x - inject_Z f) (1 # 2) with
  | Lt => f
  | Gt => (f + 1)%Z
  | Eq => if Z.even f then f else (f + 1)%Z
  end.

(** The exponent [e] of a number [x] other than zero:
    [2 ^ e <= |x| < 2 ^ (e + 1)]. *)
Definition exponent (x : Q) : Z :=
  let k := (Z.log2 (Z.abs (Qnum x)) - Z.log2 (Z.pos (Qden x)))%Z in
  if Qltb (Qabs x) (pow2 k) then (k - 1)%Z else k.

(** Rounding to the nearest binary32 number, ties to even: 24 significant
    bits, and exponents from -126, below which the numbers are spaced
    [2 ^ -149] apart.  Numbers beyond the largest binary32 number, which
    the source rounds to [inf], are outside the model. *)
Definition round_binary32 (x : Q) : Q :=
  if Qeq_bool x 0 then 0
  else
    let q := (Z.max (exponent x) (-126) - 23)%Z in
    inject_Z (round_half_even (x / pow2 q)) * pow2 q.

End Rounded.

(** ** Hyper-parameters and data loaders *)

(** [_BaseAdversarialTraining._validate_parameters]; the caller records the
    [self.logger.error] that precedes each [raise]. *)
Definition _validate_parameters (lr weight_decay : Q) (epochs : Z) (epsilon : Q)
  (log_interval : Z) : Result unit :=
  if negb (Qltb 0 lr) then Raise (ValueError (BadLearningRate lr))
  else if negb (Qle_bool 0 weight_decay)
  then Raise (ValueError (BadWeightDecay weight_decay))
  else if negb (0 <? epochs)%Z then Raise (ValueError (BadEpochs epochs))
  else if negb (Qltb 0 epsilon && Qle_bool epsilon 1)
  then Raise (ValueError (BadEpsilon epsilon))
  else if negb (0 <? log_interval)%Z
  then Raise (ValueError (BadLogInterval log_interval))
  else Ok tt.

(** The hyper-parameters that the validator is to accept. *)
Definition valid_hyperparameters (lr weight_decay : Q) (epochs : Z) (epsilon : Q)
  (log_interval : Z) : Prop :=
  0 < lr /\ 0 <= weight_decay /\ (0 < epochs)%Z /\ 0 < epsilon <= 1
  /\ (0 < log_interval)%Z.

(** A [DataLoader]: the [classes] attribute of its dataset when it has one,
    and the (input, target) batches one pass over it yields. *)
Record DataLoader : Type := mkLoader {
  dataset_classes : option (list string);
  batches : list (Tensor * Tensor)
}.

(** [len(loader)] is the number of batches, and a loader is true in a
    condition when that length is not zero. *)
Definition truthy (loader : option DataLoader) : bool :=
  match loader with
  | Some l => negb (Nat.eqb (length (batches l)) 0)
  | None => false
  end.

Definition loader_batches (loader : option DataLoader) : list (Tensor * Tensor) :=
  match loader with
  | Some l => batches l
  | None => []
  end.

(** [torch.cat(ts)] along the first dimension. *)
Definition torch_cat (ts : list Tensor) : Result Tensor :=
  match ts with
  | [] => Raise RuntimeError
  | t :: rest =>
      match size t with
      | [] => Raise RuntimeError
      | _ :: tl =>
          if forallb (fun u => match size u with
                               | [] => false
                               | _ :: tl' => same_dims tl tl'
                               end) rest
          then Ok (mkTensor (list_sum (map (fun u => hd 0%nat (size u)) ts) :: tl)
                            (concat (map elems ts)))
          else Raise RuntimeError
      end
  end.

Fixpoint distinct (xs : list Q) : list Q :=
  match xs with
  | [] => []
  | x :: xs' => x :: filter (fun y => negb (Qeq_bool x y)) (distinct xs')
  end.

(** [torch.unique(t)]: the distinct entries as a vector (the source reads
    only its length, so the order is left as found). *)
Definition torch_unique (t : Tensor) : Tensor :=
  let u := distinct (elems t) in mkTensor [length u] u.

(** [t.size()[i]]. *)
Definition size_at (t : Tensor) (i : nat) : Result nat :=
  match nth_error (size t) i with
  | Some d => Ok d
  | None => Raise IndexError
  end.

(** [BaseModule._decide_n_outputs(train_loader, is_classification)]. *)
Definition _decide_n_outputs (train_loader : DataLoader) (is_classification : bool)
  : Result nat :=
  let n_outputs := 0%nat in
  if is_classification then
    match dataset_classes train_loader with
    | Some classes => Ok (length classes)
    | None =>
        let labels := map snd (batches train_loader) in
        labels <- torch_cat labels ;;
        size_at (torch_unique labels) 0
    end
  else
    match batches train_loader with
    | [] => Ok n_outputs
    | (_, target) :: _ =>
        if Nat.eqb (length (size target)) 1 then Ok 1%nat else size_at target 1
    end.

(** ** Matrices: the two-dimensional outputs of estimators *)

Definition Matrix : Type := list (list Q).

Definition dims (m : Matrix) : list nat := map (@length Q) m.

Definition zeros (rows cols : nat) : Matrix := repeat (repeat 0 cols) rows.

(** [a += b]: shapes that differ raise (broadcasting is not modelled). *)
Definition madd (a b : Matrix) : Result Matrix :=
  if same_dims (dims a) (dims b)
  then Ok (zip_with (zip_with Qplus) a b)
  else Raise RuntimeError.

(** [m / n] for a Python integer [n]. *)
Definition mdiv (m : Matrix) (n : nat) : Matrix :=
  map (map (fun x => x / inject_Z (Z.of_nat n))) m.

Definition Qsum (xs : list Q) : Q := fold_right Qplus 0 xs.

(** The index of the first largest entry of a row; a row without entries
    raises, as [torch.max(output, 1)] does on a matrix without columns. *)
Fixpoint argmax_from (best : Q) (besti i : nat) (xs : list Q) : nat :=
  match xs with
  | [] => besti
  | x :: xs' =>
      if Qltb best x then argmax_from x i (S i) xs'
      else argmax_from best besti (S i) xs'
  end.

Definition argmax (row : list Q) : Result nat :=
  match row with
  | [] => Raise RuntimeError
  | x :: xs => Ok (argmax_from x 0 1 xs)
  end.

Fixpoint mapM {A B : Type} (f : A -> Result B) (xs : list A) : Result (list B) :=
  match xs with
  | [] => Ok []
  | x :: xs' => y <- f x ;; ys <- mapM f xs' ;; Ok (y :: ys)
  end.

(** [_, predicted = torch.max(output.data, 1)]. *)
Definition torch_max_dim1 (output : Matrix) : Result (list nat) := mapM argmax output.

(** [(predicted == target).sum().item()], for a target with one label for
    each prediction.  A target with another number of entries raises: the
    broadcasting of [==] is not modelled. *)
Definition count_equal (predicted : list nat) (target : Tensor) : Result nat :=
  if Nat.eqb (length predicted) (length (elems target))
  then Ok (length (filter (fun p => Qeq_bool (inject_Z (Z.of_nat (fst p))) (snd p))
                          (combine predicted (elems target))))
  else Raise RuntimeError.

(** ** What the caller and the tensor library supply *)

Inductive Criterion : Type := CrossEntropyLoss | MSELoss.

(** A Python float that may be [float("inf")]. *)
Inductive ExtQ : Type :=
| Finite (q : Q)
| PosInf.

(** [x < b] for a number [x] and a bound [b] that may be infinite.  The
    number is finite: a loss that is [inf] or [nan] is not modelled. *)
Definition ext_ltb (x : Q) (b : ExtQ) : bool :=
  match b with
  | Finite q => Qltb x q
  | PosInf => true
  end.

(** The base estimator, its optimizer and the numerical functions of the
    tensor library that the source calls.  Estimators and optimizers are
    passed by value: an in-place update returns the updated object, as a
    worker process of the pool returns a trained copy.  When the pool runs the
    tasks in the calling process the estimator objects are shared between
    [estimators], [rets] and [self.estimators_]; the two readings agree on
    what the properties below look at, the set that is committed when [fit]
    returns and the set that [io.save] writes at the moment it is called. *)
Class Backend : Type := {
  Estimator : Type;
  Optimizer : Type;
  (** the estimator built by the [k]-th call of [self._make_estimator()]
      within one [fit] *)
  base_estimator : nat -> Estimator;
  (** [estimator(data)], one row per sample *)
  estimator_forward : Estimator -> Tensor -> Matrix;
  (** [set_module.set_optimizer(estimator, optimizer, lr, weight_decay)] *)
  set_optimizer : Estimator -> string -> Q -> Q -> Result Optimizer;
  (** [criterion(output, target)] as a finite number *)
  criterion_value : Criterion -> Matrix -> Tensor -> Q;
  (** [data.grad.data] after [criterion(estimator(data), target).backward()] *)
  input_gradient : Criterion -> Estimator -> Tensor -> Tensor -> Tensor;
  (** [optimizer.zero_grad()], the backward pass of the loss on the clean
      and the adversarial batch, and [optimizer.step()] *)
  optimizer_step :
    Criterion -> Optimizer -> Estimator -> Tensor -> Tensor -> Tensor ->
    Optimizer * Estimator;
  (** the exponential behind [F.softmax] *)
  exp : Q -> Q
}.

Section Ensemble.
Context {B : Backend}.

(** What a [fit] does to the world outside the ensemble object. *)
Inductive Event : Type :=
| EvMakeEstimator (k : nat)
| EvLogError (msg : Msg)
| EvSetOptimizer (epoch idx : nat)
| EvPrint (idx epoch batch_idx : nat) (loss : Q) (correct : option nat)
    (batch_size : nat)
| EvSave (saved : list Estimator)
| EvValidationAcc (epoch : nat) (acc best_acc : Q)
| EvValidationMSE (epoch : nat) (mse : Q) (best_mse : ExtQ).

(** The attributes of the ensemble object that [fit] and [forward] read or
    write. *)
Record Ensemble : Type := mkEnsemble {
  n_estimators : nat;
  n_outputs : option nat;
  estimators_ : list Estimator
}.

(** A method of the ensemble: it may update the object, emits events in
    order, and returns or raises. *)
Definition M (A : Type) : Type := Ensemble -> Ensemble * list Event * Result A.

(** The three parts of what a method leaves. *)
Definition state_of {A : Type} (o : Ensemble * list Event * Result A) : Ensemble :=
  fst (fst o).

Definition trace_of {A : Type} (o : Ensemble * list Event * Result A) : list Event :=
  snd (fst o).

Definition result_of {A : Type} (o : Ensemble * list Event * Result A) : Result A :=
  snd o.

Definition ret {A : Type} (a : A) : M A := fun self => (self, [], Ok a).

Definition mbind {A C : Type} (m : M A) (k : A -> M C) : M C :=
  fun self =>
    match m self with
    | (self1, t1, Ok a) =>
        match k a self1 with
        | (self2, t2, r) => (self2, t1 ++ t2, r)
        end
    | (self1, t1, Raise e) => (self1, t1, Raise e)
    end.

Definition emit (ev : Event) : M unit := fun self => (self, [ev], Ok tt).

Definition lift {A : Type} (r : Result A) : M A := fun self => (self, [], r).

(** The output of a worker, which has no access to the ensemble object. *)
Definition worker {A : Type} (w : list Event * Result A) : M A :=
  fun self => (self, fst w, snd w).

Definition get_self : M Ensemble := fun self => (self, [], Ok self).

Definition set_n_outputs (n : nat) : M unit :=
  fun self => (mkEnsemble (n_estimators self) (Some n) (estimators_ self), [], Ok tt).

(** [self.estimators_ = nn.ModuleList(); self.estimators_.extend(ests)]. *)
Definition set_estimators_ (ests : list Estimator) : M unit :=
  fun self => (mkEnsemble (n_estimators self) (n_outputs self) ests, [], Ok tt).

(** [io.save(self, save_dir, self.logger)]: what is written is the committed
    estimator set of that moment. *)
Definition io_save : M unit :=
  fun self => (self, [EvSave (estimators_ self)], Ok tt).

End Ensemble.

Notation "x <~ e ;; k" := (mbind e (fun x => k))
  (at level 100, e at next level, right associativity) : py_scope.
Notation "e ;;; k" := (mbind e (fun _ => k))
  (at level 100, right associativity) : py_scope.

(** [F.softmax(., dim=1)] on one row. *)
Definition softmax_row {B : Backend} (row : list Q) : list Q :=
  map (fun z => exp z / Qsum (map exp row)) row.

Definition softmax {B : Backend} (m : Matrix) : Matrix := map softmax_row m.

(** ** One epoch of one estimator, and the dispatch over the pool *)

Section Training.
Context {B : Backend}.

Definition enumerate {A : Type} (xs : list A) : list (nat * A) :=
  combine (seq 0 (length xs)) xs.

(** The body of the loop over [enumerate(train_loader)] in
    [_parallel_fit_per_epoch], for the batches that are left. *)
Fixpoint fit_batches (criterion : Criterion) (epoch : nat) (epsilon : Q)
  (log_interval : Z) (idx : nat) (is_classification : bool)
  (todo : list (nat * (Tensor * Tensor))) (optimizer : Optimizer)
  (estimator : Estimator) : list Event * Result Estimator :=
  match todo with
  | [] => ([], Ok estimator)
  | (batch_idx, (data, target)) :: rest =>
      match size_at data 0 with
      | Raise e => ([], Raise e)
      | Ok batch_size =>
          let data_grad := input_gradient criterion estimator data target in
          match _get_fgsm_samples data epsilon data_grad with
          | Raise e => ([], Raise e)
          | Ok adv_data =>
              let org_output := estimator_forward estimator data in
              let adv_output := estimator_forward estimator adv_data in
              let loss := criterion_value criterion org_output target
                          + criterion_value criterion adv_output target in
              let (optimizer', estimator') :=
                optimizer_step criterion optimizer estimator data adv_data target in
              let printed : list Event * Result unit :=
                if (Z.of_nat batch_idx mod log_interval =? 0)%Z then
                  if is_classification then
                    match (predicted <- torch_max_dim1 org_output ;;
                           count_equal predicted target) with
                    | Ok correct =>
                        ([EvPrint idx epoch batch_idx loss (Some correct) batch_size],
                         Ok tt)
                    | Raise e => ([], Raise e)
                    end
                  else ([EvPrint idx epoch batch_idx loss None batch_size], Ok tt)
                else ([], Ok tt) in
              match printed with
              | (evs, Raise e) => (evs, Raise e)
              | (evs, Ok _) =>
                  let (evs', r) :=
                    fit_batches criterion epoch epsilon log_interval idx
                      is_classification rest optimizer' estimator' in
                  (evs ++ evs', r)
              end
          end
      end
  end.

(** [_parallel_fit_per_epoch]; the device is not modelled. *)
Definition _parallel_fit_per_epoch (train_loader : DataLoader) (lr weight_decay : Q)
  (epoch : nat) (optimizer : string) (epsilon : Q) (log_interval : Z) (idx : nat)
  (estimator : Estimator) (criterion : Criterion) (is_classification : bool)
  : list Event * Result Estimator :=
  match set_optimizer estimator optimizer lr weight_decay with
  | Raise e => ([], Raise e)
  | Ok optimizer =>
      let (evs, r) :=
        fit_batches criterion epoch epsilon log_interval idx is_classification
          (enumerate (batches train_loader)) optimizer estimator in
      (EvSetOptimizer epoch idx :: evs, r)
  end.

(** A call [parallel(tasks)] of joblib's worker pool, by its contract: the
    results of the tasks in the order of the tasks, whatever the order in
    which the workers finish.  The events of the tasks are listed in the
    order of the tasks too, and a task that raises ends the call with its
    exception. *)
Fixpoint parallel {A : Type} (tasks : list (list Event * Result A))
  : list Event * Result (list A) :=
  match tasks with
  | [] => ([], Ok [])
  | (evs, Raise e) :: _ => (evs, Raise e)
  | (evs, Ok a) :: rest =>
      match parallel rest with
      | (evs', Ok results) => (evs ++ evs', Ok (a :: results))
      | (evs', Raise e) => (evs ++ evs', Raise e)
      end
  end.

(** The hyper-parameters of one [fit] call. *)
Record FitArgs : Type := mkFitArgs {
  train_loader : DataLoader;
  lr : Q;
  weight_decay : Q;
  epochs : Z;
  optimizer : string;
  epsilon : Q;
  log_interval : Z;
  test_loader : option DataLoader;
  save_model : bool
}.

(** [rets = parallel(delayed(_parallel_fit_per_epoch)(...) for idx, estimator
    in enumerate(estimators))]. *)
Definition dispatch (a : FitArgs) (criterion : Criterion) (is_classification : bool)
  (epoch : nat) (estimators : list Estimator) : list Event * Result (list Estimator) :=
  parallel
    (map (fun '(idx, estimator) =>
            _parallel_fit_per_epoch (train_loader a) (lr a) (weight_decay a) epoch
              (optimizer a) (epsilon a) (log_interval a) idx estimator criterion
              is_classification)
         (enumerate estimators)).

(** The estimator that one worker returns for the estimator at position
    [idx], or the exception it raises. *)
Definition trained (a : FitArgs) (criterion : Criterion) (is_classification : bool)
  (epoch idx : nat) (estimator : Estimator) : Result Estimator :=
  snd (_parallel_fit_per_epoch (train_loader a) (lr a) (weight_decay a) epoch
         (optimizer a) (epsilon a) (log_interval a) idx estimator criterion
         is_classification).

(** The list [rets] after the loop over the epochs in [todo], when every
    dispatch returns: the output of the last dispatch. *)
Fixpoint final_rets (a : FitArgs) (criterion : Criterion) (is_classification : bool)
  (todo : list nat) (estimators : list Estimator) (rets : option (list Estimator))
  : option (list Estimator) :=
  match todo with
  | [] => rets
  | epoch :: rest =>
      match snd (dispatch a criterion is_classification epoch estimators) with
      | Ok r => final_rets a criterion is_classification rest r (Some r)
      | Raise _ => None
      end
  end.

End Training.

(** The common start of both [fit] methods:
    [for _ in range(self.n_estimators): estimators.append(self._make_estimator())]. *)
Fixpoint make_estimators {B : Backend} (ks : list nat) : M (list Estimator) :=
  match ks with
  | [] => ret []
  | k :: rest =>
      emit (EvMakeEstimator k) ;;;
      estimators <~ make_estimators rest ;;
      ret (base_estimator k :: estimators)
  end.

(** The call [self._validate_parameters(...)] of a [fit], with the error it
    logs before it raises. *)
Definition validate {B : Backend} (a : FitArgs) : M unit :=
  fun self =>
    match _validate_parameters (lr a) (weight_decay a) (epochs a) (epsilon a)
            (log_interval a) with
    | Raise (ValueError msg) => (self, [EvLogError msg], Raise (ValueError msg))
    | r => (self, [], r)
    end.

(** ** The base class *)

Module BaseModule.

(** [BaseModule._validate_parameters(lr, weight_decay, epochs, log_interval)],
    the validator that [_BaseAdversarialTraining] overrides. *)
Definition _validate_parameters (lr weight_decay : Q) (epochs : Z) (log_interval : Z)
  : Result unit :=
  if negb (Qltb 0 lr) then Raise (ValueError (BadLearningRate lr))
  else if negb (Qle_bool 0 weight_decay)
  then Raise (ValueError (BadWeightDecay weight_decay))
  else if negb (0 <? epochs)%Z then Raise (ValueError (BadEpochs epochs))
  else if negb (0 <? log_interval)%Z
  then Raise (ValueError (BadLogInterval log_interval))
  else Ok tt.

Section WithBackend.
Context {B : Backend}.

(** [BaseModule.__len__]. *)
Definition __len__ (self : Ensemble) : nat := length (estimators_ self).

(** [BaseModule.__getitem__(index)] for an integer index: the list of
    estimators accepts the indices from [-len] up to [len - 1] and counts the
    negative ones from its end. *)
Definition __getitem__ (self : Ensemble) (index : Z) : Result Estimator :=
  let n := Z.of_nat (length (estimators_ self)) in
  if ((- n <=? index) && (index <? n))%Z
  then match nth_error (estimators_ self)
               (Z.to_nat (if (index <? 0)%Z then index + n else index)%Z) with
       | Some estimator => Ok estimator
       | None => Raise IndexError
       end
  else Raise IndexError.

End WithBackend.
End BaseModule.

(** ** The classifier *)

Module AdversarialTrainingClassifier.
Section WithBackend.
Context {B : Backend}.

(** The loop [for estimator in estimators: proba += F.softmax(estimator(x),
    dim=1) / self.n_estimators]. *)
Fixpoint accumulate (n_est : nat) (estimators : list Estimator) (data : Tensor)
  (proba : Matrix) : Result Matrix :=
  match estimators with
  | [] => Ok proba
  | estimator :: rest =>
      proba <- madd proba (mdiv (softmax (estimator_forward estimator data)) n_est) ;;
      accumulate n_est rest data proba
  end.

(** The helper [_forward(estimators, data)] inside [fit]; it reads
    [self.n_outputs] and [self.n_estimators]. *)
Definition _forward (self : Ensemble) (estimators : list Estimator) (data : Tensor)
  : Result Matrix :=
  batch_size <- size_at data 0 ;;
  match n_outputs self with
  | None => Raise AttributeError
  | Some n_out => accumulate (n_estimators self) estimators data (zeros batch_size n_out)
  end.

(** [forward(x)]: the same loop over [self.estimators_]. *)
Definition forward (self : Ensemble) (x : Tensor) : Result Matrix :=
  _forward self (estimators_ self) x.

(** The loop over [test_loader] that counts correct predictions. *)
Fixpoint count_correct (self : Ensemble) (estimators : list Estimator)
  (todo : list (Tensor * Tensor)) (correct total : nat) : Result (nat * nat) :=
  match todo with
  | [] => Ok (correct, total)
  | (data, target) :: rest =>
      output <- _forward self estimators data ;;
      predicted <- torch_max_dim1 output ;;
      c <- count_equal predicted target ;;
      n <- size_at target 0 ;;
      count_correct self estimators rest (correct + c)%nat (total + n)%nat
  end.

(** [acc = 100 * correct / total]. *)
Definition accuracy (correct total : nat) : Result Q :=
  if Nat.eqb total 0 then Raise ZeroDivisionError
  else Ok (inject_Z (100 * Z.of_nat correct) / inject_Z (Z.of_nat total)).

(** The validation block of one epoch; it returns the new [best_acc]. *)
Definition validation (a : FitArgs) (epoch : nat) (estimators : list Estimator)
  (best_acc : Q) : M Q :=
  self <~ get_self ;;
  counts <~ lift (count_correct self estimators (loader_batches (test_loader a)) 0 0) ;;
  acc <~ lift (accuracy (fst counts) (snd counts)) ;;
  best_acc <~ (if Qltb best_acc acc
               then set_estimators_ estimators ;;;
                    (if save_model a then io_save else ret tt) ;;;
                    ret acc
               else ret best_acc) ;;
  emit (EvValidationAcc epoch acc best_acc) ;;;
  ret best_acc.

(** The training loop over the epochs that are left.  [rets] is unbound
    before the first epoch. *)
Fixpoint training_loop (a : FitArgs) (todo : list nat) (estimators : list Estimator)
  (rets : option (list Estimator)) (best_acc : Q) : M (option (list Estimator)) :=
  match todo with
  | [] => ret rets
  | epoch :: rest =>
      rets <~ worker (dispatch a CrossEntropyLoss true epoch estimators) ;;
      let estimators := rets in
      best_acc <~ (if truthy (test_loader a)
                   then validation a epoch estimators best_acc
                   else ret best_acc) ;;
      training_loop a rest estimators (Some rets) best_acc
  end.

(** [AdversarialTrainingClassifier.fit]. *)
Definition fit (a : FitArgs) : M unit :=
  self <~ get_self ;;
  estimators <~ make_estimators (seq 0 (n_estimators self)) ;;
  validate a ;;;
  n <~ lift (_decide_n_outputs (train_loader a) true) ;;
  set_n_outputs n ;;;
  let best_acc := 0 in
  rets <~ training_loop a (seq 0 (Z.to_nat (epochs a))) estimators None best_acc ;;
  match rets with
  | None => lift (Raise UnboundLocalError)
  | Some rets =>
      set_estimators_ rets ;;;
      if save_model a && negb (truthy (test_loader a)) then io_save else ret tt
  end.

(** The loop of [predict] over the batches that are left. *)
Fixpoint predict_loop (self : Ensemble) (todo : list (Tensor * Tensor))
  (correct total : nat) : Result (nat * nat) :=
  match todo with
  | [] => Ok (correct, total)
  | (data, target) :: rest =>
      output <- forward self data ;;
      predicted <- torch_max_dim1 output ;;
      c <- count_equal predicted target ;;
      n <- size_at target 0 ;;
      predict_loop self rest (correct + c)%nat (total + n)%nat
  end.

(** [AdversarialTrainingClassifier.predict(test_loader)]. *)
Definition predict (self : Ensemble) (test_loader : DataLoader) : Result Q :=
  counts <- predict_loop self (batches test_loader) 0 0 ;;
  accuracy (fst counts) (snd counts).

End WithBackend.
End AdversarialTrainingClassifier.

(** ** The regressor *)

Module AdversarialTrainingRegressor.
Section WithBackend.
Context {B : Backend}.

(** The loop [for estimator in estimators: pred += estimator(x) /
    self.n_estimators]. *)
Fixpoint accumulate (n_est : nat) (estimators : list Estimator) (data : Tensor)
  (pred : Matrix) : Result Matrix :=
  match estimators with
  | [] => Ok pred
  | estimator :: rest =>
      pred <- madd pred (mdiv (estimator_forward estimator data) n_est) ;;
      accumulate n_est rest data pred
  end.

(** The helper [_forward(estimators, data)] inside [fit]. *)
Definition _forward (self : Ensemble) (estimators : list Estimator) (data : Tensor)
  : Result Matrix :=
  batch_size <- size_at data 0 ;;
  match n_outputs self with
  | None => Raise AttributeError
  | Some n_out => accumulate (n_estimators self) estimators data (zeros batch_size n_out)
  end.

(** [forward(x)]. *)
Definition forward (self : Ensemble) (x : Tensor) : Result Matrix :=
  _forward self (estimators_ self) x.

(** The loop over [test_loader] that sums the losses of the batches. *)
Fixpoint sum_mse (self : Ensemble) (estimators : list Estimator)
  (todo : list (Tensor * Tensor)) (mse : Q) : Result Q :=
  match todo with
  | [] => Ok mse
  | (data, target) :: rest =>
      output <- _forward self estimators data ;;
      sum_mse self estimators rest (mse + criterion_value MSELoss output target)
  end.

(** The validation block of one epoch; it returns the new [best_mse].  The
    block runs only for a loader that is true, so [len(test_loader)] is not
    zero. *)
Definition validation (a : FitArgs) (epoch : nat) (estimators : list Estimator)
  (best_mse : ExtQ) : M ExtQ :=
  self <~ get_self ;;
  mse <~ lift (sum_mse self estimators (loader_batches (test_loader a)) 0) ;;
  let mse := mse / inject_Z (Z.of_nat (length (loader_batches (test_loader a)))) in
  best_mse <~ (if ext_ltb mse best_mse
               then set_estimators_ estimators ;;;
                    (if save_model a then io_save else ret tt) ;;;
                    ret (Finite mse)
               else ret best_mse) ;;
  emit (EvValidationMSE epoch mse best_mse) ;;;
  ret best_mse.

Fixpoint training_loop (a : FitArgs) (todo : list nat) (estimators : list Estimator)
  (rets : option (list Estimator)) (best_mse : ExtQ) : M (option (list Estimator)) :=
  match todo with
  | [] => ret rets
  | epoch :: rest =>
      rets <~ worker (dispatch a MSELoss false epoch estimators) ;;
      let estimators := rets in
      best_mse <~ (if truthy (test_loader a)
                   then validation a epoch estimators best_mse
                   else ret best_mse) ;;
      training_loop a rest estimators (Some rets) best_mse
  end.

(** [AdversarialTrainingRegressor.fit]. *)
Definition fit (a : FitArgs) : M unit :=
  self <~ get_self ;;
  estimators <~ make_estimators (seq 0 (n_estimators self)) ;;
  validate a ;;;
  n <~ lift (_decide_n_outputs (train_loader a) true) ;;
  set_n_outputs n ;;;
  let best_mse := PosInf in
  rets <~ training_loop a (seq 0 (Z.to_nat (epochs a))) estimators None best_mse ;;
  match rets with
  | None => lift (Raise UnboundLocalError)
  | Some rets =>
      set_estimators_ rets ;;;
      if save_model a && negb (truthy (test_loader a)) then io_save else ret tt
  end.

(** The loop of [predict] over the batches that are left. *)
Fixpoint predict_loop (self : Ensemble) (todo : list (Tensor * Tensor)) (mse : Q)
  : Result Q :=
  match todo with
  | [] => Ok mse
  | (data, target) :: rest =>
      output <- forward self data ;;
      predict_loop self rest (mse + criterion_value MSELoss output target)
  end.

(** [AdversarialTrainingRegressor.predict(test_loader)].  Over a loader
    without batches [mse] is still the integer 0 and the division by
    [len(test_loader)] raises. *)
Definition predict (self : Ensemble) (test_loader : DataLoader) : Result Q :=
  mse <- predict_loop self (batches test_loader) 0 ;;
  if Nat.eqb (length (batches test_loader)) 0 then Raise ZeroDivisionError
  else Ok (mse / inject_Z (Z.of_nat (length (batches test_loader)))).

End WithBackend.
End AdversarialTrainingRegressor.

(** ** Readings of a trace *)

Section Traces.
Context {B : Backend}.

(** The historical best accuracy logged after each validated epoch. *)
Definition best_acc_history (trace : list Event) : list Q :=
  flat_map (fun ev => match ev with
                      | EvValidationAcc _ _ best_acc => [best_acc]
                      | _ => []
                      end) trace.

Definition best_mse_history (trace : list Event) : list ExtQ :=
  flat_map (fun ev => match ev with
                      | EvValidationMSE _ _ best_mse => [best_mse]
                      | _ => []
                      end) trace.

(** The estimator sets handed to [io.save], in order. *)
Definition saved_sets (trace : list Event) : list (list Estimator) :=
  flat_map (fun ev => match ev with
                      | EvSave saved => [saved]
                      | _ => []
                      end) trace.

(** The lines that the validation blocks log, in order. *)
Definition validation_events (trace : list Event) : list Event :=
  filter (fun ev => match ev with
                    | EvValidationAcc _ _ _ | EvValidationMSE _ _ _ => true
                    | _ => false
                    end) trace.

Definition made_estimators (trace : list Event) : nat :=
  length (filter (fun ev => match ev with EvMakeEstimator _ => true | _ => false end)
                 trace).

Definition made_optimizers (trace : list Event) : nat :=
  length (filter (fun ev => match ev with EvSetOptimizer _ _ => true | _ => false end)
                 trace).

(** The events of a worker: an optimizer it builds and the lines it prints. *)
Definition worker_event (ev : Event) : Prop :=
  match ev with
  | EvSetOptimizer _ _ | EvPrint _ _ _ _ _ _ => True
  | _ => False
  end.

(** [b1 >= b2] on bounds that may be infinite. *)
Definition ext_ge (b1 b2 : ExtQ) : Prop :=
  match b1, b2 with
  | PosInf, _ => True
  | Finite _, PosInf => False
  | Finite x, Finite y => y <= x
  end.

End Traces.

(** ** Vocabulary of the further properties *)

(** Some batch of the loader holds a value outside [0,1]. *)
Definition out_of_range_loader (loader : DataLoader) : Prop :=
  exists data target x,
    In (data, target) (batches loader) /\ In x (elems data) /\ (x < 0 \/ 1 < x).

Section MoreTraces.
Context {B : Backend}.

(** The validation accuracy logged after each validated epoch. *)
Definition acc_history (trace : list Event) : list Q :=
  flat_map (fun ev => match ev with
                      | EvValidationAcc _ acc _ => [acc]
                      | _ => []
                      end) trace.

(** The validation loss logged after each validated epoch. *)
Definition mse_history (trace : list Event) : list Q :=
  flat_map (fun ev => match ev with
                      | EvValidationMSE _ mse _ => [mse]
                      | _ => []
                      end) trace.

(** The estimator at position [idx] after the epochs of [todo], each
    trained from the result of the one before. *)
Fixpoint train_through (a : FitArgs) (criterion : Criterion) (is_classification : bool)
  (todo : list nat) (idx : nat) (estimator : Estimator) : Result Estimator :=
  match todo with
  | [] => Ok estimator
  | epoch :: rest =>
      estimator' <- trained a criterion is_classification epoch idx estimator ;;
      train_through a criterion is_classification rest idx estimator'
  end.

End MoreTraces.

(** The number of entries of a list that exceed [b] and all entries before
    them. *)
Fixpoint count_records (b : Q) (accs : list Q) : nat :=
  match accs with
  | [] => 0
  | acc :: rest =>
      if Qltb b acc then S (count_records acc rest) else count_records b rest
  end.

(** The historical best after each entry of a list of accuracies, starting
    from the best [b]. *)
Fixpoint running_best (b : Q) (accs : list Q) : list Q :=
  match accs with
  | [] => []
  | acc :: rest =>
      let b' := if Qltb b acc then acc else b in
      b' :: running_best b' rest
  end.

(** The regressor's counterparts, for losses and a best that starts at
    infinity. *)
Fixpoint running_best_mse (b : ExtQ) (mses : list Q) : list ExtQ :=
  match mses with
  | [] => []
  | mse :: rest =>
      let b' := if ext_ltb mse b then Finite mse else b in
      b' :: running_best_mse b' rest
  end.

Fixpoint count_records_mse (b : ExtQ) (mses : list Q) : nat :=
  match mses with
  | [] => 0
  | mse :: rest =>
      if ext_ltb mse b then S (count_records_mse (Finite mse) rest)
      else count_records_mse b rest
  end.

(** A list with the finite bound [b] in front of it, if [b] is finite. *)
Definition with_bound (b : ExtQ) (xs : list Q) : list Q :=
  match b with
  | Finite q => q :: xs
  | PosInf => xs
  end.

Section Tallies.
Context {B : Backend}.

(** What one batch adds to [correct] and [total] in the classifier's
    [predict]. *)
Definition batch_tally (self : Ensemble) (batch : Tensor * Tensor)
  : Result (nat * nat) :=
  output <- AdversarialTrainingClassifier.forward self (fst batch) ;;
  predicted <- torch_max_dim1 output ;;
  c <- count_equal predicted (snd batch) ;;
  n <- size_at (snd batch) 0 ;;
  Ok (c, n).

End Tallies.

(** A target of class labels: a vector with one label per sample. *)
Definition label_vector (target : Tensor) : Prop :=
  size target = [length (elems target)].

(** A batch whose target is a vector with one label for each sample of its
    data: [target.size()] is [(data.size(0),)]. *)
Definition labelled_samples (batch : Tensor * Tensor) : Prop :=
  label_vector (snd batch)
  /\ size_at (fst batch) 0 = Ok (length (elems (snd batch))).

Section Agreement.
Context {B : Backend}.

(** Two ensemble objects with the same [n_estimators] and [n_outputs]. *)
Definition same_settings (s1 s2 : Ensemble) : Prop :=
  n_estimators s1 = n_estimators s2 /\ n_outputs s1 = n_outputs s2.

(** Two runs that emit the same events and end in the same way, in ensemble
    objects with the same settings. *)
Definition agree {A : Type} (o1 o2 : Ensemble * list Event * Result A) : Prop :=
  trace_of o1 = trace_of o2 /\ result_of o1 = result_of o2
  /\ same_settings (state_of o1) (state_of o2).

(** An ensemble object that differs from [self] in the estimator set and
    the number of outputs that an earlier fit left in it. *)
Definition fitted_before (self : Ensemble) (earlier_outputs : option nat)
  (earlier : list Estimator) : Ensemble :=
  mkEnsemble (n_estimators self) earlier_outputs earlier.

End Agreement.

Section PrintedLines.
Context {B : Backend}.

(** The batch indices of the status lines that a trace prints. *)
Definition printed_batches (trace : list Event) : list nat :=
  flat_map (fun ev => match ev with
                      | EvPrint _ _ batch_idx _ _ _ => [batch_idx]
                      | _ => []
                      end) trace.

End PrintedLines.

Section LogVocabulary.
Context {B : Backend}.

(** The readings of the trace of the classifier's loop. *)
Definition classifier_log_coherent (a : FitArgs) (best_acc : Q) (t : list Event)
  : Prop :=
  best_acc_history t = running_best best_acc (acc_history t)
  /\ (save_model a = true -> truthy (test_loader a) = true ->
      length (saved_sets t) = count_records best_acc (acc_history t))
  /\ (save_model a = false -> saved_sets t = [])
  /\ (truthy (test_loader a) = false -> validation_events t = [] /\ saved_sets t = []).

(** The events before the loop: the estimators that are built and the error
    that the validator logs. *)
Definition setup_event (ev : Event) : Prop :=
  match ev with
  | EvMakeEstimator _ | EvLogError _ => True
  | _ => False
  end.

(** The readings of the trace of the regressor's loop. *)
Definition regressor_log_coherent (a : FitArgs) (best_mse : ExtQ) (t : list Event)
  : Prop :=
  best_mse_history t = running_best_mse best_mse (mse_history t)
  /\ (save_model a = true -> truthy (test_loader a) = true ->
      length (saved_sets t) = count_records_mse best_mse (mse_history t))
  /\ (save_model a = false -> saved_sets t = [])
  /\ (truthy (test_loader a) = false -> validation_events t = [] /\ saved_sets t = []).

(** The status lines that a worker prints. *)
Definition print_event (ev : Event) : Prop :=
  match ev with
  | EvPrint _ _ _ _ _ _ => True
  | _ => False
  end.

End LogVocabulary.

(** ** A concrete backend for running the model *)

Module Scenario.

(** An estimator is the number of optimizer steps it has taken.  On a sample
    [x] it scores class 0 when [x <= 13 - steps] and class 1 otherwise, so
    a further step moves its decision boundary down by one.  The loss of an
    output is the sum of its second column. *)
Definition toy_forward (steps : nat) (data : Tensor) : Matrix :=
  map (fun x => if Qle_bool x (inject_Z (13 - Z.of_nat steps))
                then [1; 0] else [0; 1])
      (elems data).

#[local] Instance toy : Backend := {|
  Estimator := nat;
  Optimizer := unit;
  base_estimator := fun _ => 0%nat;
  estimator_forward := toy_forward;
  set_optimizer := fun _ _ _ _ => Ok tt;
  criterion_value :=
    fun _ output _ => Qred (Qsum (map (fun row => nth 1 row 0) output));
  input_gradient := fun _ _ data _ => data;
  optimizer_step := fun _ opt steps _ _ _ => (opt, S steps);
  exp := fun z => if Qle_bool z 0 then 1 else 2
|}.

(** One training batch of two samples, with labels 0 and 1. *)
Definition train : DataLoader :=
  mkLoader None [(mkTensor [2%nat] [0; 1], mkTensor [2%nat] [0; 1])].

(** One validation batch of twenty samples 1, 2, ..., 20, all of class 0. *)
Definition validation_set : DataLoader :=
  mkLoader None
    [(mkTensor [20%nat] (map (fun k => inject_Z (Z.of_nat k)) (seq 1 20)),
      mkTensor [20%nat] (repeat 0 20))].

Definition args (epochs : Z) (lr : Q) (test_loader : option DataLoader) : FitArgs :=
  mkFitArgs train lr (5 # 10000) epochs "Adam"%string (1 # 2) 100 test_loader true.

Definition fresh (n_estimators : nat) : Ensemble := mkEnsemble n_estimators None [].

(** An ensemble of two estimators after one and two steps, for two classes. *)
Definition pair : list nat := [1%nat; 2%nat].

Definition committed_pair : Ensemble := @mkEnsemble toy 2 (Some 2%nat) pair.

(** A regression loader: one batch of four samples with a rank-1 target. *)
Definition regression_train : DataLoader :=
  mkLoader None
    [(mkTensor [4%nat; 1%nat] [0; 1 # 4; 1 # 2; 1],
      mkTensor [4%nat] [1 # 10; 2 # 10; 3 # 10; 4 # 10])].

(** A regression loader whose targets have three dimensions per sample. *)
Definition regression_train3 : DataLoader :=
  mkLoader None
    [(mkTensor [2%nat; 1%nat] [0; 1],
      mkTensor [2%nat; 3%nat] [1 # 10; 2 # 10; 3 # 10; 4 # 10; 5 # 10; 6 # 10])].

Definition regression_args : FitArgs :=
  mkFitArgs regression_train (1 # 1000) (5 # 10000) 1 "Adam"%string (1 # 2) 100 None
    true.

(** Two training batches of four samples; the second holds the value 3/2. *)
Definition bad_train : DataLoader :=
  mkLoader None
    [(mkTensor [4%nat] [0; 1 # 4; 1 # 2; 1], mkTensor [4%nat] [0; 1; 0; 1]);
     (mkTensor [4%nat] [0; 3 # 2; 1 # 2; 1], mkTensor [4%nat] [1; 0; 1; 0])].

Definition bad_args : FitArgs :=
  mkFitArgs bad_train (1 # 1000) (5 # 10000) 1 "Adam"%string (1 # 2) 100 None true.

(** Two epochs with the validation set and [save_model] unset. *)
Definition args_nosave : FitArgs :=
  mkFitArgs train (1 # 1000) (5 # 10000) 2 "Adam"%string (1 # 2) 100
    (Some validation_set) false.

(** An evaluation loader of two batches, and the same batches in the other
    order. *)
Definition eval_batch1 : Tensor * Tensor :=
  (mkTensor [3%nat] [1; 12; 20], mkTensor [3%nat] [0; 0; 0]).

Definition eval_batch2 : Tensor * Tensor :=
  (mkTensor [2%nat] [5; 15], mkTensor [2%nat] [0; 1]).

Definition eval_loader : DataLoader := mkLoader None [eval_batch1; eval_batch2].

Definition eval_loader_swapped : DataLoader :=
  mkLoader None [eval_batch2; eval_batch1].

(** A training loader that yields no batch and has no [classes]. *)
Definition empty_train : DataLoader := mkLoader None [].

Definition empty_args : FitArgs :=
  mkFitArgs empty_train (1 # 1000) (5 # 10000) 1 "Adam"%string (1 # 2) 100 None true.

(** Three training batches of two samples each. *)
Definition three_batches : DataLoader :=
  mkLoader None
    [(mkTensor [2%nat] [0; 1], mkTensor [2%nat] [0; 1]);
     (mkTensor [2%nat] [1 # 2; 1], mkTensor [2%nat] [1; 1]);
     (mkTensor [2%nat] [0; 1 # 4], mkTensor [2%nat] [0; 0])].

End Scenario.

(** * Properties *)

(** ** Comparisons *)

Lemma Qltb_true (x y : Q) : Qltb x y = true <-> x < y.
Proof.
  unfold Qltb. rewrite negb_true_iff. split; intro H.
  - apply Qnot_le_lt. intro Hle. apply Qle_bool_iff in Hle. congruence.
  - destruct (Qle_bool y x) eqn:E; [|reflexivity].
    apply Qle_bool_iff in E. exfalso. apply (Qlt_not_le _ _ H E).
Qed.

Lemma Qltb_false (x y : Q) : Qltb x y = false <-> y <= x.
Proof.
  unfold Qltb. rewrite negb_false_iff. apply Qle_bool_iff.
Qed.

Lemma Qle_bool_false (x y : Q) : Qle_bool x y = false <-> y < x.
Proof.
  rewrite <- Qltb_true. unfold Qltb. rewrite negb_true_iff. reflexivity.
Qed.

(** ** Extrema of a tensor *)

Lemma fold_min_spec (xs : list Q) :
  forall x, is_min (fold_left Qminb xs x) (x :: xs).
Proof.
  induction xs as [|a xs IH]; intro x; simpl.
  - split; [now left|]. intros y [<-|[]]. apply Qle_refl.
  - destruct (IH (Qminb x a)) as [Hin Hle]. split.
    + destruct Hin as [Hin|Hin]; [|now right; right].
      rewrite <- Hin. unfold Qminb. destruct (Qle_bool x a); [now left|now right; left].
    + assert (Hm : Qminb x a <= x /\ Qminb x a <= a).
      { unfold Qminb. destruct (Qle_bool x a) eqn:E.
        - apply Qle_bool_iff in E. split; [apply Qle_refl|exact E].
        - apply Qle_bool_false in E. split; [apply Qlt_le_weak, E|apply Qle_refl]. }
      destruct Hm as [Hx Ha].
      assert (Hf : fold_left Qminb xs (Qminb x a) <= Qminb x a) by (apply Hle; now left).
      intros y [<-|[<-|Hy]].
      * eapply Qle_trans; eassumption.
      * eapply Qle_trans; eassumption.
      * apply Hle. now right.
Qed.

Lemma fold_max_spec (xs : list Q) :
  forall x, is_max (fold_left Qmaxb xs x) (x :: xs).
Proof.
  induction xs as [|a xs IH]; intro x; simpl.
  - split; [now left|]. intros y [<-|[]]. apply Qle_refl.
  - destruct (IH (Qmaxb x a)) as [Hin Hle]. split.
    + destruct Hin as [Hin|Hin]; [|now right; right].
      rewrite <- Hin. unfold Qmaxb. destruct (Qle_bool x a); [now right; left|now left].
    + assert (Hm : x <= Qmaxb x a /\ a <= Qmaxb x a).
      { unfold Qmaxb. destruct (Qle_bool x a) eqn:E.
        - apply Qle_bool_iff in E. split; [exact E|apply Qle_refl].
        - apply Qle_bool_false in E. split; [apply Qle_refl|apply Qlt_le_weak, E]. }
      destruct Hm as [Hx Ha].
      assert (Hf : Qmaxb x a <= fold_left Qmaxb xs (Qmaxb x a)) by (apply Hle; now left).
      intros y [<-|[<-|Hy]].
      * eapply Qle_trans; eassumption.
      * eapply Qle_trans; eassumption.
      * apply Hle. now right.
Qed.

Lemma torch_min_spec (t : Tensor) :
  elems t <> [] -> exists m, torch_min t = Ok m /\ is_min m (elems t).
Proof.
  unfold torch_min. destruct (elems t) as [|x xs]; [congruence|].
  intros _. eexists. split; [reflexivity|apply fold_min_spec].
Qed.

Lemma torch_max_spec (t : Tensor) :
  elems t <> [] -> exists m, torch_max t = Ok m /\ is_max m (elems t).
Proof.
  unfold torch_max. destruct (elems t) as [|x xs]; [congruence|].
  intros _. eexists. split; [reflexivity|apply fold_max_spec].
Qed.

(** ** The adversarial sample generator *)

Lemma zip_with_length {A C D : Type} (f : A -> C -> D) (xs : list A) (ys : list C) :
  length xs = length ys -> length (zip_with f xs ys) = length xs.
Proof.
  revert ys. induction xs as [|x xs IH]; intros [|y ys] H; simpl in *; try congruence.
  f_equal. apply IH. congruence.
Qed.

Lemma zip_with_nth {A C D : Type} (f : A -> C -> D) (xs : list A) (ys : list C) :
  forall i x y, nth_error xs i = Some x -> nth_error ys i = Some y ->
    nth_error (zip_with f xs ys) i = Some (f x y).
Proof.
  revert ys. induction xs as [|a xs IH]; intros [|b ys] [|i] x y Hx Hy;
    simpl in *; try congruence.
  apply IH; assumption.
Qed.

Lemma zip_with_map_r {A C D E : Type} (f : A -> D -> E) (g : C -> D)
  (xs : list A) (ys : list C) :
  zip_with f xs (map g ys) = zip_with (fun x y => f x (g y)) xs ys.
Proof.
  revert ys. induction xs as [|a xs IH]; intros [|b ys]; simpl; try reflexivity.
  f_equal. apply IH.
Qed.

Lemma map_zip_with {A C D E : Type} (f : A -> C -> D) (g : D -> E)
  (xs : list A) (ys : list C) :
  map g (zip_with f xs ys) = zip_with (fun x y => g (f x y)) xs ys.
Proof.
  revert ys. induction xs as [|a xs IH]; intros [|b ys]; simpl; try reflexivity.
  f_equal. apply IH.
Qed.

Lemma same_shape_true (a b : Tensor) :
  same_shape a b = true <-> size a = size b /\ length (elems a) = length (elems b).
Proof.
  unfold same_shape, same_dims. rewrite andb_true_iff, Nat.eqb_eq.
  destruct (list_eq_dec Nat.eq_dec (size a) (size b)); intuition congruence.
Qed.

(** On a batch in [0,1] that is not constant the generator returns, and what
    it returns is the formula applied entry by entry. *)
Lemma fgsm_returns (sample : Tensor) (epsilon : Q) (sample_grad : Tensor) :
  same_shape sample sample_grad = true ->
  in_unit_range sample ->
  not_constant sample ->
  _get_fgsm_samples sample epsilon sample_grad
  = Ok (mkTensor (size sample)
          (zip_with (fun x g => perturbed_entry x epsilon g)
             (elems sample) (elems sample_grad))).
Proof.
  intros Hshape Hrange (x & y & Hx & Hy & Hxy).
  assert (Hne : elems sample <> []) by (intro E; rewrite E in Hx; exact Hx).
  destruct (torch_min_spec sample Hne) as (mn & Emn & Hmn_in & Hmn).
  destruct (torch_max_spec sample Hne) as (mx & Emx & Hmx_in & Hmx).
  unfold _get_fgsm_samples. rewrite Emn, Emx. simpl.
  assert (H0 : Qle_bool 0 mn = true) by (apply Qle_bool_iff, Hrange, Hmn_in).
  assert (H1 : Qle_bool mx 1 = true) by (apply Qle_bool_iff, Hrange, Hmx_in).
  assert (Hlt : Qltb mn mx = true).
  { apply Qltb_true. apply Qle_lt_trans with x; [apply Hmn, Hx|].
    apply Qlt_le_trans with y; [exact Hxy|apply Hmx, Hy]. }
  rewrite H0, H1, Hlt. simpl.
  unfold tensor_add.
  assert (Hs : same_shape sample (tensor_scale epsilon (tensor_sign sample_grad)) = true).
  { apply same_shape_true in Hshape. apply same_shape_true. simpl.
    rewrite !length_map. exact Hshape. }
  rewrite Hs. simpl. unfold torch_clamp. simpl. f_equal. f_equal.
  rewrite !zip_with_map_r, map_zip_with. reflexivity.
Qed.

Lemma sgn_cases (g : Q) : sgn g = -1 \/ sgn g = 0 \/ sgn g = 1.
Proof.
  unfold sgn. destruct (Qnum g); simpl; auto.
Qed.

Lemma clamp_unit_range (z : Q) : 0 <= clamp z 0 1 <= 1.
Proof.
  unfold clamp. destruct (Qltb z 0) eqn:E0; [lra|].
  destruct (Qltb 1 z) eqn:E1; [lra|].
  apply Qltb_false in E0, E1. lra.
Qed.

Lemma perturbed_entry_close (x epsilon g : Q) :
  0 <= x <= 1 -> 0 <= epsilon ->
  Qabs (perturbed_entry x epsilon g - x) <= epsilon.
Proof.
  intros Hx He. apply Qabs_Qle_condition.
  unfold perturbed_entry, clamp.
  destruct (Qltb (x + epsilon * sgn g) 0) eqn:E0;
    [apply Qltb_true in E0|apply Qltb_false in E0];
    [|destruct (Qltb 1 (x + epsilon * sgn g)) eqn:E1;
      [apply Qltb_true in E1|apply Qltb_false in E1]];
    destruct (sgn_cases g) as [S|[S|S]]; rewrite S in *; lra.
Qed.




(** With the identity for the rounding, the generator in rounded arithmetic
    is the generator in exact arithmetic. *)
Lemma rounded_exact (sample : Tensor) (epsilon : Q) (sample_grad : Tensor) :
  Rounded._get_fgsm_samples (fun z => z) sample epsilon sample_grad
  = _get_fgsm_samples sample epsilon sample_grad.
Proof. reflexivity. Qed.

(** ** The generator in rounded arithmetic *)

Section RoundedGenerator.

Lemma pow2_pos (k : Z) : 0 < Rounded.pow2 k.
Proof. unfold Rounded.pow2. apply Qpower_0_lt. reflexivity. Qed.

Lemma round_half_even_error (y : Q) :
  Qabs (inject_Z (Rounded.round_half_even y) - y) <= 1 # 2.
Proof.
  unfold Rounded.round_half_even.
  pose proof (Qfloor_le y) as Hlo. pose proof (Qlt_floor y) as Hhi.
  rewrite inject_Z_plus in Hhi. change (inject_Z 1) with 1 in Hhi.
  apply Qabs_Qle_condition.
  destruct (Qcompare_spec (y - inject_Z (Qfloor y)) (1 # 2)) as [E|E|E].
  - destruct (Z.even (Qfloor y)); [|rewrite inject_Z_plus; change (inject_Z 1) with 1];
      lra.
  - lra.
  - rewrite inject_Z_plus. change (inject_Z 1) with 1. lra.
Qed.

Lemma exponent_small (x : Q) : Qabs x <= 3 -> (Rounded.exponent x <= 1)%Z.
Proof.
  intros Hx. unfold Rounded.exponent.
  set (k := (Z.log2 (Z.abs (Qnum x)) - Z.log2 (Z.pos (Qden x)))%Z).
  destruct (Qltb (Qabs x) (Rounded.pow2 k)) eqn:E.
  - assert (Hk : (k <= 2)%Z); [|lia].
    destruct x as [a b]. unfold Qabs, Qle in Hx. simpl in Hx. subst k. simpl Qnum.
    simpl Qden.
    assert (H4 : (Z.log2 (Z.abs a) <= Z.log2 (Z.pos b * 2 ^ 2))%Z)
      by (apply Z.log2_le_mono; lia).
    rewrite Z.log2_mul_pow2 in H4 by lia. lia.
  - apply Qltb_false in E.
    assert (Hlt : Rounded.pow2 k < Rounded.pow2 2).
    { apply Qle_lt_trans with (Qabs x); [exact E|].
      apply Qle_lt_trans with 3; [exact Hx|reflexivity]. }
    apply Qpower_lt_compat_l_inv in Hlt; [lia|reflexivity].
Qed.

(** Rounding to binary32 moves a number of absolute value at most 3 by at
    most [2 ^ -23]. *)
Lemma round_binary32_error (x : Q) :
  Qabs x <= 3 -> Qabs (Rounded.round_binary32 x - x) <= Rounded.pow2 (-23).
Proof.
  intros Hx. unfold Rounded.round_binary32.
  destruct (Qeq_bool x 0) eqn:E0.
  - apply Qeq_bool_iff in E0. rewrite E0. discriminate.
  - set (q := (Z.max (Rounded.exponent x) (-126) - 23)%Z).
    assert (Hq : (q <= -22)%Z) by (pose proof (exponent_small x Hx); lia).
    pose proof (pow2_pos q) as Hp.
    pose proof (round_half_even_error (x / Rounded.pow2 q)) as Hr.
    set (r := inject_Z (Rounded.round_half_even (x / Rounded.pow2 q))) in *.
    assert (Heq : r * Rounded.pow2 q - x == (r - x / Rounded.pow2 q) * Rounded.pow2 q).
    { field. lra. }
    rewrite Heq, Qabs_Qmult, (Qabs_pos (Rounded.pow2 q)) by lra.
    apply Qle_trans with ((1 # 2) * Rounded.pow2 (-22)).
    + apply Qle_trans with ((1 # 2) * Rounded.pow2 q).
      * apply Qmult_le_compat_r; [exact Hr|lra].
      * apply Qmult_le_l; [reflexivity|].
        unfold Rounded.pow2. apply Qpower_le_compat_l; [exact Hq|discriminate].
    + discriminate.
Qed.

Variable round : Q -> Q.
Variable delta : Q.
Hypothesis round_error : forall z, Qabs z <= 3 -> Qabs (round z - z) <= delta.
Hypothesis delta_small : delta <= 1.

Lemma rounded_entry_close (x epsilon g : Q) :
  0 <= x <= 1 -> 0 <= epsilon <= 1 ->
  Qabs (Rounded.perturbed_entry round x epsilon g - x) <= epsilon + 2 * delta.
Proof.
  intros Hx He.
  assert (Hs : Qabs (epsilon * sgn g) <= 3).
  { apply Qabs_Qle_condition.
    destruct (sgn_cases g) as [S|[S|S]]; rewrite S; lra. }
  pose proof (round_error _ Hs) as H1. apply Qabs_Qle_condition in H1.
  assert (Hse : - epsilon <= epsilon * sgn g <= epsilon)
    by (destruct (sgn_cases g) as [S|[S|S]]; rewrite S; lra).
  set (s := epsilon * sgn g) in *.
  assert (Hy : Qabs (x + round s) <= 3) by (apply Qabs_Qle_condition; lra).
  pose proof (round_error _ Hy) as H2. apply Qabs_Qle_condition in H2.
  apply Qabs_Qle_condition.
  unfold Rounded.perturbed_entry, clamp. fold s.
  set (y := round (x + round s)) in *.
  destruct (Qltb y 0) eqn:E0;
    [apply Qltb_true in E0|apply Qltb_false in E0];
    [|destruct (Qltb 1 y) eqn:E1;
      [apply Qltb_true in E1|apply Qltb_false in E1]]; lra.
Qed.

Lemma rounded_fgsm_returns (sample : Tensor) (epsilon : Q) (sample_grad : Tensor) :
  same_shape sample sample_grad = true ->
  in_unit_range sample ->
  not_constant sample ->
  Rounded._get_fgsm_samples round sample epsilon sample_grad
  = Ok (mkTensor (size sample)
          (zip_with (fun x g => Rounded.perturbed_entry round x epsilon g)
             (elems sample) (elems sample_grad))).
Proof.
  intros Hshape Hrange (x & y & Hx & Hy & Hxy).
  assert (Hne : elems sample <> []) by (intro E; rewrite E in Hx; exact Hx).
  destruct (torch_min_spec sample Hne) as (mn & Emn & Hmn_in & Hmn).
  destruct (torch_max_spec sample Hne) as (mx & Emx & Hmx_in & Hmx).
  unfold Rounded._get_fgsm_samples. rewrite Emn, Emx. simpl.
  assert (H0 : Qle_bool 0 mn = true) by (apply Qle_bool_iff, Hrange, Hmn_in).
  assert (H1 : Qle_bool mx 1 = true) by (apply Qle_bool_iff, Hrange, Hmx_in).
  assert (Hlt : Qltb mn mx = true).
  { apply Qltb_true. apply Qle_lt_trans with x; [apply Hmn, Hx|].
    apply Qlt_le_trans with y; [exact Hxy|apply Hmx, Hy]. }
  rewrite H0, H1, Hlt. simpl.
  unfold Rounded.tensor_add.
  assert (Hs : same_shape sample
                 (Rounded.tensor_scale round epsilon (tensor_sign sample_grad)) = true).
  { apply same_shape_true in Hshape. apply same_shape_true. simpl.
    rewrite !length_map. exact Hshape. }
  rewrite Hs. simpl. unfold torch_clamp. simpl. f_equal. f_equal.
  rewrite !zip_with_map_r, map_zip_with. reflexivity.
Qed.

End RoundedGenerator.

(** C5, as amended: for every input batch with all values in [0,1] whose
    minimum is strictly below its maximum, every epsilon in (0,1] and a
    gradient of the shape of the batch, the generator returns a batch with
    as many entries, every entry of it lies in [0,1], and each entry differs
    from the input entry at its position by at most epsilon plus twice
    delta, where delta (at most 1) bounds the error of one rounding of a
    number of absolute value at most 3: [2 ^ -23] for binary32, 0 in exact
    arithmetic. *)
Theorem fgsm_output_in_range_and_close (round : Q -> Q) (delta : Q) (sample : Tensor)
  (epsilon : Q) (sample_grad : Tensor) :
  (forall z, Qabs z <= 3 -> Qabs (round z - z) <= delta) ->
  delta <= 1 ->
  same_shape sample sample_grad = true ->
  in_unit_range sample ->
  not_constant sample ->
  0 < epsilon <= 1 ->
  exists perturbed,
    Rounded._get_fgsm_samples round sample epsilon sample_grad = Ok perturbed
    /\ length (elems perturbed) = length (elems sample)
    /\ in_unit_range perturbed
    /\ forall i x p,
         nth_error (elems sample) i = Some x ->
         nth_error (elems perturbed) i = Some p ->
         Qabs (p - x) <= epsilon + 2 * delta.
Proof.
  intros Hround Hdelta Hshape Hrange Hnc Heps.
  eexists. split; [apply rounded_fgsm_returns; assumption|].
  simpl. apply same_shape_true in Hshape. destruct Hshape as [_ Hlen].
  split; [now apply zip_with_length|]. split.
  - intros p Hp. simpl in Hp. clear - Hp. revert Hp. generalize (elems sample_grad).
    induction (elems sample) as [|a xs IH]; intros [|b ys] Hp; simpl in Hp;
      try contradiction.
    destruct Hp as [<-|Hp]; [apply clamp_unit_range|eapply IH, Hp].
  - intros i x p Hx Hp.
    destruct (nth_error (elems sample_grad) i) as [g|] eqn:Hg.
    + rewrite (zip_with_nth _ _ _ i x g Hx Hg) in Hp. injection Hp as <-.
      apply (rounded_entry_close round delta Hround Hdelta); [|lra].
      apply Hrange. eapply nth_error_In, Hx.
    + apply nth_error_None in Hg.
      assert (Hi : (i < length (elems sample))%nat)
        by (apply nth_error_Some; congruence).
      lia.
Qed.

Lemma fgsm_output_in_range_and_close_witness :
  exists perturbed,
    Rounded._get_fgsm_samples Rounded.round_binary32
      (mkTensor [2%nat] [10066330 # 33554432; 11744051 # 16777216]) (1 # 10)
      (mkTensor [2%nat] [1; -(1)])
    = Ok perturbed
    /\ length (elems perturbed) = 2%nat
    /\ in_unit_range perturbed
    /\ forall i x p,
         nth_error [10066330 # 33554432; 11744051 # 16777216] i = Some x ->
         nth_error (elems perturbed) i = Some p ->
         Qabs (p - x) <= (1 # 10) + 2 * Rounded.pow2 (-23).
Proof.
  apply (fgsm_output_in_range_and_close Rounded.round_binary32 (Rounded.pow2 (-23))
           (mkTensor [2%nat] [10066330 # 33554432; 11744051 # 16777216]) (1 # 10)
           (mkTensor [2%nat] [1; -(1)])).
  - exact round_binary32_error.
  - discriminate.
  - reflexivity.
  - intros x [<-|[<-|[]]]; split; discriminate.
  - exists (10066330 # 33554432), (11744051 # 16777216). simpl.
    split; [auto|split; [auto|reflexivity]].
  - split; [reflexivity|discriminate].
Defined.

(** In binary32 the step can exceed epsilon: on the batch of the binary32
    numbers nearest to 0.3 and 0.7, with epsilon = 0.1 and a negative
    gradient at the second entry, the generator returns 10066329 / 2^24 for
    that entry, which is more than 0.1 below the input entry. *)
Lemma fgsm_binary32_step_exceeds_epsilon :
  in_unit_range (mkTensor [2%nat] [10066330 # 33554432; 11744051 # 16777216])
  /\ exists perturbed p,
       Rounded._get_fgsm_samples Rounded.round_binary32
         (mkTensor [2%nat] [10066330 # 33554432; 11744051 # 16777216]) (1 # 10)
         (mkTensor [2%nat] [1; -(1)])
       = Ok perturbed
       /\ nth_error (elems perturbed) 1 = Some p
       /\ p == 10066329 # 16777216
       /\ 1 # 10 < Qabs (p - (11744051 # 16777216)).
Proof.
  split; [intros x [<-|[<-|[]]]; split; discriminate|].
  eexists. eexists. split; [vm_compute; reflexivity|].
  split; [reflexivity|]. split; reflexivity.
Qed.

(** C5 as stated fails on the all-zeros batch with epsilon = 1: there is no
    output whose entries could be bounded. *)
Lemma fgsm_all_zeros_batch_has_no_output :
  in_unit_range (mkTensor [3%nat] [0; 0; 0])
  /\ 0 < 1 <= 1
  /\ _get_fgsm_samples (mkTensor [3%nat] [0; 0; 0]) 1 (mkTensor [3%nat] [1; 1; 1])
     = Raise (ValueError (BadInputRange 0 0))
  /\ (forall perturbed,
        _get_fgsm_samples (mkTensor [3%nat] [0; 0; 0]) 1 (mkTensor [3%nat] [1; 1; 1])
        = Ok perturbed -> False).
Proof.
  split; [|split; [|split]].
  - intros x [<-|[<-|[<-|[]]]]; lra.
  - lra.
  - reflexivity.
  - intros perturbed H. vm_compute in H. discriminate H.
Qed.

(** The generator raises the range error exactly when the check of the
    extrema fails. *)
Lemma fgsm_raises (sample : Tensor) (epsilon : Q) (sample_grad : Tensor) (mn mx : Q) :
  torch_min sample = Ok mn ->
  torch_max sample = Ok mx ->
  mn < 0 \/ mx <= mn \/ 1 < mx ->
  _get_fgsm_samples sample epsilon sample_grad = Raise (ValueError (BadInputRange mn mx)).
Proof.
  intros Emn Emx H. unfold _get_fgsm_samples. rewrite Emn, Emx. simpl.
  assert (E : Qle_bool 0 mn && Qltb mn mx && Qle_bool mx 1 = false).
  { destruct H as [H|[H|H]].
    - apply Qle_bool_false in H. now rewrite H.
    - apply Qltb_false in H. rewrite H. now rewrite andb_false_r.
    - apply Qle_bool_false in H. rewrite H. now rewrite andb_false_r. }
  now rewrite E.
Qed.

(** C6: for every input batch containing at least one value strictly less
    than 0 or strictly greater than 1, the adversarial sample generator fails
    with the error that carries the observed minimum and maximum of that
    batch. *)
Theorem fgsm_rejects_out_of_range (sample : Tensor) (epsilon : Q) (sample_grad : Tensor) :
  (exists x, In x (elems sample) /\ (x < 0 \/ 1 < x)) ->
  exists min_value max_value,
    _get_fgsm_samples sample epsilon sample_grad
    = Raise (ValueError (BadInputRange min_value max_value))
    /\ is_min min_value (elems sample)
    /\ is_max max_value (elems sample).
Proof.
  intros (x & Hx & Hout).
  assert (Hne : elems sample <> []) by (intro E; rewrite E in Hx; exact Hx).
  destruct (torch_min_spec sample Hne) as (mn & Emn & Hmn).
  destruct (torch_max_spec sample Hne) as (mx & Emx & Hmx).
  exists mn, mx. split; [|split; assumption].
  apply fgsm_raises; try assumption.
  destruct Hout as [Hlt|Hgt].
  - left. apply Qle_lt_trans with x; [apply Hmn, Hx|exact Hlt].
  - right; right. apply Qlt_le_trans with x; [exact Hgt|apply Hmx, Hx].
Qed.

Lemma fgsm_rejects_out_of_range_witness :
  exists min_value max_value,
    _get_fgsm_samples (mkTensor [2%nat; 2%nat] [1 # 4; 3 # 2; 0; 1 # 2]) (1 # 100)
      (mkTensor [2%nat; 2%nat] [1; 1; 1; 1])
    = Raise (ValueError (BadInputRange min_value max_value))
    /\ is_min min_value [1 # 4; 3 # 2; 0; 1 # 2]
    /\ is_max max_value [1 # 4; 3 # 2; 0; 1 # 2].
Proof.
  apply (fgsm_rejects_out_of_range (mkTensor [2%nat; 2%nat] [1 # 4; 3 # 2; 0; 1 # 2])
           (1 # 100) (mkTensor [2%nat; 2%nat] [1; 1; 1; 1])).
  exists (3 # 2). simpl. split; [auto|right; reflexivity].
Defined.

(** C10: for every input batch all of whose elements are equal (so that its
    minimum equals its maximum), constant batches inside [0,1] included, the
    adversarial sample generator raises the ValueError of its range check
    and returns no perturbed batch. *)
Theorem fgsm_rejects_constant_batch (sample : Tensor) (epsilon : Q)
  (sample_grad : Tensor) :
  elems sample <> [] ->
  (forall x y, In x (elems sample) -> In y (elems sample) -> x == y) ->
  exists min_value max_value,
    _get_fgsm_samples sample epsilon sample_grad
    = Raise (ValueError (BadInputRange min_value max_value))
    /\ is_min min_value (elems sample)
    /\ is_max max_value (elems sample)
    /\ min_value == max_value.
Proof.
  intros Hne Heq.
  destruct (torch_min_spec sample Hne) as (mn & Emn & Hmn).
  destruct (torch_max_spec sample Hne) as (mx & Emx & Hmx).
  assert (E : mn == mx) by (apply Heq; [apply Hmn|apply Hmx]).
  exists mn, mx. split; [|split; [|split]]; try assumption.
  apply fgsm_raises; try assumption.
  right; left. rewrite E. apply Qle_refl.
Qed.

Lemma fgsm_rejects_constant_batch_witness :
  exists min_value max_value,
    _get_fgsm_samples (mkTensor [2%nat] [1; 1]) (1 # 2) (mkTensor [2%nat] [1; -(1)])
    = Raise (ValueError (BadInputRange min_value max_value))
    /\ is_min min_value [1; 1]
    /\ is_max max_value [1; 1]
    /\ min_value == max_value.
Proof.
  apply (fgsm_rejects_constant_batch (mkTensor [2%nat] [1; 1]) (1 # 2)
           (mkTensor [2%nat] [1; -(1)])).
  - discriminate.
  - intros x y [<-|[<-|[]]] [<-|[<-|[]]]; reflexivity.
Defined.

(** ** The dispatch over the worker pool *)

Section Dispatch.
Context {B : Backend}.

Lemma parallel_enumerated_ok (f : nat -> Estimator -> list Event * Result Estimator)
  (xs : list Estimator) :
  forall k,
    (forall i x, nth_error xs i = Some x -> exists y, snd (f (k + i)%nat x) = Ok y) ->
    exists ys,
      snd (parallel (map (fun p => f (fst p) (snd p))
                         (combine (seq k (length xs)) xs))) = Ok ys
      /\ length ys = length xs
      /\ forall i x, nth_error xs i = Some x ->
           exists y, snd (f (k + i)%nat x) = Ok y /\ nth_error ys i = Some y.
Proof.
  induction xs as [|x xs IH]; intros k Hall; simpl.
  - exists []. split; [reflexivity|]. split; [reflexivity|].
    intros [|i] x H; discriminate H.
  - destruct (Hall 0%nat x eq_refl) as (y & Hy). rewrite Nat.add_0_r in Hy.
    destruct (IH (S k)) as (ys & Hys & Hlen & Hnth).
    { intros i x' Hx'. destruct (Hall (S i) x' Hx') as (y' & Hy').
      exists y'. now rewrite Nat.add_succ_comm. }
    exists (y :: ys).
    destruct (f k x) as [evs r] eqn:Ef. simpl in Hy. subst r.
    destruct (parallel _) as [evs' r']. simpl in Hys. subst r'. simpl.
    split; [reflexivity|]. split; [now rewrite Hlen|].
    intros [|i] x' Hx'; simpl in Hx'.
    + injection Hx' as <-. exists y. rewrite Nat.add_0_r, Ef.
      split; reflexivity.
    + destruct (Hnth i x' Hx') as (y' & Hy' & Hn). exists y'.
      rewrite <- Nat.add_succ_comm. split; assumption.
Qed.

Lemma dispatch_unfold (a : FitArgs) (criterion : Criterion) (is_classification : bool)
  (epoch : nat) (estimators : list Estimator) :
  dispatch a criterion is_classification epoch estimators
  = parallel
      (map (fun p =>
              _parallel_fit_per_epoch (train_loader a) (lr a) (weight_decay a) epoch
                (optimizer a) (epsilon a) (log_interval a) (fst p) (snd p) criterion
                is_classification)
           (combine (seq 0 (length estimators)) estimators)).
Proof.
  unfold dispatch, enumerate. f_equal. apply map_ext. intros [idx estimator].
  reflexivity.
Qed.

(** C9: for every epoch dispatch of the parallel training coordinator over a
    list of estimators whose workers all return, the returned list has the
    length of the input list and its element at index i is the estimator
    that the worker returned for the input estimator at index i, for every
    i. *)
Theorem dispatch_keeps_positions (a : FitArgs) (criterion : Criterion)
  (is_classification : bool) (epoch : nat) (estimators : list Estimator) :
  (forall i estimator,
     nth_error estimators i = Some estimator ->
     exists estimator',
       trained a criterion is_classification epoch i estimator = Ok estimator') ->
  exists rets,
    snd (dispatch a criterion is_classification epoch estimators) = Ok rets
    /\ length rets = length estimators
    /\ forall i estimator,
         nth_error estimators i = Some estimator ->
         exists estimator',
           trained a criterion is_classification epoch i estimator = Ok estimator'
           /\ nth_error rets i = Some estimator'.
Proof.
  intros Hall. rewrite dispatch_unfold.
  exact (parallel_enumerated_ok
           (fun idx estimator =>
              _parallel_fit_per_epoch (train_loader a) (lr a) (weight_decay a) epoch
                (optimizer a) (epsilon a) (log_interval a) idx estimator criterion
                is_classification)
           estimators 0%nat Hall).
Qed.

End Dispatch.

Lemma dispatch_keeps_positions_witness :
  exists rets,
    snd (dispatch (B := Scenario.toy) (Scenario.args 1 (1 # 1000) None)
           CrossEntropyLoss true 0 [0%nat; 5%nat]) = Ok rets
    /\ length rets = 2%nat
    /\ forall i estimator,
         nth_error [0%nat; 5%nat] i = Some estimator ->
         exists estimator',
           trained (B := Scenario.toy) (Scenario.args 1 (1 # 1000) None)
             CrossEntropyLoss true 0 i estimator = Ok estimator'
           /\ nth_error rets i = Some estimator'.
Proof.
  apply (dispatch_keeps_positions (B := Scenario.toy)
           (Scenario.args 1 (1 # 1000) None) CrossEntropyLoss true 0%nat
           [0%nat; 5%nat]).
  intros [|[|i]] estimator H; simpl in H.
  - injection H as <-. exists 1%nat. reflexivity.
  - injection H as <-. exists 6%nat. reflexivity.
  - destruct i; discriminate H.
Defined.

(** ** The classification aggregator *)

Section Aggregation.
Context {B : Backend}.
Hypothesis exp_positive : forall z, 0 < exp z.

Lemma Qsum_map_div {A : Type} (f : A -> Q) (c : Q) (xs : list A) :
  Qsum (map (fun z => f z / c) xs) == Qsum (map f xs) / c.
Proof.
  induction xs as [|x xs IH]; simpl.
  - unfold Qdiv. ring.
  - rewrite IH. unfold Qdiv. ring.
Qed.

Lemma Qsum_exp_positive (row : list Q) : row <> [] -> 0 < Qsum (map exp row).
Proof.
  destruct row as [|z row]; [congruence|]. intros _. simpl.
  assert (H : 0 <= Qsum (map exp row)).
  { induction row as [|y row IH]; simpl; [lra|].
    pose proof (exp_positive y). lra. }
  pose proof (exp_positive z). lra.
Qed.

Lemma softmax_row_sums_to_one (row : list Q) :
  row <> [] -> Qsum (softmax_row row) == 1.
Proof.
  intros Hne. unfold softmax_row. rewrite Qsum_map_div.
  pose proof (Qsum_exp_positive row Hne) as Hpos.
  field. lra.
Qed.

Lemma Qsum_zip_plus (xs ys : list Q) :
  length xs = length ys -> Qsum (zip_with Qplus xs ys) == Qsum xs + Qsum ys.
Proof.
  revert ys. induction xs as [|x xs IH]; intros [|y ys] H; simpl in *;
    try discriminate H.
  - ring.
  - rewrite IH by congruence. ring.
Qed.

Lemma dims_softmax (m : Matrix) : dims (softmax m) = dims m.
Proof.
  unfold dims, softmax. rewrite map_map. apply map_ext. intros row.
  unfold softmax_row. apply length_map.
Qed.

Lemma dims_mdiv (m : Matrix) (n : nat) : dims (mdiv m n) = dims m.
Proof.
  unfold dims, mdiv. rewrite map_map. apply map_ext. intros row. apply length_map.
Qed.

Lemma dims_zeros (rows cols : nat) : dims (zeros rows cols) = repeat cols rows.
Proof.
  unfold dims, zeros. induction rows as [|r IH]; simpl; [reflexivity|].
  rewrite repeat_length. now rewrite IH.
Qed.

Lemma Qsum_repeat_zero (n : nat) : Qsum (repeat 0 n) == 0.
Proof.
  induction n as [|n IH]; simpl; [reflexivity|]. rewrite IH. ring.
Qed.

(** Adding two matrices of one shape adds the sums of their rows. *)
Lemma zip_rows_sum (c d : Q) (a b : Matrix) :
  dims a = dims b ->
  Forall (fun row => Qsum row == c) a ->
  Forall (fun row => Qsum row == d) b ->
  dims (zip_with (zip_with Qplus) a b) = dims a
  /\ Forall (fun row => Qsum row == c + d) (zip_with (zip_with Qplus) a b).
Proof.
  revert b. induction a as [|ra a IH]; intros [|rb b] Hd Ha Hb; simpl in *;
    try discriminate Hd.
  - split; [reflexivity|constructor].
  - injection Hd as Hlen Hd. inversion Ha as [|? ? Hra Ha']; subst.
    inversion Hb as [|? ? Hrb Hb']; subst.
    destruct (IH b Hd Ha' Hb') as [IHd IHs]. split.
    + f_equal; [now apply zip_with_length|exact IHd].
    + constructor; [|exact IHs].
      rewrite Qsum_zip_plus by exact Hlen. rewrite Hra, Hrb. reflexivity.
Qed.

Lemma softmax_rows_sum (n_est n_out rows : nat) (out : Matrix) :
  (0 < n_out)%nat ->
  dims out = repeat n_out rows ->
  Forall (fun row => Qsum row == 1 / inject_Z (Z.of_nat n_est))
    (mdiv (softmax out) n_est).
Proof.
  intros Hn Hd. apply Forall_forall. intros row Hin.
  unfold mdiv, softmax in Hin. rewrite map_map in Hin.
  apply in_map_iff in Hin. destruct Hin as (r & <- & Hr).
  assert (Hne : r <> []).
  { assert (Hl : In (length r) (dims out)) by (unfold dims; now apply in_map).
    rewrite Hd in Hl. apply repeat_spec in Hl. intro E. rewrite E in Hl.
    simpl in Hl. lia. }
  rewrite (Qsum_map_div (fun x => x) _ (softmax_row r)).
  rewrite map_id. rewrite (softmax_row_sums_to_one r Hne). reflexivity.
Qed.

End Aggregation.

Lemma inject_succ (n : nat) :
  inject_Z (Z.of_nat (S n)) == inject_Z (Z.of_nat n) + 1.
Proof.
  rewrite Nat2Z.inj_succ. unfold Z.succ. rewrite inject_Z_plus. reflexivity.
Qed.

(** The loop of the classifier's aggregator keeps the shape of [proba] and
    adds [1 / n_est] to the sum of every row for each estimator it visits. *)
Lemma accumulate_rows {B : Backend} (n_est n_out rows : nat) (data : Tensor) :
  (forall z, 0 < exp z) ->
  (0 < n_out)%nat ->
  forall (estimators : list Estimator) (proba : Matrix) (c : Q),
    (forall estimator, In estimator estimators ->
       dims (estimator_forward estimator data) = repeat n_out rows) ->
    dims proba = repeat n_out rows ->
    Forall (fun row => Qsum row == c) proba ->
    exists result,
      AdversarialTrainingClassifier.accumulate n_est estimators data proba = Ok result
      /\ dims result = repeat n_out rows
      /\ Forall (fun row =>
                   Qsum row
                   == c + inject_Z (Z.of_nat (length estimators))
                          / inject_Z (Z.of_nat n_est)) result.
Proof.
  intros Hexp Hn. induction estimators as [|estimator rest IH];
    intros proba c Hout Hd Hc; simpl.
  - exists proba. split; [reflexivity|]. split; [exact Hd|].
    eapply Forall_impl; [|exact Hc]. intros row H. simpl in H |- *. rewrite H.
    unfold Qdiv. ring.
  - assert (Ho : dims (estimator_forward estimator data) = repeat n_out rows)
      by (apply Hout; now left).
    set (step := mdiv (softmax (estimator_forward estimator data)) n_est).
    assert (Hds : dims step = repeat n_out rows).
    { unfold step. now rewrite dims_mdiv, dims_softmax. }
    unfold madd, same_dims. rewrite Hd, Hds.
    destruct (list_eq_dec Nat.eq_dec (repeat n_out rows) (repeat n_out rows))
      as [_|Hne]; [|congruence]. simpl.
    destruct (zip_rows_sum c (1 / inject_Z (Z.of_nat n_est)) proba step) as [Hd' Hs'].
    + now rewrite Hd, Hds.
    + exact Hc.
    + unfold step. eapply softmax_rows_sum; eassumption.
    + destruct (IH (zip_with (zip_with Qplus) proba step)
                  (c + 1 / inject_Z (Z.of_nat n_est))) as (result & Hr & Hrd & Hrs).
      * intros e He. apply Hout. now right.
      * now rewrite Hd'.
      * exact Hs'.
      * exists result. split; [exact Hr|]. split; [exact Hrd|].
        eapply Forall_impl; [|exact Hrs]. intros row H. simpl in H. rewrite H.
        change (Z.pos (Pos.of_succ_nat (length rest)))
          with (Z.of_nat (S (length rest))).
        rewrite inject_succ. unfold Qdiv. ring.
Qed.

(** C8: for every input batch, each row of the classification ensemble's
    aggregated output, the average over n_estimators estimators of their
    softmax distributions, sums to 1 across the n_outputs columns.  The
    estimators are n_estimators >= 1 in number and answer with a matrix of
    one row per sample and n_outputs >= 1 columns, as the estimator
    interface requires; the exponential is positive.  The statement covers
    the helper inside [fit] and, for the committed set, [forward]. *)
Theorem classifier_output_rows_sum_to_one {B : Backend} (self : Ensemble)
  (estimators : list Estimator) (data : Tensor) (batch_size n_out : nat) :
  (forall z, 0 < exp z) ->
  size_at data 0 = Ok batch_size ->
  n_outputs self = Some n_out ->
  (0 < n_out)%nat ->
  (0 < n_estimators self)%nat ->
  length estimators = n_estimators self ->
  (forall estimator, In estimator estimators ->
     dims (estimator_forward estimator data) = repeat n_out batch_size) ->
  exists proba,
    AdversarialTrainingClassifier._forward self estimators data = Ok proba
    /\ (estimators = estimators_ self ->
        AdversarialTrainingClassifier.forward self data = Ok proba)
    /\ dims proba = repeat n_out batch_size
    /\ forall row, In row proba -> Qsum row == 1.
Proof.
  intros Hexp Hsize Hno Hn Hne Hlen Hout.
  destruct (accumulate_rows (n_estimators self) n_out batch_size data Hexp Hn
              estimators (zeros batch_size n_out) 0 Hout (dims_zeros _ _))
    as (proba & Hacc & Hd & Hs).
  { apply Forall_forall. intros row Hin. unfold zeros in Hin.
    apply repeat_spec in Hin. subst row. apply Qsum_repeat_zero. }
  exists proba.
  assert (Hf : AdversarialTrainingClassifier._forward self estimators data = Ok proba).
  { unfold AdversarialTrainingClassifier._forward. rewrite Hsize. simpl.
    rewrite Hno. exact Hacc. }
  split; [exact Hf|]. split.
  - intros ->. exact Hf.
  - split; [exact Hd|]. intros row Hin.
    rewrite Forall_forall in Hs. rewrite (Hs row Hin), Hlen.
    assert (Hz : ~ inject_Z (Z.of_nat (n_estimators self)) == 0).
    { intro E. unfold Qeq in E. simpl in E. lia. }
    field. exact Hz.
Qed.

Lemma classifier_output_rows_sum_to_one_witness :
  exists proba,
    AdversarialTrainingClassifier._forward (B := Scenario.toy)
      Scenario.committed_pair Scenario.pair (mkTensor [3%nat] [1; 12; 20]) = Ok proba
    /\ (Scenario.pair = estimators_ Scenario.committed_pair ->
        AdversarialTrainingClassifier.forward (B := Scenario.toy)
          Scenario.committed_pair (mkTensor [3%nat] [1; 12; 20]) = Ok proba)
    /\ dims proba = [2%nat; 2%nat; 2%nat]
    /\ forall row, In row proba -> Qsum row == 1.
Proof.
  apply (classifier_output_rows_sum_to_one (B := Scenario.toy)
           Scenario.committed_pair Scenario.pair
           (mkTensor [3%nat] [1; 12; 20]) 3 2).
  - intros z. simpl. destruct (Qle_bool z 0); reflexivity.
  - reflexivity.
  - reflexivity.
  - simpl. lia.
  - simpl. lia.
  - reflexivity.
  - intros estimator [<-|[<-|[]]]; reflexivity.
Defined.

(** ** Traces of a fit *)

Section FitTraces.
Context {B : Backend}.

Lemma fit_batches_events (criterion : Criterion) (epoch : nat) (eps : Q)
  (log_interval : Z) (idx : nat) (is_classification : bool)
  (todo : list (nat * (Tensor * Tensor))) :
  forall optimizer estimator,
    Forall worker_event
      (fst (fit_batches criterion epoch eps log_interval idx is_classification todo
              optimizer estimator)).
Proof.
  induction todo as [|[batch_idx [data target]] rest IH]; intros opt est; simpl.
  - constructor.
  - destruct (size_at data 0) as [batch_size|e]; [|constructor].
    destruct (_get_fgsm_samples data eps _) as [adv|e]; [|constructor].
    destruct (optimizer_step _ _ _ _ _ _) as [opt' est'].
    specialize (IH opt' est').
    destruct (fit_batches _ _ _ _ _ _ rest opt' est') as [evs' r].
    simpl in IH.
    destruct (Z.of_nat batch_idx mod log_interval =? 0)%Z; simpl.
    + destruct is_classification; simpl.
      * destruct (bind _ _) as [correct|e]; simpl; [|constructor].
        constructor; [exact I|exact IH].
      * constructor; [exact I|exact IH].
    + exact IH.
Qed.

Lemma parallel_fit_events (loader : DataLoader) (lr wd : Q) (epoch : nat)
  (opt : string) (eps : Q) (log_interval : Z) (idx : nat) (estimator : Estimator)
  (criterion : Criterion) (is_classification : bool) :
  Forall worker_event
    (fst (_parallel_fit_per_epoch loader lr wd epoch opt eps log_interval idx
            estimator criterion is_classification)).
Proof.
  unfold _parallel_fit_per_epoch.
  destruct (set_optimizer estimator opt lr wd) as [o|e]; [|constructor].
  pose proof (fit_batches_events criterion epoch eps log_interval idx
                is_classification (enumerate (batches loader)) o estimator) as H.
  destruct (fit_batches _ _ _ _ _ _ _ _ _) as [evs r]. simpl in *.
  constructor; [exact I|exact H].
Qed.

Lemma parallel_events {A : Type} (tasks : list (list Event * Result A)) :
  Forall (fun task => Forall worker_event (fst task)) tasks ->
  Forall worker_event (fst (parallel tasks)).
Proof.
  induction tasks as [|[evs r] tasks IH]; intros H; simpl.
  - constructor.
  - inversion H as [|? ? Hevs Hrest]; subst. simpl in Hevs.
    destruct r as [x|e]; [|exact Hevs].
    specialize (IH Hrest). destruct (parallel tasks) as [evs' [results|e]];
      simpl in *; apply Forall_app; split; assumption.
Qed.

Lemma dispatch_events (a : FitArgs) (criterion : Criterion) (is_classification : bool)
  (epoch : nat) (estimators : list Estimator) :
  Forall worker_event (fst (dispatch a criterion is_classification epoch estimators)).
Proof.
  unfold dispatch. apply parallel_events. apply Forall_forall.
  intros task Hin. apply in_map_iff in Hin. destruct Hin as ([idx est] & <- & _).
  apply parallel_fit_events.
Qed.

Lemma worker_events_silent (t : list Event) :
  Forall worker_event t ->
  best_acc_history t = [] /\ best_mse_history t = [] /\ saved_sets t = []
  /\ made_estimators t = 0%nat.
Proof.
  induction 1 as [|ev t Hev _ IH]; [repeat split|].
  destruct IH as (H1 & H2 & H3 & H4).
  destruct ev; try contradiction; unfold made_estimators in *;
    simpl; rewrite ?H1, ?H2, ?H3, ?H4; repeat split.
Qed.

Lemma make_estimators_run (ks : list nat) (self : Ensemble) :
  make_estimators ks self = (self, map EvMakeEstimator ks, Ok (map base_estimator ks)).
Proof.
  induction ks as [|k ks IH]; simpl; [reflexivity|].
  unfold mbind, emit. simpl. rewrite IH. simpl. rewrite app_nil_r. reflexivity.
Qed.

Lemma validate_run (a : FitArgs) (self : Ensemble) :
  (_validate_parameters (lr a) (weight_decay a) (epochs a) (epsilon a)
     (log_interval a) = Ok tt
   /\ validate a self = (self, [], Ok tt))
  \/ (exists msg,
        _validate_parameters (lr a) (weight_decay a) (epochs a) (epsilon a)
          (log_interval a) = Raise (ValueError msg)
        /\ validate a self = (self, [EvLogError msg], Raise (ValueError msg))).
Proof.
  unfold validate, _validate_parameters.
  repeat match goal with
         | |- context [if ?c then _ else _] => destruct c
         end;
    try (left; split; reflexivity);
    right; eexists; split; reflexivity.
Qed.

End FitTraces.

Section FitRuns.
Context {B : Backend}.

Lemma mbind_ok {A C : Type} (m : M A) (k : A -> M C) (self s1 : Ensemble)
  (t1 : list Event) (x : A) :
  m self = (s1, t1, Ok x) ->
  mbind m k self
  = (state_of (k x s1), t1 ++ trace_of (k x s1), result_of (k x s1)).
Proof.
  intros E. unfold mbind. rewrite E. destruct (k x s1) as [[s2 t2] r]. reflexivity.
Qed.

Lemma mbind_raise {A C : Type} (m : M A) (k : A -> M C) (self s1 : Ensemble)
  (t1 : list Event) (e : Exn) :
  m self = (s1, t1, Raise e) -> mbind m k self = (s1, t1, Raise e).
Proof.
  intros E. unfold mbind. now rewrite E.
Qed.

Lemma best_acc_history_app (t1 t2 : list Event) :
  best_acc_history (t1 ++ t2) = best_acc_history t1 ++ best_acc_history t2.
Proof. apply flat_map_app. Qed.

Lemma best_mse_history_app (t1 t2 : list Event) :
  best_mse_history (t1 ++ t2) = best_mse_history t1 ++ best_mse_history t2.
Proof. apply flat_map_app. Qed.

Lemma saved_sets_app (t1 t2 : list Event) :
  saved_sets (t1 ++ t2) = saved_sets t1 ++ saved_sets t2.
Proof. apply flat_map_app. Qed.

Lemma made_events_silent (ks : list nat) :
  best_acc_history (map EvMakeEstimator ks) = []
  /\ best_mse_history (map EvMakeEstimator ks) = []
  /\ saved_sets (map EvMakeEstimator ks) = [].
Proof.
  induction ks as [|k ks (H1 & H2 & H3)]; simpl; repeat split; assumption.
Qed.

(** One validation block of the classifier: when it returns, it has logged
    the new best accuracy once, and that is not below the old one; when it
    raises, it has logged none. *)
Lemma classifier_validation_run (a : FitArgs) (epoch : nat)
  (estimators : list Estimator) (best_acc : Q) (self : Ensemble) :
  match result_of (AdversarialTrainingClassifier.validation a epoch estimators
                     best_acc self) with
  | Ok best' =>
      best_acc <= best'
      /\ best_acc_history
           (trace_of (AdversarialTrainingClassifier.validation a epoch estimators
                        best_acc self)) = [best']
  | Raise _ =>
      best_acc_history
        (trace_of (AdversarialTrainingClassifier.validation a epoch estimators
                     best_acc self)) = []
  end.
Proof.
  unfold AdversarialTrainingClassifier.validation, mbind, get_self, lift, emit, ret.
  destruct (AdversarialTrainingClassifier.count_correct _ _ _ _ _) as [counts|e];
    simpl; [|reflexivity].
  destruct (AdversarialTrainingClassifier.accuracy _ _) as [acc|e];
    simpl; [|reflexivity].
  destruct (Qltb best_acc acc) eqn:E; simpl.
  - apply Qltb_true in E. destruct (save_model a); simpl;
      (split; [apply Qlt_le_weak, E|reflexivity]).
  - split; [apply Qle_refl|reflexivity].
Qed.

Lemma classifier_loop_history (a : FitArgs) (todo : list nat) :
  forall estimators rets best_acc self,
    Sorted Qle
      (best_acc
       :: best_acc_history
            (trace_of (AdversarialTrainingClassifier.training_loop a todo estimators
                         rets best_acc self))).
Proof.
  induction todo as [|epoch rest IH]; intros estimators rets best_acc self; simpl.
  - repeat constructor.
  - unfold mbind at 1. unfold worker.
    pose proof (dispatch_events a CrossEntropyLoss true epoch estimators) as Hw.
    apply worker_events_silent in Hw. destruct Hw as (Hw & _).
    destruct (dispatch a CrossEntropyLoss true epoch estimators) as [evs [rets'|e]];
      simpl in *.
    2: { unfold trace_of. simpl. rewrite Hw. repeat constructor. }
    destruct (truthy (test_loader a)).
    + pose proof (classifier_validation_run a epoch rets' best_acc self) as Hv.
      destruct (AdversarialTrainingClassifier.validation a epoch rets' best_acc self)
        as [[s1 t1] [best'|e]] eqn:Ev; unfold result_of, trace_of in Hv; simpl in Hv.
      * destruct Hv as [Hle Hh].
        rewrite (mbind_ok _ _ _ _ _ _ Ev).
        specialize (IH rets' (Some rets') best' s1).
        destruct (AdversarialTrainingClassifier.training_loop a rest rets'
                    (Some rets') best' s1) as [[s2 t2] r2].
        unfold trace_of in *. simpl in *.
        rewrite !best_acc_history_app, Hw, Hh. simpl.
        constructor; [exact IH|constructor; exact Hle].
      * rewrite (mbind_raise _ _ _ _ _ _ Ev). unfold trace_of. simpl.
        rewrite best_acc_history_app, Hw, Hv. repeat constructor.
    + rewrite (mbind_ok _ _ self self [] best_acc eq_refl).
      specialize (IH rets' (Some rets') best_acc self).
      destruct (AdversarialTrainingClassifier.training_loop a rest rets'
                  (Some rets') best_acc self) as [[s2 t2] r2].
      unfold trace_of in *. simpl in *.
      rewrite best_acc_history_app, Hw. simpl. exact IH.
Qed.

End FitRuns.

Section FitHistories.
Context {B : Backend}.

Lemma ext_ge_refl (b : ExtQ) : ext_ge b b.
Proof. destruct b; simpl; [apply Qle_refl|exact I]. Qed.

Lemma ext_ge_trans (b1 b2 b3 : ExtQ) : ext_ge b1 b2 -> ext_ge b2 b3 -> ext_ge b1 b3.
Proof.
  destruct b1, b2, b3; simpl; try tauto. intros H1 H2. eapply Qle_trans; eassumption.
Qed.

Lemma regressor_validation_run (a : FitArgs) (epoch : nat)
  (estimators : list Estimator) (best_mse : ExtQ) (self : Ensemble) :
  match result_of (AdversarialTrainingRegressor.validation a epoch estimators
                     best_mse self) with
  | Ok best' =>
      ext_ge best_mse best'
      /\ best_mse_history
           (trace_of (AdversarialTrainingRegressor.validation a epoch estimators
                        best_mse self)) = [best']
  | Raise _ =>
      best_mse_history
        (trace_of (AdversarialTrainingRegressor.validation a epoch estimators
                     best_mse self)) = []
  end.
Proof.
  unfold AdversarialTrainingRegressor.validation, mbind, get_self, lift, emit, ret.
  destruct (AdversarialTrainingRegressor.sum_mse _ _ _ _) as [mse|e];
    simpl; [|reflexivity].
  destruct (ext_ltb _ best_mse) eqn:E; simpl.
  - assert (Hge : ext_ge best_mse
                    (Finite (mse / inject_Z
                               (Z.of_nat (length (loader_batches (test_loader a))))))).
    { destruct best_mse as [q|]; simpl in *; [|exact I].
      apply Qltb_true in E. apply Qlt_le_weak, E. }
    destruct (save_model a); simpl; (split; [exact Hge|reflexivity]).
  - split; [apply ext_ge_refl|reflexivity].
Qed.

Lemma regressor_loop_history (a : FitArgs) (todo : list nat) :
  forall estimators rets best_mse self,
    Sorted ext_ge
      (best_mse
       :: best_mse_history
            (trace_of (AdversarialTrainingRegressor.training_loop a todo estimators
                         rets best_mse self))).
Proof.
  induction todo as [|epoch rest IH]; intros estimators rets best_mse self; simpl.
  - repeat constructor.
  - unfold mbind at 1. unfold worker.
    pose proof (dispatch_events a MSELoss false epoch estimators) as Hw.
    apply worker_events_silent in Hw. destruct Hw as (_ & Hw & _).
    destruct (dispatch a MSELoss false epoch estimators) as [evs [rets'|e]];
      simpl in *.
    2: { unfold trace_of. simpl. rewrite Hw. repeat constructor. }
    destruct (truthy (test_loader a)).
    + pose proof (regressor_validation_run a epoch rets' best_mse self) as Hv.
      destruct (AdversarialTrainingRegressor.validation a epoch rets' best_mse self)
        as [[s1 t1] [best'|e]] eqn:Ev; unfold result_of, trace_of in Hv; simpl in Hv.
      * destruct Hv as [Hle Hh].
        rewrite (mbind_ok _ _ _ _ _ _ Ev).
        specialize (IH rets' (Some rets') best' s1).
        destruct (AdversarialTrainingRegressor.training_loop a rest rets'
                    (Some rets') best' s1) as [[s2 t2] r2].
        unfold trace_of in *. simpl in *.
        rewrite !best_mse_history_app, Hw, Hh. simpl.
        constructor; [exact IH|constructor; exact Hle].
      * rewrite (mbind_raise _ _ _ _ _ _ Ev). unfold trace_of. simpl.
        rewrite best_mse_history_app, Hw, Hv. repeat constructor.
    + rewrite (mbind_ok _ _ self self [] best_mse eq_refl).
      specialize (IH rets' (Some rets') best_mse self).
      destruct (AdversarialTrainingRegressor.training_loop a rest rets'
                  (Some rets') best_mse self) as [[s2 t2] r2].
      unfold trace_of in *. simpl in *.
      rewrite best_mse_history_app, Hw. simpl. exact IH.
Qed.

(** The validation history of a whole [fit] is the history of its loop. *)
Lemma classifier_fit_history (a : FitArgs) (self : Ensemble) :
  Sorted Qle
    (0 :: best_acc_history (trace_of (AdversarialTrainingClassifier.fit a self))).
Proof.
  unfold AdversarialTrainingClassifier.fit.
  rewrite (mbind_ok _ _ self self [] self eq_refl).
  rewrite (mbind_ok _ _ _ _ _ _ (make_estimators_run _ self)).
  destruct (made_events_silent (seq 0 (n_estimators self))) as (Hm & _ & _).
  destruct (validate_run a self) as [[_ Ev]|(msg & _ & Ev)].
  2: { rewrite (mbind_raise _ _ _ _ _ _ Ev). unfold trace_of. simpl.
       rewrite best_acc_history_app, Hm. repeat constructor. }
  rewrite (mbind_ok _ _ _ _ _ _ Ev).
  destruct (_decide_n_outputs (train_loader a) true) as [n|e] eqn:En.
  2: { rewrite (mbind_raise _ _ self self [] e) by reflexivity.
       unfold trace_of. simpl. rewrite best_acc_history_app, Hm.
       repeat constructor. }
  rewrite (mbind_ok _ _ self self [] n) by reflexivity.
  rewrite (mbind_ok _ _ self _ [] tt eq_refl).
  set (self' := mkEnsemble (n_estimators self) (Some n) (estimators_ self)).
  pose proof (classifier_loop_history a (seq 0 (Z.to_nat (epochs a)))
                (map base_estimator (seq 0 (n_estimators self))) None 0 self') as Hl.
  destruct (AdversarialTrainingClassifier.training_loop a _ _ None 0 self')
    as [[s t] [rets|e]] eqn:El.
  2: { rewrite (mbind_raise _ _ _ _ _ _ El). unfold trace_of in *. simpl in *.
       rewrite best_acc_history_app, Hm. exact Hl. }
  rewrite (mbind_ok _ _ _ _ _ _ El). unfold trace_of in *. simpl in *.
  rewrite !best_acc_history_app, Hm. simpl.
  assert (Hend : forall X : Ensemble * list Event * Result unit,
             best_acc_history (snd (fst X)) = [] ->
             Sorted Qle (0 :: best_acc_history t ++ best_acc_history (snd (fst X)))).
  { intros X HX. rewrite HX, app_nil_r. exact Hl. }
  apply Hend. destruct rets as [rets|]; [|reflexivity].
  unfold mbind, set_estimators_, io_save, ret.
  destruct (save_model a && negb (truthy (test_loader a))); reflexivity.
Qed.

End FitHistories.

Section RegressorHistory.
Context {B : Backend}.

Lemma regressor_fit_history (a : FitArgs) (self : Ensemble) :
  Sorted ext_ge
    (PosInf :: best_mse_history (trace_of (AdversarialTrainingRegressor.fit a self))).
Proof.
  unfold AdversarialTrainingRegressor.fit.
  rewrite (mbind_ok _ _ self self [] self eq_refl).
  rewrite (mbind_ok _ _ _ _ _ _ (make_estimators_run _ self)).
  destruct (made_events_silent (seq 0 (n_estimators self))) as (_ & Hm & _).
  destruct (validate_run a self) as [[_ Ev]|(msg & _ & Ev)].
  2: { rewrite (mbind_raise _ _ _ _ _ _ Ev). unfold trace_of. simpl.
       rewrite best_mse_history_app, Hm. repeat constructor. }
  rewrite (mbind_ok _ _ _ _ _ _ Ev).
  destruct (_decide_n_outputs (train_loader a) true) as [n|e] eqn:En.
  2: { rewrite (mbind_raise _ _ self self [] e) by reflexivity.
       unfold trace_of. simpl. rewrite best_mse_history_app, Hm.
       repeat constructor. }
  rewrite (mbind_ok _ _ self self [] n) by reflexivity.
  rewrite (mbind_ok _ _ self _ [] tt eq_refl).
  set (self' := mkEnsemble (n_estimators self) (Some n) (estimators_ self)).
  pose proof (regressor_loop_history a (seq 0 (Z.to_nat (epochs a)))
                (map base_estimator (seq 0 (n_estimators self))) None PosInf self')
    as Hl.
  destruct (AdversarialTrainingRegressor.training_loop a _ _ None PosInf self')
    as [[s t] [rets|e]] eqn:El.
  2: { rewrite (mbind_raise _ _ _ _ _ _ El). unfold trace_of in *. simpl in *.
       rewrite best_mse_history_app, Hm. exact Hl. }
  rewrite (mbind_ok _ _ _ _ _ _ El). unfold trace_of in *. simpl in *.
  rewrite !best_mse_history_app, Hm. simpl.
  assert (Hend : forall X : Ensemble * list Event * Result unit,
             best_mse_history (snd (fst X)) = [] ->
             Sorted ext_ge
               (PosInf :: best_mse_history t ++ best_mse_history (snd (fst X)))).
  { intros X HX. rewrite HX, app_nil_r. exact Hl. }
  apply Hend. destruct rets as [rets|]; [|reflexivity].
  unfold mbind, set_estimators_, io_save, ret.
  destruct (save_model a && negb (truthy (test_loader a))); reflexivity.
Qed.

End RegressorHistory.

(** C7: within one fit call the tracked best metric, as it stands after each
    validated epoch, is monotone across epochs: starting from 0, the best
    classification accuracy never decreases from one epoch to the next (nor
    against any earlier epoch), and starting from infinity the best
    regression MSE never increases. *)
Theorem best_metric_is_monotone {B : Backend} (a : FitArgs) (self : Ensemble) :
  StronglySorted Qle
    (0 :: best_acc_history (trace_of (AdversarialTrainingClassifier.fit a self)))
  /\ StronglySorted ext_ge
       (PosInf
        :: best_mse_history (trace_of (AdversarialTrainingRegressor.fit a self))).
Proof.
  split.
  - apply Sorted_StronglySorted; [|apply classifier_fit_history].
    intros x y z. apply Qle_trans.
  - apply Sorted_StronglySorted; [|apply regressor_fit_history].
    intros x y z. apply ext_ge_trans.
Qed.

(** ** Hyper-parameter validation *)

(** The validator accepts exactly the valid hyper-parameters. *)
Lemma validate_parameters_ok_iff (lr weight_decay : Q) (epochs : Z) (epsilon : Q)
  (log_interval : Z) :
  _validate_parameters lr weight_decay epochs epsilon log_interval = Ok tt
  <-> valid_hyperparameters lr weight_decay epochs epsilon log_interval.
Proof.
  unfold _validate_parameters, valid_hyperparameters.
  destruct (Qltb 0 lr) eqn:E1; simpl.
  2: { apply Qltb_false in E1. split; [discriminate|]. intros (H & _). lra. }
  apply Qltb_true in E1.
  destruct (Qle_bool 0 weight_decay) eqn:E2; simpl.
  2: { apply Qle_bool_false in E2. split; [discriminate|]. intros (_ & H & _). lra. }
  apply Qle_bool_iff in E2.
  destruct (0 <? epochs)%Z eqn:E3; simpl.
  2: { apply Z.ltb_ge in E3. split; [discriminate|]. intros (_ & _ & H & _). lia. }
  apply Z.ltb_lt in E3.
  destruct (Qltb 0 epsilon) eqn:E4; simpl.
  2: { apply Qltb_false in E4. split; [discriminate|]. intros (_ & _ & _ & H & _).
       lra. }
  apply Qltb_true in E4.
  destruct (Qle_bool epsilon 1) eqn:E5; simpl.
  2: { apply Qle_bool_false in E5. split; [discriminate|]. intros (_ & _ & _ & H & _).
       lra. }
  apply Qle_bool_iff in E5.
  destruct (0 <? log_interval)%Z eqn:E6; simpl.
  2: { apply Z.ltb_ge in E6. split; [discriminate|]. intros (_ & _ & _ & _ & H).
       lia. }
  apply Z.ltb_lt in E6. split; [|reflexivity]. intros _. repeat split; assumption.
Qed.

Section Validation.
Context {B : Backend}.

Lemma made_counts (ks : list nat) (msg : Msg) :
  made_estimators (map EvMakeEstimator ks ++ [EvLogError msg]) = length ks
  /\ made_optimizers (map EvMakeEstimator ks ++ [EvLogError msg]) = 0%nat.
Proof.
  unfold made_estimators, made_optimizers.
  induction ks as [|k ks [IH1 IH2]]; simpl; [split; reflexivity|].
  rewrite IH1, IH2. split; reflexivity.
Qed.

Lemma classifier_fit_rejects (a : FitArgs) (self : Ensemble) (msg : Msg) :
  validate a self = (self, [EvLogError msg], Raise (ValueError msg)) ->
  AdversarialTrainingClassifier.fit a self
  = (self, map EvMakeEstimator (seq 0 (n_estimators self)) ++ [EvLogError msg],
     Raise (ValueError msg)).
Proof.
  intros Ev. unfold AdversarialTrainingClassifier.fit.
  rewrite (mbind_ok _ _ self self [] self eq_refl).
  rewrite (mbind_ok _ _ _ _ _ _ (make_estimators_run _ self)).
  rewrite (mbind_raise _ _ _ _ _ _ Ev). reflexivity.
Qed.

Lemma regressor_fit_rejects (a : FitArgs) (self : Ensemble) (msg : Msg) :
  validate a self = (self, [EvLogError msg], Raise (ValueError msg)) ->
  AdversarialTrainingRegressor.fit a self
  = (self, map EvMakeEstimator (seq 0 (n_estimators self)) ++ [EvLogError msg],
     Raise (ValueError msg)).
Proof.
  intros Ev. unfold AdversarialTrainingRegressor.fit.
  rewrite (mbind_ok _ _ self self [] self eq_refl).
  rewrite (mbind_ok _ _ _ _ _ _ (make_estimators_run _ self)).
  rewrite (mbind_raise _ _ _ _ _ _ Ev). reflexivity.
Qed.

End Validation.

(** C3, as amended: for every fit call, hyperparameter validation runs after
    the n_estimators base estimators are constructed and before any optimizer
    is constructed: if any hyperparameter (lr, weight_decay, epochs, epsilon,
    log_interval) is invalid, fit fails with the error of the validator, the
    ensemble object unchanged, having constructed exactly n_estimators base
    estimators and no optimizer.  Classifier and regressor behave alike. *)
Theorem invalid_hyperparameters_fail_before_optimizers {B : Backend} (a : FitArgs)
  (self : Ensemble) :
  ~ valid_hyperparameters (lr a) (weight_decay a) (epochs a) (epsilon a)
      (log_interval a) ->
  exists msg,
    _validate_parameters (lr a) (weight_decay a) (epochs a) (epsilon a)
      (log_interval a) = Raise (ValueError msg)
    /\ AdversarialTrainingClassifier.fit a self
       = (self, map EvMakeEstimator (seq 0 (n_estimators self)) ++ [EvLogError msg],
          Raise (ValueError msg))
    /\ AdversarialTrainingRegressor.fit a self
       = AdversarialTrainingClassifier.fit a self
    /\ made_estimators (trace_of (AdversarialTrainingClassifier.fit a self))
       = n_estimators self
    /\ made_optimizers (trace_of (AdversarialTrainingClassifier.fit a self)) = 0%nat.
Proof.
  intros Hbad.
  destruct (validate_run a self) as [[Hok _]|(msg & Hv & Ev)].
  { exfalso. apply Hbad. now apply validate_parameters_ok_iff. }
  exists msg. split; [exact Hv|].
  rewrite (regressor_fit_rejects a self msg Ev).
  rewrite (classifier_fit_rejects a self msg Ev).
  split; [reflexivity|]. split; [reflexivity|].
  unfold trace_of. simpl.
  destruct (made_counts (seq 0 (n_estimators self)) msg) as [H1 H2].
  rewrite H1, H2, length_seq. split; reflexivity.
Qed.

Lemma invalid_hyperparameters_fail_before_optimizers_witness :
  exists msg,
    _validate_parameters 0 (5 # 10000) 2 (1 # 2) 100 = Raise (ValueError msg)
    /\ AdversarialTrainingClassifier.fit (B := Scenario.toy)
         (Scenario.args 2 0 None) (Scenario.fresh 3)
       = (Scenario.fresh 3, map EvMakeEstimator (seq 0 3) ++ [EvLogError msg],
          Raise (ValueError msg))
    /\ AdversarialTrainingRegressor.fit (B := Scenario.toy)
         (Scenario.args 2 0 None) (Scenario.fresh 3)
       = AdversarialTrainingClassifier.fit (B := Scenario.toy)
           (Scenario.args 2 0 None) (Scenario.fresh 3)
    /\ made_estimators
         (trace_of (AdversarialTrainingClassifier.fit (B := Scenario.toy)
                      (Scenario.args 2 0 None) (Scenario.fresh 3))) = 3%nat
    /\ made_optimizers
         (trace_of (AdversarialTrainingClassifier.fit (B := Scenario.toy)
                      (Scenario.args 2 0 None) (Scenario.fresh 3))) = 0%nat.
Proof.
  apply (invalid_hyperparameters_fail_before_optimizers (B := Scenario.toy)
           (Scenario.args 2 0 None) (Scenario.fresh 3)).
  simpl. intros (H & _). lra.
Defined.

(** C3 as stated fails: with the learning rate 0 and three estimators to
    build, [fit] raises the error of the validator after the three
    estimators have been constructed. *)
Lemma fit_constructs_estimators_before_validating :
  result_of (AdversarialTrainingClassifier.fit (B := Scenario.toy)
               (Scenario.args 2 0 None) (Scenario.fresh 3))
  = Raise (ValueError (BadLearningRate 0))
  /\ trace_of (AdversarialTrainingClassifier.fit (B := Scenario.toy)
                 (Scenario.args 2 0 None) (Scenario.fresh 3))
     = [EvMakeEstimator 0; EvMakeEstimator 1; EvMakeEstimator 2;
        EvLogError (BadLearningRate 0)]
  /\ made_estimators
       (trace_of (AdversarialTrainingClassifier.fit (B := Scenario.toy)
                    (Scenario.args 2 0 None) (Scenario.fresh 3))) = 3%nat
  /\ trace_of (AdversarialTrainingRegressor.fit (B := Scenario.toy)
                 (Scenario.args 2 0 None) (Scenario.fresh 3))
     = [EvMakeEstimator 0; EvMakeEstimator 1; EvMakeEstimator 2;
        EvLogError (BadLearningRate 0)].
Proof.
  repeat split; reflexivity.
Qed.

(** ** What a fit commits *)

Section Commit.
Context {B : Backend}.

Lemma classifier_loop_returns (a : FitArgs) (todo : list nat) :
  forall estimators rets best_acc self s t r,
    AdversarialTrainingClassifier.training_loop a todo estimators rets best_acc self
    = (s, t, Ok r) ->
    r = final_rets a CrossEntropyLoss true todo estimators rets.
Proof.
  induction todo as [|epoch rest IH]; intros estimators rets best_acc self s t r H;
    simpl in *.
  - unfold ret in H. congruence.
  - unfold mbind at 1 in H. unfold worker in H.
    destruct (dispatch a CrossEntropyLoss true epoch estimators) as [evs [rets'|e]];
      simpl in *; [|discriminate H].
    destruct (mbind _ _ self) as [[s2 t2] r2] eqn:E.
    injection H as H1 H2 H3. subst s2 t r2.
    unfold mbind in E.
    destruct ((if truthy (test_loader a)
               then AdversarialTrainingClassifier.validation a epoch rets' best_acc
               else ret best_acc) self) as [[s1 t1] [best'|e]]; [|discriminate E].
    destruct (AdversarialTrainingClassifier.training_loop a rest rets' (Some rets')
                best' s1) as [[s3 t3] r3] eqn:El.
    injection E as E1 E2 E3. subst r3. eapply IH, El.
Qed.

(** Whenever the classifier's [fit] returns, the committed estimator set is
    the output of the last epoch's dispatch, whatever the validation
    metrics were. *)
Lemma classifier_fit_commits_last_epoch (a : FitArgs) (self : Ensemble) :
  result_of (AdversarialTrainingClassifier.fit a self) = Ok tt ->
  Some (estimators_ (state_of (AdversarialTrainingClassifier.fit a self)))
  = final_rets a CrossEntropyLoss true (seq 0 (Z.to_nat (epochs a)))
      (map base_estimator (seq 0 (n_estimators self))) None.
Proof.
  unfold AdversarialTrainingClassifier.fit.
  rewrite (mbind_ok _ _ self self [] self eq_refl).
  rewrite (mbind_ok _ _ _ _ _ _ (make_estimators_run _ self)).
  destruct (validate_run a self) as [[_ Ev]|(msg & _ & Ev)].
  2: { rewrite (mbind_raise _ _ _ _ _ _ Ev). discriminate. }
  rewrite (mbind_ok _ _ _ _ _ _ Ev).
  destruct (_decide_n_outputs (train_loader a) true) as [n|e] eqn:En.
  2: { rewrite (mbind_raise _ _ self self [] e) by reflexivity. discriminate. }
  rewrite (mbind_ok _ _ self self [] n) by reflexivity.
  rewrite (mbind_ok _ _ self _ [] tt eq_refl).
  set (self' := mkEnsemble (n_estimators self) (Some n) (estimators_ self)).
  destruct (AdversarialTrainingClassifier.training_loop a
              (seq 0 (Z.to_nat (epochs a)))
              (map base_estimator (seq 0 (n_estimators self))) None 0 self')
    as [[s t] [rets|e]] eqn:El.
  2: { rewrite (mbind_raise _ _ _ _ _ _ El). discriminate. }
  rewrite (mbind_ok _ _ _ _ _ _ El).
  apply classifier_loop_returns in El. rewrite <- El.
  destruct rets as [rets|]; [|discriminate].
  intros _. unfold state_of, result_of, mbind, set_estimators_, io_save, ret. simpl.
  destruct (save_model a && negb (truthy (test_loader a))); reflexivity.
Qed.

End Commit.

Section RegressorCommit.
Context {B : Backend}.

Lemma regressor_loop_returns (a : FitArgs) (todo : list nat) :
  forall estimators rets best_mse self s t r,
    AdversarialTrainingRegressor.training_loop a todo estimators rets best_mse self
    = (s, t, Ok r) ->
    r = final_rets a MSELoss false todo estimators rets.
Proof.
  induction todo as [|epoch rest IH]; intros estimators rets best_mse self s t r H;
    simpl in *.
  - unfold ret in H. congruence.
  - unfold mbind at 1 in H. unfold worker in H.
    destruct (dispatch a MSELoss false epoch estimators) as [evs [rets'|e]];
      simpl in *; [|discriminate H].
    destruct (mbind _ _ self) as [[s2 t2] r2] eqn:E.
    injection H as H1 H2 H3. subst s2 t r2.
    unfold mbind in E.
    destruct ((if truthy (test_loader a)
               then AdversarialTrainingRegressor.validation a epoch rets' best_mse
               else ret best_mse) self) as [[s1 t1] [best'|e]]; [|discriminate E].
    destruct (AdversarialTrainingRegressor.training_loop a rest rets' (Some rets')
                best' s1) as [[s3 t3] r3] eqn:El.
    injection E as E1 E2 E3. subst r3. eapply IH, El.
Qed.

(** Whenever the regressor's [fit] returns, the committed estimator set is
    the output of the last epoch's dispatch. *)
Lemma regressor_fit_commits_last_epoch (a : FitArgs) (self : Ensemble) :
  result_of (AdversarialTrainingRegressor.fit a self) = Ok tt ->
  Some (estimators_ (state_of (AdversarialTrainingRegressor.fit a self)))
  = final_rets a MSELoss false (seq 0 (Z.to_nat (epochs a)))
      (map base_estimator (seq 0 (n_estimators self))) None.
Proof.
  unfold AdversarialTrainingRegressor.fit.
  rewrite (mbind_ok _ _ self self [] self eq_refl).
  rewrite (mbind_ok _ _ _ _ _ _ (make_estimators_run _ self)).
  destruct (validate_run a self) as [[_ Ev]|(msg & _ & Ev)].
  2: { rewrite (mbind_raise _ _ _ _ _ _ Ev). discriminate. }
  rewrite (mbind_ok _ _ _ _ _ _ Ev).
  destruct (_decide_n_outputs (train_loader a) true) as [n|e] eqn:En.
  2: { rewrite (mbind_raise _ _ self self [] e) by reflexivity. discriminate. }
  rewrite (mbind_ok _ _ self self [] n) by reflexivity.
  rewrite (mbind_ok _ _ self _ [] tt eq_refl).
  set (self' := mkEnsemble (n_estimators self) (Some n) (estimators_ self)).
  destruct (AdversarialTrainingRegressor.training_loop a
              (seq 0 (Z.to_nat (epochs a)))
              (map base_estimator (seq 0 (n_estimators self))) None PosInf self')
    as [[s t] [rets|e]] eqn:El.
  2: { rewrite (mbind_raise _ _ _ _ _ _ El). discriminate. }
  rewrite (mbind_ok _ _ _ _ _ _ El).
  apply regressor_loop_returns in El. rewrite <- El.
  destruct rets as [rets|]; [|discriminate].
  intros _. unfold state_of, result_of, mbind, set_estimators_, io_save, ret. simpl.
  destruct (save_model a && negb (truthy (test_loader a))); reflexivity.
Qed.

End RegressorCommit.

(** C1 at the scenario of the specification: two epochs with a validation
    set on which the first epoch reaches the accuracy 1200/20 = 60 and the
    second 1100/20 = 55.  The set of the first epoch is saved, once, and the
    set committed when [fit] returns is the set of the second epoch.  The
    regressor does the same with the losses 8 and 9. *)
Theorem fit_commits_last_epoch_not_best :
  let c := AdversarialTrainingClassifier.fit (B := Scenario.toy)
             (Scenario.args 2 (1 # 1000) (Some Scenario.validation_set))
             (Scenario.fresh 2) in
  let r := AdversarialTrainingRegressor.fit (B := Scenario.toy)
             (Scenario.args 2 (1 # 1000) (Some Scenario.validation_set))
             (Scenario.fresh 2) in
  result_of c = Ok tt
  /\ validation_events (trace_of c)
     = [EvValidationAcc 0 (1200 # 20) (1200 # 20);
        EvValidationAcc 1 (1100 # 20) (1200 # 20)]
  /\ saved_sets (trace_of c) = [[1%nat; 1%nat]]
  /\ estimators_ (state_of c) = [2%nat; 2%nat]
  /\ result_of r = Ok tt
  /\ validation_events (trace_of r)
     = [EvValidationMSE 0 8 (Finite 8); EvValidationMSE 1 9 (Finite 8)]
  /\ saved_sets (trace_of r) = [[1%nat; 1%nat]]
  /\ estimators_ (state_of r) = [2%nat; 2%nat].
Proof.
  repeat split; vm_compute; reflexivity.
Qed.

(** C2 at a regression loader with a rank-1 target of four distinct values:
    [fit] sets [n_outputs] to 4, the number of distinct target values, where
    the regression branch of [_decide_n_outputs] gives 1.  With a target of
    shape (2, 3) and six distinct values the call that [fit] makes gives 6,
    the regression branch 3. *)
Theorem regressor_fit_counts_distinct_targets :
  result_of (AdversarialTrainingRegressor.fit (B := Scenario.toy)
               Scenario.regression_args (Scenario.fresh 2)) = Ok tt
  /\ n_outputs (state_of (AdversarialTrainingRegressor.fit (B := Scenario.toy)
                            Scenario.regression_args (Scenario.fresh 2)))
     = Some 4%nat
  /\ _decide_n_outputs Scenario.regression_train false = Ok 1%nat
  /\ _decide_n_outputs Scenario.regression_train3 true = Ok 6%nat
  /\ _decide_n_outputs Scenario.regression_train3 false = Ok 3%nat.
Proof.
  repeat split; vm_compute; reflexivity.
Qed.

Section RegressorOutputs.
Context {B : Backend}.

Lemma regressor_validation_keeps_n_outputs (a : FitArgs) (epoch : nat)
  (estimators : list Estimator) (best_mse : ExtQ) (self : Ensemble) :
  n_outputs (state_of (AdversarialTrainingRegressor.validation a epoch estimators
                         best_mse self)) = n_outputs self.
Proof.
  unfold AdversarialTrainingRegressor.validation, mbind, get_self, lift, emit, ret,
    set_estimators_, io_save, state_of.
  destruct (AdversarialTrainingRegressor.sum_mse _ _ _ _) as [mse|e]; simpl;
    [|reflexivity].
  destruct (ext_ltb _ best_mse); simpl; [|reflexivity].
  destruct (save_model a); reflexivity.
Qed.

Lemma regressor_loop_keeps_n_outputs (a : FitArgs) (todo : list nat) :
  forall estimators rets best_mse self,
    n_outputs (state_of (AdversarialTrainingRegressor.training_loop a todo estimators
                           rets best_mse self)) = n_outputs self.
Proof.
  induction todo as [|epoch rest IH]; intros estimators rets best_mse self; simpl.
  - reflexivity.
  - unfold mbind at 1. unfold worker.
    destruct (dispatch a MSELoss false epoch estimators) as [evs [rets'|e]];
      simpl; [|reflexivity].
    destruct (truthy (test_loader a)).
    + pose proof (regressor_validation_keeps_n_outputs a epoch rets' best_mse self)
        as Hv.
      destruct (AdversarialTrainingRegressor.validation a epoch rets' best_mse self)
        as [[s1 t1] [best'|e]] eqn:Ev; unfold state_of in Hv; simpl in Hv.
      * rewrite (mbind_ok _ _ _ _ _ _ Ev).
        specialize (IH rets' (Some rets') best' s1).
        destruct (AdversarialTrainingRegressor.training_loop a rest rets'
                    (Some rets') best' s1) as [[s2 t2] r2].
        unfold state_of in *. simpl in *. congruence.
      * rewrite (mbind_raise _ _ _ _ _ _ Ev). unfold state_of. simpl. exact Hv.
    + rewrite (mbind_ok _ _ self self [] best_mse eq_refl).
      specialize (IH rets' (Some rets') best_mse self).
      destruct (AdversarialTrainingRegressor.training_loop a rest rets'
                  (Some rets') best_mse self) as [[s2 t2] r2].
      unfold state_of in *. simpl in *. exact IH.
Qed.

(** Whenever the regressor's [fit] returns, [self.n_outputs] is what the
    classification branch of [_decide_n_outputs] computes from the loader. *)
Lemma regressor_fit_n_outputs (a : FitArgs) (self : Ensemble) :
  result_of (AdversarialTrainingRegressor.fit a self) = Ok tt ->
  exists n,
    _decide_n_outputs (train_loader a) true = Ok n
    /\ n_outputs (state_of (AdversarialTrainingRegressor.fit a self)) = Some n.
Proof.
  unfold AdversarialTrainingRegressor.fit.
  rewrite (mbind_ok _ _ self self [] self eq_refl).
  rewrite (mbind_ok _ _ _ _ _ _ (make_estimators_run _ self)).
  destruct (validate_run a self) as [[_ Ev]|(msg & _ & Ev)].
  2: { rewrite (mbind_raise _ _ _ _ _ _ Ev). discriminate. }
  rewrite (mbind_ok _ _ _ _ _ _ Ev).
  destruct (_decide_n_outputs (train_loader a) true) as [n|e] eqn:En.
  2: { rewrite (mbind_raise _ _ self self [] e) by reflexivity. discriminate. }
  rewrite (mbind_ok _ _ self self [] n) by reflexivity.
  rewrite (mbind_ok _ _ self _ [] tt eq_refl).
  set (self' := mkEnsemble (n_estimators self) (Some n) (estimators_ self)).
  pose proof (regressor_loop_keeps_n_outputs a (seq 0 (Z.to_nat (epochs a)))
                (map base_estimator (seq 0 (n_estimators self))) None PosInf self')
    as Hk.
  destruct (AdversarialTrainingRegressor.training_loop a
              (seq 0 (Z.to_nat (epochs a)))
              (map base_estimator (seq 0 (n_estimators self))) None PosInf self')
    as [[s t] [rets|e]] eqn:El.
  2: { rewrite (mbind_raise _ _ _ _ _ _ El). discriminate. }
  rewrite (mbind_ok _ _ _ _ _ _ El).
  destruct rets as [rets|]; [|discriminate].
  intros _. exists n. split; [reflexivity|].
  unfold state_of in *. simpl in Hk.
  unfold mbind, set_estimators_, io_save, ret. simpl.
  destruct (save_model a && negb (truthy (test_loader a))); simpl; exact Hk.
Qed.

End RegressorOutputs.

(** ** The size of the committed set *)

Section CommittedSize.
Context {B : Backend}.

Lemma combine_seq_nth {A : Type} (xs : list A) :
  forall k i x,
    nth_error xs i = Some x ->
    nth_error (combine (seq k (length xs)) xs) i = Some ((k + i)%nat, x).
Proof.
  induction xs as [|y ys IH]; intros k [|i] x Hi; simpl in *; try discriminate Hi.
  - injection Hi as <-. now rewrite Nat.add_0_r.
  - rewrite (IH (S k) i x Hi). now rewrite Nat.add_succ_comm.
Qed.

Lemma parallel_results {A : Type} (tasks : list (list Event * Result A)) :
  forall results,
    snd (parallel tasks) = Ok results ->
    length results = length tasks
    /\ forall i task, nth_error tasks i = Some task ->
         exists x, snd task = Ok x /\ nth_error results i = Some x.
Proof.
  induction tasks as [|[evs r] tasks IH]; intros results H; simpl in H.
  - injection H as <-. split; [reflexivity|]. intros [|i] task E; discriminate E.
  - destruct r as [x|e]; [|discriminate H].
    destruct (parallel tasks) as [evs' [rs|e]]; simpl in H; [|discriminate H].
    injection H as <-. destruct (IH rs eq_refl) as [Hlen Hnth]. split.
    + simpl. now rewrite Hlen.
    + intros [|i] task E; simpl in E.
      * injection E as <-. exists x. split; reflexivity.
      * apply Hnth, E.
Qed.

(** What a dispatch that returns has returned: one estimator per input
    estimator, at the position of its input. *)
Lemma dispatch_result_positions (a : FitArgs) (criterion : Criterion)
  (is_classification : bool) (epoch : nat) (estimators rets : list Estimator) :
  snd (dispatch a criterion is_classification epoch estimators) = Ok rets ->
  length rets = length estimators
  /\ forall i estimator,
       nth_error estimators i = Some estimator ->
       exists estimator',
         trained a criterion is_classification epoch i estimator = Ok estimator'
         /\ nth_error rets i = Some estimator'.
Proof.
  intros H. rewrite dispatch_unfold in H.
  apply parallel_results in H. destruct H as [Hlen Hnth].
  rewrite length_map, length_combine, length_seq, Nat.min_id in Hlen.
  split; [exact Hlen|]. intros i estimator Hi.
  destruct (Hnth i
              (_parallel_fit_per_epoch (train_loader a) (lr a) (weight_decay a) epoch
                 (optimizer a) (epsilon a) (log_interval a) i estimator criterion
                 is_classification)) as (x & Hx & Hr).
  - rewrite nth_error_map.
    assert (Hc : nth_error (combine (seq 0 (length estimators)) estimators) i
                 = Some (i, estimator)).
    { exact (combine_seq_nth estimators 0 i estimator Hi). }
    rewrite Hc. reflexivity.
  - exists x. split; assumption.
Qed.

Lemma final_rets_length (a : FitArgs) (criterion : Criterion)
  (is_classification : bool) (todo : list nat) :
  forall estimators rets r,
    final_rets a criterion is_classification todo estimators rets = Some r ->
    (forall x, rets = Some x -> length x = length estimators) ->
    length r = length estimators.
Proof.
  induction todo as [|epoch rest IH]; intros estimators rets r H Hrets; simpl in H.
  - apply Hrets, H.
  - destruct (snd (dispatch a criterion is_classification epoch estimators))
      as [r'|e] eqn:E; [|discriminate H].
    apply dispatch_result_positions in E. destruct E as [Hlen _].
    rewrite <- Hlen. apply (IH r' (Some r') r H). now intros x [= <-].
Qed.

(** Whenever the classifier's [fit] returns, the committed set has
    [n_estimators] members. *)
Lemma classifier_fit_commits_n_estimators (a : FitArgs) (self : Ensemble) :
  result_of (AdversarialTrainingClassifier.fit a self) = Ok tt ->
  length (estimators_ (state_of (AdversarialTrainingClassifier.fit a self)))
  = n_estimators self.
Proof.
  intros H. apply classifier_fit_commits_last_epoch in H. symmetry in H.
  apply final_rets_length in H; [|discriminate].
  now rewrite H, length_map, length_seq.
Qed.

End CommittedSize.

(** * Further properties *)

(** ** The validators *)

(** X1: the validator of the adversarial training classes accepts exactly
    the valid hyper-parameters, and its error names the first invalid one in
    the order lr, weight_decay, epochs, epsilon, log_interval, with the
    offending value. *)
Theorem validator_reports_first_invalid (lr weight_decay : Q) (epochs : Z)
  (epsilon : Q) (log_interval : Z) :
  (_validate_parameters lr weight_decay epochs epsilon log_interval = Ok tt
   <-> valid_hyperparameters lr weight_decay epochs epsilon log_interval)
  /\ (~ 0 < lr ->
      _validate_parameters lr weight_decay epochs epsilon log_interval
      = Raise (ValueError (BadLearningRate lr)))
  /\ (0 < lr -> ~ 0 <= weight_decay ->
      _validate_parameters lr weight_decay epochs epsilon log_interval
      = Raise (ValueError (BadWeightDecay weight_decay)))
  /\ (0 < lr -> 0 <= weight_decay -> ~ (0 < epochs)%Z ->
      _validate_parameters lr weight_decay epochs epsilon log_interval
      = Raise (ValueError (BadEpochs epochs)))
  /\ (0 < lr -> 0 <= weight_decay -> (0 < epochs)%Z -> ~ 0 < epsilon <= 1 ->
      _validate_parameters lr weight_decay epochs epsilon log_interval
      = Raise (ValueError (BadEpsilon epsilon)))
  /\ (0 < lr -> 0 <= weight_decay -> (0 < epochs)%Z -> 0 < epsilon <= 1 ->
      ~ (0 < log_interval)%Z ->
      _validate_parameters lr weight_decay epochs epsilon log_interval
      = Raise (ValueError (BadLogInterval log_interval))).
Proof.
  split; [apply validate_parameters_ok_iff|].
  unfold _validate_parameters.
  destruct (Qltb 0 lr) eqn:E1; simpl;
    [apply Qltb_true in E1|apply Qltb_false in E1].
  2: { repeat split; intros; try reflexivity; exfalso; lra. }
  destruct (Qle_bool 0 weight_decay) eqn:E2; simpl;
    [apply Qle_bool_iff in E2|apply Qle_bool_false in E2].
  2: { repeat split; intros; try reflexivity; try contradiction; exfalso;
       first [lra|lia]. }
  destruct (0 <? epochs)%Z eqn:E3; simpl;
    [apply Z.ltb_lt in E3|apply Z.ltb_ge in E3].
  2: { repeat split; intros; try reflexivity; try contradiction; exfalso;
       first [lra|lia]. }
  destruct (Qltb 0 epsilon) eqn:E4; simpl;
    [apply Qltb_true in E4|apply Qltb_false in E4].
  2: { repeat split; intros; try reflexivity; try contradiction; exfalso;
       first [lra|lia]. }
  destruct (Qle_bool epsilon 1) eqn:E5; simpl;
    [apply Qle_bool_iff in E5|apply Qle_bool_false in E5].
  2: { repeat split; intros; try reflexivity; try contradiction; exfalso;
       first [lra|lia]. }
  destruct (0 <? log_interval)%Z eqn:E6; simpl;
    [apply Z.ltb_lt in E6|apply Z.ltb_ge in E6].
  2: { repeat split; intros; try reflexivity; try contradiction; exfalso;
       first [lra|lia]. }
  repeat split; intros; try contradiction;
    try (exfalso; lra); exfalso;
    match goal with H : ~ _ |- _ => apply H end; try assumption; split; assumption.
Qed.

(** X2: the validator of the adversarial training classes accepts exactly
    when the validator of the base class accepts and epsilon lies in (0,1];
    when the base validator raises, the overriding one raises the same error
    or, if only log_interval is at fault there, the error about epsilon. *)
Theorem adversarial_validator_extends_base (lr weight_decay : Q) (epochs : Z)
  (epsilon : Q) (log_interval : Z) :
  (_validate_parameters lr weight_decay epochs epsilon log_interval = Ok tt
   <-> BaseModule._validate_parameters lr weight_decay epochs log_interval = Ok tt
       /\ 0 < epsilon <= 1)
  /\ (forall e,
        BaseModule._validate_parameters lr weight_decay epochs log_interval = Raise e ->
        _validate_parameters lr weight_decay epochs epsilon log_interval = Raise e
        \/ (e = ValueError (BadLogInterval log_interval)
            /\ _validate_parameters lr weight_decay epochs epsilon log_interval
               = Raise (ValueError (BadEpsilon epsilon)))).
Proof.
  unfold _validate_parameters, BaseModule._validate_parameters.
  destruct (Qltb 0 lr); simpl.
  2: { split; [split; [discriminate|intros [H _]; discriminate H]|]. intros e H. now left. }
  destruct (Qle_bool 0 weight_decay); simpl.
  2: { split; [split; [discriminate|intros [H _]; discriminate H]|]. intros e H. now left. }
  destruct (0 <? epochs)%Z; simpl.
  2: { split; [split; [discriminate|intros [H _]; discriminate H]|]. intros e H. now left. }
  destruct (Qltb 0 epsilon) eqn:E4; simpl;
    [apply Qltb_true in E4|apply Qltb_false in E4].
  2: { split.
       - split; [discriminate|]. intros [_ H]. exfalso. lra.
       - intros e H. destruct (0 <? log_interval)%Z; simpl in H; [discriminate H|].
         right. split; [congruence|reflexivity]. }
  destruct (Qle_bool epsilon 1) eqn:E5; simpl;
    [apply Qle_bool_iff in E5|apply Qle_bool_false in E5].
  2: { split.
       - split; [discriminate|]. intros [_ H]. exfalso. lra.
       - intros e H. destruct (0 <? log_interval)%Z; simpl in H; [discriminate H|].
         right. split; [congruence|reflexivity]. }
  destruct (0 <? log_interval)%Z; simpl.
  - split; [|intros e H; discriminate H]. split; [|reflexivity].
    intros _. split; [reflexivity|]. split; assumption.
  - split; [split; [discriminate|intros [H _]; discriminate H]|]. intros e H. now left.
Qed.

(** ** More on the adversarial sample generator *)

Lemma torch_min_ok (t : Tensor) (m : Q) :
  torch_min t = Ok m -> is_min m (elems t).
Proof.
  unfold torch_min. destruct (elems t) as [|x xs]; [discriminate|].
  intros [= <-]. apply fold_min_spec.
Qed.

Lemma torch_max_ok (t : Tensor) (m : Q) :
  torch_max t = Ok m -> is_max m (elems t).
Proof.
  unfold torch_max. destruct (elems t) as [|x xs]; [discriminate|].
  intros [= <-]. apply fold_max_spec.
Qed.

(** X3: given a gradient of the shape of the batch, the adversarial sample
    generator never returns on a batch that is empty, leaves [0,1] or is
    constant: whenever it returns, every value of its input lies in [0,1],
    two values of the input differ, and the output has the shape of the
    input and lies in [0,1]. *)
Theorem fgsm_returns_only_on_valid_batches (sample : Tensor) (epsilon : Q)
  (sample_grad perturbed : Tensor) :
  same_shape sample sample_grad = true ->
  _get_fgsm_samples sample epsilon sample_grad = Ok perturbed ->
  elems sample <> []
  /\ in_unit_range sample
  /\ not_constant sample
  /\ size perturbed = size sample
  /\ in_unit_range perturbed.
Proof.
  unfold _get_fgsm_samples. intros _ H.
  destruct (torch_min sample) as [mn|e] eqn:Emn; [|discriminate H].
  destruct (torch_max sample) as [mx|e] eqn:Emx; [|discriminate H].
  simpl in H.
  destruct (Qle_bool 0 mn && Qltb mn mx && Qle_bool mx 1) eqn:Echeck;
    simpl in H; [|discriminate H].
  apply andb_true_iff in Echeck. destruct Echeck as [Echeck E1].
  apply andb_true_iff in Echeck. destruct Echeck as [E0 Elt].
  apply Qle_bool_iff in E0, E1. apply Qltb_true in Elt.
  apply torch_min_ok in Emn. apply torch_max_ok in Emx.
  destruct Emn as [Hmn_in Hmn]. destruct Emx as [Hmx_in Hmx].
  destruct (tensor_add sample _) as [sum|e] eqn:Eadd; [|discriminate H].
  simpl in H. injection H as <-.
  unfold tensor_add in Eadd. destruct (same_shape sample _); [|discriminate Eadd].
  injection Eadd as <-.
  split; [intro E; rewrite E in Hmn_in; exact Hmn_in|].
  split.
  { intros x Hx. specialize (Hmn x Hx). specialize (Hmx x Hx). lra. }
  split; [exists mn, mx; auto|].
  split; [reflexivity|].
  intros p Hp. simpl in Hp. apply in_map_iff in Hp. destruct Hp as (z & <- & _).
  apply clamp_unit_range.
Qed.

Lemma fgsm_returns_only_on_valid_batches_witness :
  elems (mkTensor [2%nat] [1 # 4; 3 # 4]) <> []
  /\ in_unit_range (mkTensor [2%nat] [1 # 4; 3 # 4])
  /\ not_constant (mkTensor [2%nat] [1 # 4; 3 # 4])
  /\ size (mkTensor [2%nat] [0; 1]) = size (mkTensor [2%nat] [1 # 4; 3 # 4])
  /\ in_unit_range (mkTensor [2%nat] [0; 1]).
Proof.
  apply (fgsm_returns_only_on_valid_batches (mkTensor [2%nat] [1 # 4; 3 # 4])
           (1 # 2) (mkTensor [2%nat] [-(1); 1]) (mkTensor [2%nat] [0; 1])).
  - reflexivity.
  - reflexivity.
Defined.

Lemma Qnum_pos (g : Q) : 0 < g -> (0 < Qnum g)%Z.
Proof. unfold Qlt. simpl. lia. Qed.

Lemma Qnum_neg (g : Q) : g < 0 -> (Qnum g < 0)%Z.
Proof. unfold Qlt. simpl. lia. Qed.

Lemma Qnum_zero (g : Q) : g == 0 -> Qnum g = 0%Z.
Proof. unfold Qeq. simpl. lia. Qed.

Lemma perturbed_entry_direction (x epsilon g : Q) :
  0 <= x <= 1 -> 0 <= epsilon ->
  (0 < g -> x <= perturbed_entry x epsilon g)
  /\ (g < 0 -> perturbed_entry x epsilon g <= x)
  /\ (g == 0 -> perturbed_entry x epsilon g == x).
Proof.
  intros Hx He. unfold perturbed_entry, clamp, sgn.
  repeat split; intros Hg.
  - apply Qnum_pos in Hg. destruct (Qnum g); try lia. simpl.
    destruct (Qltb (x + epsilon * inject_Z 1) 0) eqn:E0;
      [apply Qltb_true in E0|apply Qltb_false in E0];
      [|destruct (Qltb 1 (x + epsilon * inject_Z 1)) eqn:E1;
        [apply Qltb_true in E1|apply Qltb_false in E1]];
      change (inject_Z 1) with 1 in *; lra.
  - apply Qnum_neg in Hg. destruct (Qnum g); try lia. simpl.
    destruct (Qltb (x + epsilon * inject_Z (-1)) 0) eqn:E0;
      [apply Qltb_true in E0|apply Qltb_false in E0];
      [|destruct (Qltb 1 (x + epsilon * inject_Z (-1))) eqn:E1;
        [apply Qltb_true in E1|apply Qltb_false in E1]];
      change (inject_Z (-1)) with (-(1)) in *; lra.
  - apply Qnum_zero in Hg. rewrite Hg. simpl.
    destruct (Qltb (x + epsilon * inject_Z 0) 0) eqn:E0;
      [apply Qltb_true in E0|apply Qltb_false in E0];
      [|destruct (Qltb 1 (x + epsilon * inject_Z 0)) eqn:E1;
        [apply Qltb_true in E1|apply Qltb_false in E1]];
      change (inject_Z 0) with 0 in *; lra.
Qed.

(** X4: on a batch in [0,1] that is not constant, with a step size
    epsilon >= 0 and a gradient of the shape of the batch, the generator
    moves every entry along the sign of its gradient: the output entry is not
    below the input entry where the gradient is positive, not above it where
    the gradient is negative, and equal to it where the gradient is zero. *)
Theorem fgsm_moves_along_gradient_sign (sample : Tensor) (epsilon : Q)
  (sample_grad : Tensor) :
  same_shape sample sample_grad = true ->
  in_unit_range sample ->
  not_constant sample ->
  0 <= epsilon ->
  exists perturbed,
    _get_fgsm_samples sample epsilon sample_grad = Ok perturbed
    /\ forall i x g p,
         nth_error (elems sample) i = Some x ->
         nth_error (elems sample_grad) i = Some g ->
         nth_error (elems perturbed) i = Some p ->
         (0 < g -> x <= p) /\ (g < 0 -> p <= x) /\ (g == 0 -> p == x).
Proof.
  intros Hshape Hrange Hnc Heps. eexists. split; [apply fgsm_returns; assumption|].
  simpl. intros i x g p Hx Hg Hp.
  rewrite (zip_with_nth (fun x g => perturbed_entry x epsilon g) _ _ i x g Hx Hg) in Hp.
  injection Hp as <-. apply perturbed_entry_direction; [|exact Heps].
  apply Hrange. eapply nth_error_In, Hx.
Qed.

Lemma fgsm_moves_along_gradient_sign_witness :
  exists perturbed,
    _get_fgsm_samples (mkTensor [3%nat] [1 # 4; 1 # 2; 3 # 4]) (1 # 10)
      (mkTensor [3%nat] [2; 0; -(3)]) = Ok perturbed
    /\ forall i x g p,
         nth_error [1 # 4; 1 # 2; 3 # 4] i = Some x ->
         nth_error [2; 0; -(3)] i = Some g ->
         nth_error (elems perturbed) i = Some p ->
         (0 < g -> x <= p) /\ (g < 0 -> p <= x) /\ (g == 0 -> p == x).
Proof.
  apply (fgsm_moves_along_gradient_sign (mkTensor [3%nat] [1 # 4; 1 # 2; 3 # 4])
           (1 # 10) (mkTensor [3%nat] [2; 0; -(3)])).
  - reflexivity.
  - intros x [<-|[<-|[<-|[]]]]; lra.
  - exists (1 # 4), (1 # 2). simpl. split; [auto|split; [auto|reflexivity]].
  - lra.
Defined.

(** ** Training data outside [0,1] *)

Section BadData.
Context {B : Backend}.

Lemma fgsm_out_of_range_raises (data : Tensor) (eps : Q) (grad : Tensor) (x : Q) :
  In x (elems data) -> x < 0 \/ 1 < x ->
  exists e, _get_fgsm_samples data eps grad = Raise e.
Proof.
  intros Hx Hout.
  assert (Hne : elems data <> []) by (intro E; rewrite E in Hx; exact Hx).
  destruct (torch_min_spec data Hne) as (mn & Emn & Hmn).
  destruct (torch_max_spec data Hne) as (mx & Emx & Hmx).
  eexists. apply (fgsm_raises data eps grad mn mx Emn Emx).
  destruct Hout as [Hlt|Hgt].
  - left. apply Qle_lt_trans with x; [apply Hmn, Hx|exact Hlt].
  - right; right. apply Qlt_le_trans with x; [exact Hgt|apply Hmx, Hx].
Qed.

Lemma fit_batches_out_of_range (criterion : Criterion) (epoch : nat) (eps : Q)
  (log_interval : Z) (idx : nat) (is_classification : bool)
  (todo : list (nat * (Tensor * Tensor))) :
  (exists k data target x,
     In (k, (data, target)) todo /\ In x (elems data) /\ (x < 0 \/ 1 < x)) ->
  forall optimizer estimator,
    exists e,
      snd (fit_batches criterion epoch eps log_interval idx is_classification todo
             optimizer estimator) = Raise e.
Proof.
  induction todo as [|[batch_idx [data target]] rest IH];
    intros (k & d & t & x & Hin & Hx & Hout) opt est; [contradiction|].
  simpl.
  destruct (size_at data 0) as [batch_size|e]; [|now exists e].
  destruct (_get_fgsm_samples data eps _) as [adv|e] eqn:Eadv; [|now exists e].
  destruct Hin as [Hhead|Htail].
  { injection Hhead as -> -> ->.
    destruct (fgsm_out_of_range_raises d eps
                (input_gradient criterion est d t) x Hx Hout) as (e & He).
    rewrite He in Eadv. discriminate Eadv. }
  destruct (optimizer_step _ _ _ _ _ _) as [opt' est'].
  destruct (IH (ex_intro _ k (ex_intro _ d (ex_intro _ t (ex_intro _ x
                 (conj Htail (conj Hx Hout)))))) opt' est') as (e & He).
  destruct (fit_batches _ _ _ _ _ _ rest opt' est') as [evs' r].
  simpl in He. subst r.
  destruct (Z.of_nat batch_idx mod log_interval =? 0)%Z; simpl.
  - destruct is_classification; simpl.
    + destruct (bind _ _) as [correct|e']; simpl; eexists; reflexivity.
    + eexists; reflexivity.
  - eexists; reflexivity.
Qed.

Lemma enumerate_covers {A : Type} (xs : list A) (x : A) :
  In x xs -> exists k, In (k, x) (enumerate xs).
Proof.
  intros Hin. apply In_nth_error in Hin. destruct Hin as (i & Hi).
  exists (0 + i)%nat. unfold enumerate.
  eapply nth_error_In. apply combine_seq_nth, Hi.
Qed.

End BadData.

(** X5: a worker of the pool never returns an estimator when some batch of
    the training loader holds a value below 0 or above 1: for every
    estimator, epoch and position it raises. *)
Theorem worker_raises_on_out_of_range_loader {B : Backend} (a : FitArgs)
  (criterion : Criterion) (is_classification : bool) (epoch idx : nat)
  (estimator : Estimator) :
  out_of_range_loader (train_loader a) ->
  exists e, trained a criterion is_classification epoch idx estimator = Raise e.
Proof.
  intros (data & target & x & Hin & Hx & Hout).
  unfold trained, _parallel_fit_per_epoch.
  destruct (set_optimizer estimator (optimizer a) (lr a) (weight_decay a))
    as [opt|e]; [|now exists e].
  destruct (enumerate_covers _ _ Hin) as (k & Hk).
  destruct (fit_batches_out_of_range criterion epoch (epsilon a) (log_interval a) idx
              is_classification (enumerate (batches (train_loader a)))
              (ex_intro _ k (ex_intro _ data (ex_intro _ target (ex_intro _ x
                 (conj Hk (conj Hx Hout)))))) opt estimator) as (e & He).
  destruct (fit_batches _ _ _ _ _ _ _ _ _) as [evs r]. simpl in *.
  now exists e.
Qed.

Lemma worker_raises_on_out_of_range_loader_witness :
  exists e,
    trained (B := Scenario.toy) Scenario.bad_args CrossEntropyLoss true 0 0 0%nat
    = Raise e.
Proof.
  apply (worker_raises_on_out_of_range_loader (B := Scenario.toy) Scenario.bad_args
           CrossEntropyLoss true 0%nat 0%nat 0%nat).
  exists (mkTensor [4%nat] [0; 3 # 2; 1 # 2; 1]), (mkTensor [4%nat] [1; 0; 1; 0]),
    (3 # 2).
  simpl. split; [auto|]. split; [auto|]. right. reflexivity.
Defined.

Section BadDataFit.
Context {B : Backend}.

Lemma dispatch_first_raises (a : FitArgs) (criterion : Criterion)
  (is_classification : bool) (epoch : nat) (estimator : Estimator)
  (rest : list Estimator) (e : Exn) :
  trained a criterion is_classification epoch 0 estimator = Raise e ->
  snd (dispatch a criterion is_classification epoch (estimator :: rest)) = Raise e.
Proof.
  unfold trained, dispatch, enumerate. simpl.
  destruct (_parallel_fit_per_epoch _ _ _ _ _ _ _ _ _ _ _) as [evs r]. simpl.
  now intros ->.
Qed.

Lemma worker_first_raises (a : FitArgs) (criterion : Criterion)
  (is_classification : bool) (epoch : nat) (estimator : Estimator)
  (rest : list Estimator) :
  out_of_range_loader (train_loader a) ->
  exists e,
    snd (dispatch a criterion is_classification epoch (estimator :: rest)) = Raise e.
Proof.
  intros (data & target & x & Hin & Hx & Hout).
  assert (He : exists e,
             trained a criterion is_classification epoch 0 estimator = Raise e).
  { unfold trained, _parallel_fit_per_epoch.
    destruct (set_optimizer estimator (optimizer a) (lr a) (weight_decay a))
      as [opt|e]; [|now exists e].
    destruct (enumerate_covers _ _ Hin) as (k & Hk).
    destruct (fit_batches_out_of_range criterion epoch (epsilon a) (log_interval a)
                0%nat is_classification (enumerate (batches (train_loader a)))
                (ex_intro _ k (ex_intro _ data (ex_intro _ target (ex_intro _ x
                   (conj Hk (conj Hx Hout)))))) opt estimator) as (e & He).
    destruct (fit_batches _ _ _ _ _ _ _ _ _) as [evs r]. simpl in *.
    now exists e. }
  destruct He as (e & He). exists e. now apply dispatch_first_raises.
Qed.

Lemma classifier_fit_on_bad_data (a : FitArgs) (self : Ensemble) :
  out_of_range_loader (train_loader a) ->
  (0 < n_estimators self)%nat ->
  exists e,
    result_of (AdversarialTrainingClassifier.fit a self) = Raise e
    /\ estimators_ (state_of (AdversarialTrainingClassifier.fit a self))
       = estimators_ self
    /\ saved_sets (trace_of (AdversarialTrainingClassifier.fit a self)) = [].
Proof.
  intros Hbad Hn. unfold AdversarialTrainingClassifier.fit.
  rewrite (mbind_ok _ _ self self [] self eq_refl).
  rewrite (mbind_ok _ _ _ _ _ _ (make_estimators_run _ self)).
  destruct (made_events_silent (seq 0 (n_estimators self))) as (_ & _ & Hm).
  destruct (validate_run a self) as [[Hv Ev]|(msg & _ & Ev)].
  2: { rewrite (mbind_raise _ _ _ _ _ _ Ev). eexists.
       unfold result_of, state_of, trace_of. simpl.
       rewrite saved_sets_app, Hm. repeat split. }
  rewrite (mbind_ok _ _ _ _ _ _ Ev).
  destruct (_decide_n_outputs (train_loader a) true) as [n|e] eqn:En.
  2: { rewrite (mbind_raise _ _ self self [] e) by reflexivity. exists e.
       unfold result_of, state_of, trace_of. simpl.
       rewrite saved_sets_app, Hm. repeat split. }
  rewrite (mbind_ok _ _ self self [] n) by reflexivity.
  rewrite (mbind_ok _ _ self _ [] tt eq_refl).
  apply validate_parameters_ok_iff in Hv. destruct Hv as (_ & _ & Hep & _).
  destruct (Z.to_nat (epochs a)) as [|k] eqn:Ek; [lia|].
  assert (Hests : exists e0 rest,
             map base_estimator (seq 0 (n_estimators self)) = e0 :: rest).
  { destruct (n_estimators self) as [|m]; [lia|]. simpl. eauto. }
  destruct Hests as (e0 & rest & Hests). rewrite Hests.
  set (self' := mkEnsemble (n_estimators self) (Some n) (estimators_ self)).
  destruct (worker_first_raises a CrossEntropyLoss true 0%nat e0 rest Hbad)
    as (e & He).
  assert (El : exists evs,
             AdversarialTrainingClassifier.training_loop a (seq 0 (S k))
               (e0 :: rest) None 0 self'
             = (self', evs, Raise e) /\ Forall worker_event evs).
  { simpl. unfold mbind at 1. unfold worker.
    pose proof (dispatch_events a CrossEntropyLoss true 0%nat (e0 :: rest)) as Hw.
    destruct (dispatch a CrossEntropyLoss true 0%nat _) as [evs r].
    simpl in He, Hw. subst r. exists evs. split; [reflexivity|exact Hw]. }
  destruct El as (evs & El & Hw).
  rewrite (mbind_raise _ _ _ _ _ _ El). exists e.
  apply worker_events_silent in Hw. destruct Hw as (_ & _ & Hs & _).
  unfold result_of, state_of, trace_of. simpl.
  rewrite !saved_sets_app, Hm, Hs. repeat split.
Qed.

End BadDataFit.

Section BadDataRegressor.
Context {B : Backend}.

Lemma regressor_fit_on_bad_data (a : FitArgs) (self : Ensemble) :
  out_of_range_loader (train_loader a) ->
  (0 < n_estimators self)%nat ->
  exists e,
    result_of (AdversarialTrainingRegressor.fit a self) = Raise e
    /\ estimators_ (state_of (AdversarialTrainingRegressor.fit a self))
       = estimators_ self
    /\ saved_sets (trace_of (AdversarialTrainingRegressor.fit a self)) = [].
Proof.
  intros Hbad Hn. unfold AdversarialTrainingRegressor.fit.
  rewrite (mbind_ok _ _ self self [] self eq_refl).
  rewrite (mbind_ok _ _ _ _ _ _ (make_estimators_run _ self)).
  destruct (made_events_silent (seq 0 (n_estimators self))) as (_ & _ & Hm).
  destruct (validate_run a self) as [[Hv Ev]|(msg & _ & Ev)].
  2: { rewrite (mbind_raise _ _ _ _ _ _ Ev). eexists.
       unfold result_of, state_of, trace_of. simpl.
       rewrite saved_sets_app, Hm. repeat split. }
  rewrite (mbind_ok _ _ _ _ _ _ Ev).
  destruct (_decide_n_outputs (train_loader a) true) as [n|e] eqn:En.
  2: { rewrite (mbind_raise _ _ self self [] e) by reflexivity. exists e.
       unfold result_of, state_of, trace_of. simpl.
       rewrite saved_sets_app, Hm. repeat split. }
  rewrite (mbind_ok _ _ self self [] n) by reflexivity.
  rewrite (mbind_ok _ _ self _ [] tt eq_refl).
  apply validate_parameters_ok_iff in Hv. destruct Hv as (_ & _ & Hep & _).
  destruct (Z.to_nat (epochs a)) as [|k] eqn:Ek; [lia|].
  assert (Hests : exists e0 rest,
             map base_estimator (seq 0 (n_estimators self)) = e0 :: rest).
  { destruct (n_estimators self) as [|m]; [lia|]. simpl. eauto. }
  destruct Hests as (e0 & rest & Hests). rewrite Hests.
  set (self' := mkEnsemble (n_estimators self) (Some n) (estimators_ self)).
  destruct (worker_first_raises a MSELoss false 0%nat e0 rest Hbad) as (e & He).
  assert (El : exists evs,
             AdversarialTrainingRegressor.training_loop a (seq 0 (S k))
               (e0 :: rest) None PosInf self'
             = (self', evs, Raise e) /\ Forall worker_event evs).
  { simpl. unfold mbind at 1. unfold worker.
    pose proof (dispatch_events a MSELoss false 0%nat (e0 :: rest)) as Hw.
    destruct (dispatch a MSELoss false 0%nat _) as [evs r].
    simpl in He, Hw. subst r. exists evs. split; [reflexivity|exact Hw]. }
  destruct El as (evs & El & Hw).
  rewrite (mbind_raise _ _ _ _ _ _ El). exists e.
  apply worker_events_silent in Hw. destruct Hw as (_ & _ & Hs & _).
  unfold result_of, state_of, trace_of. simpl.
  rewrite !saved_sets_app, Hm, Hs. repeat split.
Qed.

End BadDataRegressor.

(** X6: for an ensemble of at least one estimator, a fit whose training
    loader holds a batch with a value below 0 or above 1 raises; it leaves
    the committed estimator set as it was before the call and saves nothing.
    Classifier and regressor alike. *)
Theorem fit_raises_on_out_of_range_data {B : Backend} (a : FitArgs) (self : Ensemble) :
  out_of_range_loader (train_loader a) ->
  (0 < n_estimators self)%nat ->
  (exists e,
     result_of (AdversarialTrainingClassifier.fit a self) = Raise e
     /\ estimators_ (state_of (AdversarialTrainingClassifier.fit a self))
        = estimators_ self
     /\ saved_sets (trace_of (AdversarialTrainingClassifier.fit a self)) = [])
  /\ (exists e,
        result_of (AdversarialTrainingRegressor.fit a self) = Raise e
        /\ estimators_ (state_of (AdversarialTrainingRegressor.fit a self))
           = estimators_ self
        /\ saved_sets (trace_of (AdversarialTrainingRegressor.fit a self)) = []).
Proof.
  intros Hbad Hn. split.
  - now apply classifier_fit_on_bad_data.
  - now apply regressor_fit_on_bad_data.
Qed.

Lemma fit_raises_on_out_of_range_data_witness :
  (exists e,
     result_of (AdversarialTrainingClassifier.fit (B := Scenario.toy)
                  Scenario.bad_args (Scenario.fresh 3)) = Raise e
     /\ estimators_ (state_of (AdversarialTrainingClassifier.fit (B := Scenario.toy)
                                 Scenario.bad_args (Scenario.fresh 3)))
        = estimators_ (Scenario.fresh 3)
     /\ saved_sets (trace_of (AdversarialTrainingClassifier.fit (B := Scenario.toy)
                                Scenario.bad_args (Scenario.fresh 3))) = [])
  /\ (exists e,
        result_of (AdversarialTrainingRegressor.fit (B := Scenario.toy)
                     Scenario.bad_args (Scenario.fresh 3)) = Raise e
        /\ estimators_ (state_of (AdversarialTrainingRegressor.fit (B := Scenario.toy)
                                    Scenario.bad_args (Scenario.fresh 3)))
           = estimators_ (Scenario.fresh 3)
        /\ saved_sets (trace_of (AdversarialTrainingRegressor.fit (B := Scenario.toy)
                                   Scenario.bad_args (Scenario.fresh 3))) = []).
Proof.
  apply (fit_raises_on_out_of_range_data (B := Scenario.toy) Scenario.bad_args
           (Scenario.fresh 3)).
  - exists (mkTensor [4%nat] [0; 3 # 2; 1 # 2; 1]), (mkTensor [4%nat] [1; 0; 1; 0]),
      (3 # 2).
    simpl. split; [auto|]. split; [auto|]. right. reflexivity.
  - simpl. lia.
Defined.

(** ** More on the dispatch *)

(** X7: a dispatch over the worker pool returns exactly when every worker
    returns: one worker that raises makes the whole dispatch raise, so no
    list that mixes trained and untrained estimators is ever returned. *)
Theorem dispatch_returns_iff_all_workers_return {B : Backend} (a : FitArgs)
  (criterion : Criterion) (is_classification : bool) (epoch : nat)
  (estimators : list Estimator) :
  (exists rets, snd (dispatch a criterion is_classification epoch estimators) = Ok rets)
  <-> (forall i estimator,
         nth_error estimators i = Some estimator ->
         exists estimator',
           trained a criterion is_classification epoch i estimator = Ok estimator').
Proof.
  split.
  - intros (rets & H) i estimator Hi.
    destruct (dispatch_result_positions a criterion is_classification epoch
                estimators rets H) as [_ Hpos].
    destruct (Hpos i estimator Hi) as (estimator' & Ht & _). now exists estimator'.
  - intros Hall. rewrite dispatch_unfold.
    destruct (parallel_enumerated_ok
                (fun idx estimator =>
                   _parallel_fit_per_epoch (train_loader a) (lr a) (weight_decay a)
                     epoch (optimizer a) (epsilon a) (log_interval a) idx estimator
                     criterion is_classification)
                estimators 0%nat Hall) as (rets & H & _).
    now exists rets.
Qed.

(** ** The committed estimators, one by one *)

Section Lineage.
Context {B : Backend}.

Lemma final_rets_lineage (a : FitArgs) (criterion : Criterion)
  (is_classification : bool) (todo : list nat) :
  forall estimators rets r,
    todo <> [] ->
    final_rets a criterion is_classification todo estimators rets = Some r ->
    length r = length estimators
    /\ forall i estimator,
         nth_error estimators i = Some estimator ->
         exists estimator',
           train_through a criterion is_classification todo i estimator
           = Ok estimator'
           /\ nth_error r i = Some estimator'.
Proof.
  induction todo as [|epoch rest IH]; intros estimators rets r Hne H; [congruence|].
  simpl in H.
  destruct (snd (dispatch a criterion is_classification epoch estimators))
    as [r'|e] eqn:E; [|discriminate H].
  apply dispatch_result_positions in E. destruct E as [Hlen Hpos].
  destruct rest as [|epoch' rest'].
  - simpl in H. injection H as <-. split; [exact Hlen|].
    intros i estimator Hi. destruct (Hpos i estimator Hi) as (e' & Ht & Hn).
    exists e'. simpl. rewrite Ht. split; [reflexivity|exact Hn].
  - destruct (IH r' (Some r') r ltac:(discriminate) H) as [Hlen' Hpos'].
    split; [congruence|].
    intros i estimator Hi. destruct (Hpos i estimator Hi) as (e' & Ht & Hn).
    destruct (Hpos' i e' Hn) as (e'' & Ht' & Hn').
    exists e''. split; [|exact Hn'].
    change (train_through a criterion is_classification (epoch :: epoch' :: rest') i
              estimator)
      with (bind (trained a criterion is_classification epoch i estimator)
              (train_through a criterion is_classification (epoch' :: rest') i)).
    rewrite Ht. exact Ht'.
Qed.

Lemma getitem_nth (self : Ensemble) (i : nat) (estimator : Estimator) :
  nth_error (estimators_ self) i = Some estimator ->
  BaseModule.__getitem__ self (Z.of_nat i) = Ok estimator
  /\ BaseModule.__getitem__ self
       (Z.of_nat i - Z.of_nat (BaseModule.__len__ self)) = Ok estimator.
Proof.
  intros Hi.
  assert (Hlt : (i < length (estimators_ self))%nat)
    by (apply nth_error_Some; congruence).
  unfold BaseModule.__getitem__, BaseModule.__len__. split.
  - replace ((- Z.of_nat (length (estimators_ self)) <=? Z.of_nat i)
             && (Z.of_nat i <? Z.of_nat (length (estimators_ self))))%Z with true
      by (symmetry; apply andb_true_iff; split; [apply Z.leb_le|apply Z.ltb_lt]; lia).
    replace (Z.of_nat i <? 0)%Z with false by (symmetry; apply Z.ltb_ge; lia).
    rewrite Nat2Z.id, Hi. reflexivity.
  - set (n := Z.of_nat (length (estimators_ self))).
    replace ((- n <=? Z.of_nat i - n) && (Z.of_nat i - n <? n))%Z with true
      by (symmetry; apply andb_true_iff; split; [apply Z.leb_le|apply Z.ltb_lt];
          unfold n; lia).
    replace (Z.of_nat i - n <? 0)%Z with true
      by (symmetry; apply Z.ltb_lt; unfold n; lia).
    replace (Z.of_nat i - n + n)%Z with (Z.of_nat i) by lia.
    rewrite Nat2Z.id, Hi. reflexivity.
Qed.

End Lineage.

Section CommittedLineage.
Context {B : Backend}.

Lemma base_estimators_nth (n i : nat) :
  (i < n)%nat ->
  nth_error (map base_estimator (seq 0 n)) i = Some (base_estimator i).
Proof.
  intros Hi. rewrite nth_error_map.
  rewrite (nth_error_nth' (seq 0 n) 0%nat) by (rewrite length_seq; exact Hi).
  rewrite seq_nth by exact Hi. reflexivity.
Qed.

Lemma committed_lineage (a : FitArgs) (criterion : Criterion)
  (is_classification : bool) (self final : Ensemble) :
  Some (estimators_ final)
  = final_rets a criterion is_classification (seq 0 (Z.to_nat (epochs a)))
      (map base_estimator (seq 0 (n_estimators self))) None ->
  BaseModule.__len__ final = n_estimators self
  /\ forall i,
       (i < n_estimators self)%nat ->
       exists estimator,
         train_through a criterion is_classification (seq 0 (Z.to_nat (epochs a))) i
           (base_estimator i) = Ok estimator
         /\ BaseModule.__getitem__ final (Z.of_nat i) = Ok estimator
         /\ BaseModule.__getitem__ final (Z.of_nat i - Z.of_nat (n_estimators self))
            = Ok estimator.
Proof.
  intros H. symmetry in H.
  assert (Hne : seq 0 (Z.to_nat (epochs a)) <> []).
  { intro E. rewrite E in H. discriminate H. }
  destruct (final_rets_lineage a criterion is_classification _ _ _ _ Hne H)
    as [Hlen Hpos].
  rewrite length_map, length_seq in Hlen.
  split; [exact Hlen|]. intros i Hi.
  destruct (Hpos i (base_estimator i) (base_estimators_nth _ i Hi))
    as (estimator & Ht & Hn).
  exists estimator. split; [exact Ht|].
  destruct (getitem_nth final i estimator Hn) as [H1 H2].
  unfold BaseModule.__len__ in H2. rewrite Hlen in H2. split; assumption.
Qed.

End CommittedLineage.

(** X8: whenever the classifier's fit returns, the ensemble has
    n_estimators members, and its member at every index i (also counted
    from the end, as i - n_estimators) is the i-th estimator constructed at
    the start of that fit, trained by the worker of position i in every
    epoch in turn. *)
Theorem classifier_members_after_fit {B : Backend} (a : FitArgs) (self : Ensemble) :
  result_of (AdversarialTrainingClassifier.fit a self) = Ok tt ->
  BaseModule.__len__ (state_of (AdversarialTrainingClassifier.fit a self))
  = n_estimators self
  /\ forall i,
       (i < n_estimators self)%nat ->
       exists estimator,
         train_through a CrossEntropyLoss true (seq 0 (Z.to_nat (epochs a))) i
           (base_estimator i) = Ok estimator
         /\ BaseModule.__getitem__
              (state_of (AdversarialTrainingClassifier.fit a self)) (Z.of_nat i)
            = Ok estimator
         /\ BaseModule.__getitem__
              (state_of (AdversarialTrainingClassifier.fit a self))
              (Z.of_nat i - Z.of_nat (n_estimators self))
            = Ok estimator.
Proof.
  intros H. apply committed_lineage. now apply classifier_fit_commits_last_epoch.
Qed.

Lemma classifier_members_after_fit_witness :
  BaseModule.__len__
    (state_of (AdversarialTrainingClassifier.fit (B := Scenario.toy)
                 (Scenario.args 2 (1 # 1000) None) (Scenario.fresh 3))) = 3%nat
  /\ forall i,
       (i < 3)%nat ->
       exists estimator,
         train_through (B := Scenario.toy) (Scenario.args 2 (1 # 1000) None)
           CrossEntropyLoss true (seq 0 (Z.to_nat 2)) i (base_estimator i)
         = Ok estimator
         /\ BaseModule.__getitem__
              (state_of (AdversarialTrainingClassifier.fit (B := Scenario.toy)
                           (Scenario.args 2 (1 # 1000) None) (Scenario.fresh 3)))
              (Z.of_nat i) = Ok estimator
         /\ BaseModule.__getitem__
              (state_of (AdversarialTrainingClassifier.fit (B := Scenario.toy)
                           (Scenario.args 2 (1 # 1000) None) (Scenario.fresh 3)))
              (Z.of_nat i - Z.of_nat 3) = Ok estimator.
Proof.
  apply (classifier_members_after_fit (B := Scenario.toy)
           (Scenario.args 2 (1 # 1000) None) (Scenario.fresh 3)).
  reflexivity.
Defined.

(** X9: the same for the regressor: whenever its fit returns, the ensemble
    has n_estimators members, and its member at every index i (also counted
    from the end) is the i-th estimator constructed at the start of that
    fit, trained by the worker of position i in every epoch in turn. *)
Theorem regressor_members_after_fit {B : Backend} (a : FitArgs) (self : Ensemble) :
  result_of (AdversarialTrainingRegressor.fit a self) = Ok tt ->
  BaseModule.__len__ (state_of (AdversarialTrainingRegressor.fit a self))
  = n_estimators self
  /\ forall i,
       (i < n_estimators self)%nat ->
       exists estimator,
         train_through a MSELoss false (seq 0 (Z.to_nat (epochs a))) i
           (base_estimator i) = Ok estimator
         /\ BaseModule.__getitem__
              (state_of (AdversarialTrainingRegressor.fit a self)) (Z.of_nat i)
            = Ok estimator
         /\ BaseModule.__getitem__
              (state_of (AdversarialTrainingRegressor.fit a self))
              (Z.of_nat i - Z.of_nat (n_estimators self))
            = Ok estimator.
Proof.
  intros H. apply committed_lineage. now apply regressor_fit_commits_last_epoch.
Qed.

Lemma regressor_members_after_fit_witness :
  BaseModule.__len__
    (state_of (AdversarialTrainingRegressor.fit (B := Scenario.toy)
                 Scenario.regression_args (Scenario.fresh 2))) = 2%nat
  /\ forall i,
       (i < 2)%nat ->
       exists estimator,
         train_through (B := Scenario.toy) Scenario.regression_args
           MSELoss false (seq 0 (Z.to_nat 1)) i (base_estimator i)
         = Ok estimator
         /\ BaseModule.__getitem__
              (state_of (AdversarialTrainingRegressor.fit (B := Scenario.toy)
                           Scenario.regression_args (Scenario.fresh 2)))
              (Z.of_nat i) = Ok estimator
         /\ BaseModule.__getitem__
              (state_of (AdversarialTrainingRegressor.fit (B := Scenario.toy)
                           Scenario.regression_args (Scenario.fresh 2)))
              (Z.of_nat i - Z.of_nat 2) = Ok estimator.
Proof.
  apply (regressor_members_after_fit (B := Scenario.toy)
           Scenario.regression_args (Scenario.fresh 2)).
  reflexivity.
Defined.

(** ** Persistence and the validation log *)

Section ClassifierLog.
Context {B : Backend}.

Lemma acc_history_app (t1 t2 : list Event) :
  acc_history (t1 ++ t2) = acc_history t1 ++ acc_history t2.
Proof. apply flat_map_app. Qed.

Lemma validation_events_app (t1 t2 : list Event) :
  validation_events (t1 ++ t2) = validation_events t1 ++ validation_events t2.
Proof. apply filter_app. Qed.

Lemma worker_events_unlogged (t : list Event) :
  Forall worker_event t -> acc_history t = [] /\ validation_events t = [].
Proof.
  intros H. induction H as [|ev t Hev _ [IH1 IH2]]; [split; reflexivity|].
  destruct ev; try contradiction; simpl; split; assumption.
Qed.

(** What one validation block of the classifier emits. *)
Lemma classifier_validation_trace (a : FitArgs) (epoch : nat)
  (estimators : list Estimator) (best_acc : Q) (self : Ensemble) :
  match AdversarialTrainingClassifier.validation a epoch estimators best_acc self with
  | (_, t, Ok best') =>
      exists acc,
        best' = (if Qltb best_acc acc then acc else best_acc)
        /\ t = (if Qltb best_acc acc
                then if save_model a then [EvSave estimators] else []
                else [])
               ++ [EvValidationAcc epoch acc best']
  | (s, t, Raise _) => t = [] /\ s = self
  end.
Proof.
  unfold AdversarialTrainingClassifier.validation, mbind, get_self, lift, emit, ret,
    set_estimators_, io_save.
  destruct (AdversarialTrainingClassifier.count_correct _ _ _ _ _) as [counts|e];
    simpl; [|split; reflexivity].
  destruct (AdversarialTrainingClassifier.accuracy _ _) as [acc|e];
    simpl; [|split; reflexivity].
  destruct (Qltb best_acc acc) eqn:E; simpl.
  - destruct (save_model a); simpl; exists acc; rewrite E; split; reflexivity.
  - exists acc. rewrite E. split; reflexivity.
Qed.

Lemma classifier_loop_log (a : FitArgs) (todo : list nat) :
  forall estimators rets best_acc self s t r,
    AdversarialTrainingClassifier.training_loop a todo estimators rets best_acc self
    = (s, t, r) ->
    classifier_log_coherent a best_acc t.
Proof.
  unfold classifier_log_coherent.
  induction todo as [|epoch rest IH]; intros estimators rets best_acc self s t r H;
    simpl in H.
  - injection H as _ <- _. repeat split; reflexivity.
  - unfold mbind at 1 in H. unfold worker in H.
    pose proof (dispatch_events a CrossEntropyLoss true epoch estimators) as Hw.
    destruct (worker_events_silent _ Hw) as (Hwb & _ & Hws & _).
    destruct (worker_events_unlogged _ Hw) as (Hwa & Hwv).
    destruct (dispatch a CrossEntropyLoss true epoch estimators) as [evs [rets'|e]];
      simpl in *.
    2: { injection H as _ <- _. rewrite Hwb, Hwa, Hws, Hwv.
         repeat split; reflexivity. }
    destruct (mbind _ _ self) as [[s2 t2] r2] eqn:E2.
    injection H as _ <- _.
    rewrite !best_acc_history_app, !acc_history_app, !saved_sets_app,
      !validation_events_app, Hwb, Hwa, Hws, Hwv. simpl.
    destruct (truthy (test_loader a)) eqn:Etruthy.
    + pose proof (classifier_validation_trace a epoch rets' best_acc self) as Hv.
      destruct (AdversarialTrainingClassifier.validation a epoch rets' best_acc self)
        as [[s1 t1] [best'|e]] eqn:Ev.
      * destruct Hv as (acc & Hb & Ht).
        rewrite (mbind_ok _ _ _ _ _ _ Ev) in E2.
        destruct (AdversarialTrainingClassifier.training_loop a rest rets'
                    (Some rets') best' s1) as [[s3 t3] r3] eqn:El.
        unfold state_of, trace_of, result_of in E2. simpl in E2.
        injection E2 as _ <- _.
        destruct (IH _ _ _ _ _ _ _ El) as (IH1 & IH2 & IH3 & _).
        subst t1.
        rewrite !best_acc_history_app, !acc_history_app, !saved_sets_app.
        assert (Hq : best_acc_history
                       (if Qltb best_acc acc
                        then if save_model a then [EvSave rets'] else []
                        else []) = []
                     /\ acc_history
                          (if Qltb best_acc acc
                           then if save_model a then [EvSave rets'] else []
                           else []) = []).
        { destruct (Qltb best_acc acc); [destruct (save_model a)|]; split; reflexivity. }
        destruct Hq as [Hq1 Hq2]. rewrite Hq1, Hq2. simpl.
        rewrite <- Hb. split; [now rewrite IH1|]. split; [|split].
        -- intros Hs _. rewrite Hs. rewrite length_app, (IH2 Hs eq_refl).
           rewrite Hb. destruct (Qltb best_acc acc); reflexivity.
        -- intros Hs. rewrite Hs, (IH3 Hs). now destruct (Qltb best_acc acc).
        -- discriminate.
      * destruct Hv as [-> _]. rewrite (mbind_raise _ _ _ _ _ _ Ev) in E2.
        injection E2 as _ <- _.
        repeat split; reflexivity.
    + rewrite (mbind_ok _ _ self self [] best_acc eq_refl) in E2.
      destruct (AdversarialTrainingClassifier.training_loop a rest rets'
                  (Some rets') best_acc self) as [[s3 t3] r3] eqn:El.
      unfold state_of, trace_of, result_of in E2. simpl in E2.
      injection E2 as _ <- _.
      destruct (IH _ _ _ _ _ _ _ El) as (IH1 & _ & IH3 & IH4).
      split; [exact IH1|]. split; [discriminate|]. split; [exact IH3|].
      intros _. now apply IH4.
Qed.

End ClassifierLog.

Section FitShape.
Context {B : Backend}.

Lemma setup_events_unlogged (t : list Event) :
  Forall setup_event t ->
  best_acc_history t = [] /\ best_mse_history t = [] /\ acc_history t = []
  /\ validation_events t = [] /\ saved_sets t = [] /\ made_optimizers t = 0%nat.
Proof.
  intros H. induction H as [|ev t Hev _ (IH1 & IH2 & IH3 & IH4 & IH5 & IH6)];
    [repeat split|].
  destruct ev; try contradiction; unfold made_optimizers in *; simpl;
    repeat split; assumption.
Qed.

Lemma made_events_setup (ks : list nat) : Forall setup_event (map EvMakeEstimator ks).
Proof. induction ks; simpl; constructor; [exact I|assumption]. Qed.

(** The trace of the classifier's [fit]: the set-up, the loop and the final
    save. *)
Lemma classifier_fit_shape (a : FitArgs) (self : Ensemble) :
  exists pre t_loop t_end,
    trace_of (AdversarialTrainingClassifier.fit a self) = pre ++ t_loop ++ t_end
    /\ Forall setup_event pre
    /\ classifier_log_coherent a 0 t_loop
    /\ (result_of (AdversarialTrainingClassifier.fit a self) = Ok tt ->
        t_end = if save_model a && negb (truthy (test_loader a))
                then [EvSave (estimators_
                                (state_of (AdversarialTrainingClassifier.fit a self)))]
                else [])
    /\ (forall e, result_of (AdversarialTrainingClassifier.fit a self) = Raise e ->
                  t_end = []).
Proof.
  unfold AdversarialTrainingClassifier.fit.
  rewrite (mbind_ok _ _ self self [] self eq_refl).
  rewrite (mbind_ok _ _ _ _ _ _ (make_estimators_run _ self)).
  pose proof (made_events_setup (seq 0 (n_estimators self))) as Hm.
  assert (Hnil : classifier_log_coherent a 0 []).
  { unfold classifier_log_coherent. repeat split; reflexivity. }
  destruct (validate_run a self) as [[_ Ev]|(msg & _ & Ev)].
  2: { rewrite (mbind_raise _ _ _ _ _ _ Ev).
       exists (map EvMakeEstimator (seq 0 (n_estimators self)) ++ [EvLogError msg]),
         [], [].
       unfold trace_of, result_of. simpl. rewrite !app_nil_r.
       split; [reflexivity|]. split.
       { apply Forall_app. split; [exact Hm|repeat constructor]. }
       split; [exact Hnil|]. split; [discriminate|reflexivity]. }
  rewrite (mbind_ok _ _ _ _ _ _ Ev).
  destruct (_decide_n_outputs (train_loader a) true) as [n|e] eqn:En.
  2: { rewrite (mbind_raise _ _ self self [] e) by reflexivity.
       exists (map EvMakeEstimator (seq 0 (n_estimators self))), [], [].
       unfold trace_of, result_of. simpl. rewrite !app_nil_r.
       split; [reflexivity|]. split; [exact Hm|].
       split; [exact Hnil|]. split; [discriminate|reflexivity]. }
  rewrite (mbind_ok _ _ self self [] n) by reflexivity.
  rewrite (mbind_ok _ _ self _ [] tt eq_refl).
  set (self' := mkEnsemble (n_estimators self) (Some n) (estimators_ self)).
  destruct (AdversarialTrainingClassifier.training_loop a
              (seq 0 (Z.to_nat (epochs a)))
              (map base_estimator (seq 0 (n_estimators self))) None 0 self')
    as [[s t] r] eqn:El.
  pose proof (classifier_loop_log a _ _ _ _ _ _ _ _ El) as Hlog.
  exists (map EvMakeEstimator (seq 0 (n_estimators self))), t.
  destruct r as [rets|e].
  2: { rewrite (mbind_raise _ _ _ _ _ _ El). exists [].
       unfold trace_of, result_of. simpl. rewrite !app_nil_r.
       split; [reflexivity|]. split; [exact Hm|].
       split; [exact Hlog|]. split; [discriminate|reflexivity]. }
  rewrite (mbind_ok _ _ _ _ _ _ El).
  destruct rets as [rets|].
  2: { exists []. unfold trace_of, result_of. simpl. rewrite !app_nil_r.
       split; [reflexivity|]. split; [exact Hm|].
       split; [exact Hlog|]. split; [discriminate|reflexivity]. }
  unfold mbind, set_estimators_, io_save, ret, trace_of, result_of, state_of.
  destruct (save_model a && negb (truthy (test_loader a))); simpl.
  - exists [EvSave rets]. split; [reflexivity|]. split; [exact Hm|].
    split; [exact Hlog|]. split; [reflexivity|discriminate].
  - exists []. split; [reflexivity|]. split; [exact Hm|].
    split; [exact Hlog|]. split; [reflexivity|discriminate].
Qed.

End FitShape.

Lemma running_best_is_max (accs : list Q) :
  forall b k x,
    nth_error (running_best b accs) k = Some x ->
    is_max x (b :: firstn (S k) accs).
Proof.
  induction accs as [|acc rest IH]; intros b k x H; [destruct k; discriminate H|].
  simpl in H.
  assert (Hb : (if Qltb b acc then acc else b) = acc /\ b <= acc
               \/ (if Qltb b acc then acc else b) = b /\ acc <= b).
  { destruct (Qltb b acc) eqn:E.
    - left. split; [reflexivity|]. apply Qltb_true in E. apply Qlt_le_weak, E.
    - right. split; [reflexivity|]. now apply Qltb_false in E. }
  destruct k as [|k]; simpl in H.
  - injection H as <-. simpl. destruct Hb as [[-> Hle]|[-> Hle]].
    + split; [right; now left|]. intros y [<-|[<-|[]]]; [exact Hle|apply Qle_refl].
    + split; [now left|]. intros y [<-|[<-|[]]]; [apply Qle_refl|exact Hle].
  - destruct (IH _ k x H) as [Hin Hmax].
    assert (Hx : (if Qltb b acc then acc else b) <= x) by (apply Hmax; now left).
    change (firstn (S (S k)) (acc :: rest)) with (acc :: firstn (S k) rest).
    split.
    + destruct Hin as [Hin|Hin]; [|right; right; exact Hin].
      rewrite <- Hin. destruct Hb as [[-> _]|[-> _]]; [right; now left|now left].
    + intros y [<-|[<-|Hy]].
      * destruct Hb as [[E Hle]|[E Hle]]; rewrite E in Hx;
          [eapply Qle_trans; eassumption|exact Hx].
      * destruct Hb as [[E Hle]|[E Hle]]; rewrite E in Hx;
          [exact Hx|eapply Qle_trans; eassumption].
      * apply Hmax. now right.
Qed.

(** X10: in every fit of the classifier, returning or raising, the
    historical best that is logged after the k-th validated epoch is the
    greatest of 0 and the accuracies logged for the validated epochs up to
    that one: it is one of them and none of them exceeds it. *)
Theorem classifier_best_is_running_maximum {B : Backend} (a : FitArgs)
  (self : Ensemble) (k : nat) (best : Q) :
  nth_error (best_acc_history (trace_of (AdversarialTrainingClassifier.fit a self))) k
  = Some best ->
  is_max best
    (0 :: firstn (S k)
            (acc_history (trace_of (AdversarialTrainingClassifier.fit a self)))).
Proof.
  destruct (classifier_fit_shape a self)
    as (pre & t_loop & t_end & -> & Hpre & (Hlog & _) & Hok & Hraise).
  destruct (setup_events_unlogged _ Hpre) as (Hp1 & _ & Hp3 & _).
  assert (Hend : best_acc_history t_end = [] /\ acc_history t_end = []).
  { destruct (result_of (AdversarialTrainingClassifier.fit a self)) as [[]|e].
    - rewrite (Hok eq_refl).
      destruct (save_model a && negb (truthy (test_loader a))); split; reflexivity.
    - rewrite (Hraise e eq_refl). split; reflexivity. }
  destruct Hend as [He1 He2].
  rewrite !best_acc_history_app, !acc_history_app, Hp1, Hp3, He1, He2, !app_nil_r.
  simpl. rewrite Hlog. apply running_best_is_max.
Qed.

Lemma classifier_best_is_running_maximum_witness :
  is_max (1200 # 20)
    (0 :: firstn 2
            (acc_history
               (trace_of (AdversarialTrainingClassifier.fit (B := Scenario.toy)
                            (Scenario.args 2 (1 # 1000) (Some Scenario.validation_set))
                            (Scenario.fresh 2))))).
Proof.
  apply (classifier_best_is_running_maximum (B := Scenario.toy)
           (Scenario.args 2 (1 # 1000) (Some Scenario.validation_set))
           (Scenario.fresh 2) 1 (1200 # 20)).
  reflexivity.
Defined.

Section RegressorLog.
Context {B : Backend}.

Lemma mse_history_app (t1 t2 : list Event) :
  mse_history (t1 ++ t2) = mse_history t1 ++ mse_history t2.
Proof. apply flat_map_app. Qed.

Lemma worker_events_no_mse (t : list Event) :
  Forall worker_event t -> mse_history t = [].
Proof.
  intros H. induction H as [|ev t Hev _ IH]; [reflexivity|].
  destruct ev; try contradiction; simpl; assumption.
Qed.

Lemma setup_events_no_mse (t : list Event) :
  Forall setup_event t -> mse_history t = [].
Proof.
  intros H. induction H as [|ev t Hev _ IH]; [reflexivity|].
  destruct ev; try contradiction; simpl; assumption.
Qed.

(** What one validation block of the regressor emits. *)
Lemma regressor_validation_trace (a : FitArgs) (epoch : nat)
  (estimators : list Estimator) (best_mse : ExtQ) (self : Ensemble) :
  match AdversarialTrainingRegressor.validation a epoch estimators best_mse self with
  | (_, t, Ok best') =>
      exists mse,
        best' = (if ext_ltb mse best_mse then Finite mse else best_mse)
        /\ t = (if ext_ltb mse best_mse
                then if save_model a then [EvSave estimators] else []
                else [])
               ++ [EvValidationMSE epoch mse best']
  | (s, t, Raise _) => t = [] /\ s = self
  end.
Proof.
  unfold AdversarialTrainingRegressor.validation, mbind, get_self, lift, emit, ret,
    set_estimators_, io_save.
  destruct (AdversarialTrainingRegressor.sum_mse _ _ _ _) as [sum|e];
    simpl; [|split; reflexivity].
  set (mse := sum / inject_Z (Z.of_nat (length (loader_batches (test_loader a))))).
  destruct (ext_ltb mse best_mse) eqn:E; simpl.
  - destruct (save_model a); simpl; exists mse; rewrite E; split; reflexivity.
  - exists mse. rewrite E. split; reflexivity.
Qed.

Lemma regressor_loop_log (a : FitArgs) (todo : list nat) :
  forall estimators rets best_mse self s t r,
    AdversarialTrainingRegressor.training_loop a todo estimators rets best_mse self
    = (s, t, r) ->
    regressor_log_coherent a best_mse t.
Proof.
  unfold regressor_log_coherent.
  induction todo as [|epoch rest IH]; intros estimators rets best_mse self s t r H;
    simpl in H.
  - injection H as _ <- _. repeat split; reflexivity.
  - unfold mbind at 1 in H. unfold worker in H.
    pose proof (dispatch_events a MSELoss false epoch estimators) as Hw.
    destruct (worker_events_silent _ Hw) as (_ & Hwb & Hws & _).
    destruct (worker_events_unlogged _ Hw) as (_ & Hwv).
    pose proof (worker_events_no_mse _ Hw) as Hwa.
    destruct (dispatch a MSELoss false epoch estimators) as [evs [rets'|e]];
      simpl in *.
    2: { injection H as _ <- _. rewrite Hwb, Hwa, Hws, Hwv.
         repeat split; reflexivity. }
    destruct (mbind _ _ self) as [[s2 t2] r2] eqn:E2.
    injection H as _ <- _.
    rewrite !best_mse_history_app, !mse_history_app, !saved_sets_app,
      !validation_events_app, Hwb, Hwa, Hws, Hwv. simpl.
    destruct (truthy (test_loader a)) eqn:Etruthy.
    + pose proof (regressor_validation_trace a epoch rets' best_mse self) as Hv.
      destruct (AdversarialTrainingRegressor.validation a epoch rets' best_mse self)
        as [[s1 t1] [best'|e]] eqn:Ev.
      * destruct Hv as (mse & Hb & Ht).
        rewrite (mbind_ok _ _ _ _ _ _ Ev) in E2.
        destruct (AdversarialTrainingRegressor.training_loop a rest rets'
                    (Some rets') best' s1) as [[s3 t3] r3] eqn:El.
        unfold state_of, trace_of, result_of in E2. simpl in E2.
        injection E2 as _ <- _.
        destruct (IH _ _ _ _ _ _ _ El) as (IH1 & IH2 & IH3 & _).
        subst t1.
        rewrite !best_mse_history_app, !mse_history_app, !saved_sets_app.
        assert (Hq : best_mse_history
                       (if ext_ltb mse best_mse
                        then if save_model a then [EvSave rets'] else []
                        else []) = []
                     /\ mse_history
                          (if ext_ltb mse best_mse
                           then if save_model a then [EvSave rets'] else []
                           else []) = []).
        { destruct (ext_ltb mse best_mse); [destruct (save_model a)|];
            split; reflexivity. }
        destruct Hq as [Hq1 Hq2]. rewrite Hq1, Hq2. simpl.
        rewrite <- Hb. split; [now rewrite IH1|]. split; [|split].
        -- intros Hs _. rewrite Hs. rewrite length_app, (IH2 Hs eq_refl).
           rewrite Hb. destruct (ext_ltb mse best_mse); reflexivity.
        -- intros Hs. rewrite Hs, (IH3 Hs). now destruct (ext_ltb mse best_mse).
        -- discriminate.
      * destruct Hv as [-> _]. rewrite (mbind_raise _ _ _ _ _ _ Ev) in E2.
        injection E2 as _ <- _.
        repeat split; reflexivity.
    + rewrite (mbind_ok _ _ self self [] best_mse eq_refl) in E2.
      destruct (AdversarialTrainingRegressor.training_loop a rest rets'
                  (Some rets') best_mse self) as [[s3 t3] r3] eqn:El.
      unfold state_of, trace_of, result_of in E2. simpl in E2.
      injection E2 as _ <- _.
      destruct (IH _ _ _ _ _ _ _ El) as (IH1 & _ & IH3 & IH4).
      split; [exact IH1|]. split; [discriminate|]. split; [exact IH3|].
      intros _. now apply IH4.
Qed.

Lemma regressor_fit_shape (a : FitArgs) (self : Ensemble) :
  exists pre t_loop t_end,
    trace_of (AdversarialTrainingRegressor.fit a self) = pre ++ t_loop ++ t_end
    /\ Forall setup_event pre
    /\ regressor_log_coherent a PosInf t_loop
    /\ (result_of (AdversarialTrainingRegressor.fit a self) = Ok tt ->
        t_end = if save_model a && negb (truthy (test_loader a))
                then [EvSave (estimators_
                                (state_of (AdversarialTrainingRegressor.fit a self)))]
                else [])
    /\ (forall e, result_of (AdversarialTrainingRegressor.fit a self) = Raise e ->
                  t_end = []).
Proof.
  unfold AdversarialTrainingRegressor.fit.
  rewrite (mbind_ok _ _ self self [] self eq_refl).
  rewrite (mbind_ok _ _ _ _ _ _ (make_estimators_run _ self)).
  pose proof (made_events_setup (seq 0 (n_estimators self))) as Hm.
  assert (Hnil : regressor_log_coherent a PosInf []).
  { unfold regressor_log_coherent. repeat split; reflexivity. }
  destruct (validate_run a self) as [[_ Ev]|(msg & _ & Ev)].
  2: { rewrite (mbind_raise _ _ _ _ _ _ Ev).
       exists (map EvMakeEstimator (seq 0 (n_estimators self)) ++ [EvLogError msg]),
         [], [].
       unfold trace_of, result_of. simpl. rewrite !app_nil_r.
       split; [reflexivity|]. split.
       { apply Forall_app. split; [exact Hm|repeat constructor]. }
       split; [exact Hnil|]. split; [discriminate|reflexivity]. }
  rewrite (mbind_ok _ _ _ _ _ _ Ev).
  destruct (_decide_n_outputs (train_loader a) true) as [n|e] eqn:En.
  2: { rewrite (mbind_raise _ _ self self [] e) by reflexivity.
       exists (map EvMakeEstimator (seq 0 (n_estimators self))), [], [].
       unfold trace_of, result_of. simpl. rewrite !app_nil_r.
       split; [reflexivity|]. split; [exact Hm|].
       split; [exact Hnil|]. split; [discriminate|reflexivity]. }
  rewrite (mbind_ok _ _ self self [] n) by reflexivity.
  rewrite (mbind_ok _ _ self _ [] tt eq_refl).
  set (self' := mkEnsemble (n_estimators self) (Some n) (estimators_ self)).
  destruct (AdversarialTrainingRegressor.training_loop a
              (seq 0 (Z.to_nat (epochs a)))
              (map base_estimator (seq 0 (n_estimators self))) None PosInf self')
    as [[s t] r] eqn:El.
  pose proof (regressor_loop_log a _ _ _ _ _ _ _ _ El) as Hlog.
  exists (map EvMakeEstimator (seq 0 (n_estimators self))), t.
  destruct r as [rets|e].
  2: { rewrite (mbind_raise _ _ _ _ _ _ El). exists [].
       unfold trace_of, result_of. simpl. rewrite !app_nil_r.
       split; [reflexivity|]. split; [exact Hm|].
       split; [exact Hlog|]. split; [discriminate|reflexivity]. }
  rewrite (mbind_ok _ _ _ _ _ _ El).
  destruct rets as [rets|].
  2: { exists []. unfold trace_of, result_of. simpl. rewrite !app_nil_r.
       split; [reflexivity|]. split; [exact Hm|].
       split; [exact Hlog|]. split; [discriminate|reflexivity]. }
  unfold mbind, set_estimators_, io_save, ret, trace_of, result_of, state_of.
  destruct (save_model a && negb (truthy (test_loader a))); simpl.
  - exists [EvSave rets]. split; [reflexivity|]. split; [exact Hm|].
    split; [exact Hlog|]. split; [reflexivity|discriminate].
  - exists []. split; [reflexivity|]. split; [exact Hm|].
    split; [exact Hlog|]. split; [reflexivity|discriminate].
Qed.

End RegressorLog.

Lemma running_best_mse_is_min (mses : list Q) :
  forall b k x,
    nth_error (running_best_mse b mses) k = Some x ->
    exists m, x = Finite m /\ is_min m (with_bound b (firstn (S k) mses)).
Proof.
  induction mses as [|mse rest IH]; intros b k x H; [destruct k; discriminate H|].
  simpl in H.
  change (firstn (S k) (mse :: rest)) with (mse :: firstn k rest).
  destruct b as [q|]; simpl in H |- *.
  - assert (Hb : (if Qltb mse q then Finite mse else Finite q) = Finite mse /\ mse <= q
                 \/ (if Qltb mse q then Finite mse else Finite q) = Finite q
                    /\ q <= mse).
    { destruct (Qltb mse q) eqn:E.
      - left. split; [reflexivity|]. apply Qltb_true in E. apply Qlt_le_weak, E.
      - right. split; [reflexivity|]. now apply Qltb_false in E. }
    destruct k as [|k]; simpl in H.
    + injection H as <-. destruct Hb as [[-> Hle]|[-> Hle]].
      * exists mse. split; [reflexivity|]. split; [right; now left|].
        intros y [<-|[<-|[]]]; [exact Hle|apply Qle_refl].
      * exists q. split; [reflexivity|]. split; [now left|].
        intros y [<-|[<-|[]]]; [apply Qle_refl|exact Hle].
    + destruct (IH _ k x H) as (m & -> & Hin & Hmin). exists m.
      split; [reflexivity|].
      destruct Hb as [[E Hle]|[E Hle]]; rewrite E in Hin, Hmin; simpl in Hin, Hmin.
      * assert (Hm : m <= mse) by (apply Hmin; now left).
        split; [right; exact Hin|].
        intros y [<-|Hy]; [eapply Qle_trans; eassumption|now apply Hmin].
      * assert (Hm : m <= q) by (apply Hmin; now left).
        split; [destruct Hin as [Hin|Hin]; [now left|right; now right]|].
        intros y [<-|[<-|Hy]];
          [exact Hm|eapply Qle_trans; eassumption|apply Hmin; now right].
  - destruct k as [|k]; simpl in H.
    + injection H as <-. exists mse. split; [reflexivity|]. split; [now left|].
      intros y [<-|[]]. apply Qle_refl.
    + destruct (IH _ k x H) as (m & -> & Hmin). exists m.
      split; [reflexivity|exact Hmin].
Qed.

(** X11: in every fit of the regressor, returning or raising, whose
    validation losses are finite numbers (the losses of the model are: it has
    no [inf] and no [nan]), the historical best that is logged after the k-th
    validated epoch is the least of the losses logged for the validated
    epochs up to that one. *)
Theorem regressor_best_is_running_minimum {B : Backend} (a : FitArgs)
  (self : Ensemble) (k : nat) (best : ExtQ) :
  nth_error (best_mse_history (trace_of (AdversarialTrainingRegressor.fit a self))) k
  = Some best ->
  exists m,
    best = Finite m
    /\ is_min m
         (firstn (S k)
            (mse_history (trace_of (AdversarialTrainingRegressor.fit a self)))).
Proof.
  destruct (regressor_fit_shape a self)
    as (pre & t_loop & t_end & -> & Hpre & (Hlog & _) & Hok & Hraise).
  destruct (setup_events_unlogged _ Hpre) as (_ & Hp1 & _).
  pose proof (setup_events_no_mse _ Hpre) as Hp3.
  assert (Hend : best_mse_history t_end = [] /\ mse_history t_end = []).
  { destruct (result_of (AdversarialTrainingRegressor.fit a self)) as [[]|e].
    - rewrite (Hok eq_refl).
      destruct (save_model a && negb (truthy (test_loader a))); split; reflexivity.
    - rewrite (Hraise e eq_refl). split; reflexivity. }
  destruct Hend as [He1 He2].
  rewrite !best_mse_history_app, !mse_history_app, Hp1, Hp3, He1, He2, !app_nil_r.
  simpl. rewrite Hlog. intros H.
  exact (running_best_mse_is_min _ PosInf k best H).
Qed.

Lemma regressor_best_is_running_minimum_witness :
  exists m,
    Finite 8 = Finite m
    /\ is_min m
         (firstn 2
            (mse_history
               (trace_of (AdversarialTrainingRegressor.fit (B := Scenario.toy)
                            (Scenario.args 2 (1 # 1000) (Some Scenario.validation_set))
                            (Scenario.fresh 2))))).
Proof.
  apply (regressor_best_is_running_minimum (B := Scenario.toy)
           (Scenario.args 2 (1 # 1000) (Some Scenario.validation_set))
           (Scenario.fresh 2) 1 (Finite 8)).
  reflexivity.
Defined.

Section Persistence.
Context {B : Backend}.

Lemma classifier_fit_readings (a : FitArgs) (self : Ensemble) :
  exists t_loop t_end,
    classifier_log_coherent a 0 t_loop
    /\ acc_history (trace_of (AdversarialTrainingClassifier.fit a self))
       = acc_history t_loop
    /\ validation_events (trace_of (AdversarialTrainingClassifier.fit a self))
       = validation_events t_loop
    /\ saved_sets (trace_of (AdversarialTrainingClassifier.fit a self))
       = saved_sets t_loop ++ saved_sets t_end
    /\ (result_of (AdversarialTrainingClassifier.fit a self) = Ok tt ->
        t_end = if save_model a && negb (truthy (test_loader a))
                then [EvSave (estimators_
                                (state_of (AdversarialTrainingClassifier.fit a self)))]
                else [])
    /\ (forall e, result_of (AdversarialTrainingClassifier.fit a self) = Raise e ->
                  t_end = []).
Proof.
  destruct (classifier_fit_shape a self)
    as (pre & t_loop & t_end & Ht & Hpre & Hlog & Hok & Hraise).
  exists t_loop, t_end.
  destruct (setup_events_unlogged _ Hpre) as (_ & _ & Hp3 & Hp4 & Hp5 & _).
  assert (Hend : acc_history t_end = [] /\ validation_events t_end = []).
  { destruct (result_of (AdversarialTrainingClassifier.fit a self)) as [[]|e].
    - rewrite (Hok eq_refl).
      destruct (save_model a && negb (truthy (test_loader a))); split; reflexivity.
    - rewrite (Hraise e eq_refl). split; reflexivity. }
  destruct Hend as [He1 He2].
  rewrite Ht, !acc_history_app, !validation_events_app, !saved_sets_app,
    Hp3, Hp4, Hp5, He1, He2, !app_nil_r.
  split; [exact Hlog|]. split; [reflexivity|]. split; [reflexivity|].
  split; [reflexivity|]. split; assumption.
Qed.

Lemma regressor_fit_readings (a : FitArgs) (self : Ensemble) :
  exists t_loop t_end,
    regressor_log_coherent a PosInf t_loop
    /\ mse_history (trace_of (AdversarialTrainingRegressor.fit a self))
       = mse_history t_loop
    /\ validation_events (trace_of (AdversarialTrainingRegressor.fit a self))
       = validation_events t_loop
    /\ saved_sets (trace_of (AdversarialTrainingRegressor.fit a self))
       = saved_sets t_loop ++ saved_sets t_end
    /\ (result_of (AdversarialTrainingRegressor.fit a self) = Ok tt ->
        t_end = if save_model a && negb (truthy (test_loader a))
                then [EvSave (estimators_
                                (state_of (AdversarialTrainingRegressor.fit a self)))]
                else [])
    /\ (forall e, result_of (AdversarialTrainingRegressor.fit a self) = Raise e ->
                  t_end = []).
Proof.
  destruct (regressor_fit_shape a self)
    as (pre & t_loop & t_end & Ht & Hpre & Hlog & Hok & Hraise).
  exists t_loop, t_end.
  destruct (setup_events_unlogged _ Hpre) as (_ & _ & _ & Hp4 & Hp5 & _).
  pose proof (setup_events_no_mse _ Hpre) as Hp3.
  assert (Hend : mse_history t_end = [] /\ validation_events t_end = []).
  { destruct (result_of (AdversarialTrainingRegressor.fit a self)) as [[]|e].
    - rewrite (Hok eq_refl).
      destruct (save_model a && negb (truthy (test_loader a))); split; reflexivity.
    - rewrite (Hraise e eq_refl). split; reflexivity. }
  destruct Hend as [He1 He2].
  rewrite Ht, !mse_history_app, !validation_events_app, !saved_sets_app,
    Hp3, Hp4, Hp5, He1, He2, !app_nil_r.
  split; [exact Hlog|]. split; [reflexivity|]. split; [reflexivity|].
  split; [reflexivity|]. split; assumption.
Qed.

End Persistence.

Section PersistenceFacts.
Context {B : Backend}.

Lemma classifier_saves (a : FitArgs) (self : Ensemble) :
  (save_model a = true -> truthy (test_loader a) = true ->
   length (saved_sets (trace_of (AdversarialTrainingClassifier.fit a self)))
   = count_records 0
       (acc_history (trace_of (AdversarialTrainingClassifier.fit a self))))
  /\ (save_model a = false ->
      saved_sets (trace_of (AdversarialTrainingClassifier.fit a self)) = [])
  /\ (truthy (test_loader a) = false ->
      validation_events (trace_of (AdversarialTrainingClassifier.fit a self)) = []
      /\ (result_of (AdversarialTrainingClassifier.fit a self) = Ok tt ->
          saved_sets (trace_of (AdversarialTrainingClassifier.fit a self))
          = if save_model a
            then [estimators_ (state_of (AdversarialTrainingClassifier.fit a self))]
            else [])
      /\ (forall e,
            result_of (AdversarialTrainingClassifier.fit a self) = Raise e ->
            saved_sets (trace_of (AdversarialTrainingClassifier.fit a self)) = [])).
Proof.
  destruct (classifier_fit_readings a self)
    as (t_loop & t_end & (_ & Hcount & Hnosave & Hnoval) & Hacc & Hval & Hsaved
        & Hok & Hraise).
  rewrite Hacc, Hval, Hsaved.
  split; [|split].
  - intros Hs Ht. rewrite length_app, (Hcount Hs Ht).
    destruct (result_of (AdversarialTrainingClassifier.fit a self)) as [[]|e].
    + rewrite (Hok eq_refl), Hs, Ht. simpl. lia.
    + rewrite (Hraise e eq_refl). simpl. lia.
  - intros Hs. rewrite (Hnosave Hs).
    destruct (result_of (AdversarialTrainingClassifier.fit a self)) as [[]|e].
    + rewrite (Hok eq_refl), Hs. reflexivity.
    + rewrite (Hraise e eq_refl). reflexivity.
  - intros Ht. destruct (Hnoval Ht) as [Hv Hs]. rewrite Hs.
    split; [exact Hv|]. split.
    + intros Hr. rewrite (Hok Hr), Ht. now destruct (save_model a).
    + intros e Hr. now rewrite (Hraise e Hr).
Qed.

Lemma regressor_saves (a : FitArgs) (self : Ensemble) :
  (save_model a = true -> truthy (test_loader a) = true ->
   length (saved_sets (trace_of (AdversarialTrainingRegressor.fit a self)))
   = count_records_mse PosInf
       (mse_history (trace_of (AdversarialTrainingRegressor.fit a self))))
  /\ (save_model a = false ->
      saved_sets (trace_of (AdversarialTrainingRegressor.fit a self)) = [])
  /\ (truthy (test_loader a) = false ->
      validation_events (trace_of (AdversarialTrainingRegressor.fit a self)) = []
      /\ (result_of (AdversarialTrainingRegressor.fit a self) = Ok tt ->
          saved_sets (trace_of (AdversarialTrainingRegressor.fit a self))
          = if save_model a
            then [estimators_ (state_of (AdversarialTrainingRegressor.fit a self))]
            else [])
      /\ (forall e,
            result_of (AdversarialTrainingRegressor.fit a self) = Raise e ->
            saved_sets (trace_of (AdversarialTrainingRegressor.fit a self)) = [])).
Proof.
  destruct (regressor_fit_readings a self)
    as (t_loop & t_end & (_ & Hcount & Hnosave & Hnoval) & Hacc & Hval & Hsaved
        & Hok & Hraise).
  rewrite Hacc, Hval, Hsaved.
  split; [|split].
  - intros Hs Ht. rewrite length_app, (Hcount Hs Ht).
    destruct (result_of (AdversarialTrainingRegressor.fit a self)) as [[]|e].
    + rewrite (Hok eq_refl), Hs, Ht. simpl. lia.
    + rewrite (Hraise e eq_refl). simpl. lia.
  - intros Hs. rewrite (Hnosave Hs).
    destruct (result_of (AdversarialTrainingRegressor.fit a self)) as [[]|e].
    + rewrite (Hok eq_refl), Hs. reflexivity.
    + rewrite (Hraise e eq_refl). reflexivity.
  - intros Ht. destruct (Hnoval Ht) as [Hv Hs]. rewrite Hs.
    split; [exact Hv|]. split.
    + intros Hr. rewrite (Hok Hr), Ht. now destruct (save_model a).
    + intros e Hr. now rewrite (Hraise e Hr).
Qed.

End PersistenceFacts.

(** X12: in a fit with a validation loader and save_model set, returning or
    raising, io.save is invoked once for every validated epoch whose metric
    strictly improves on 0 (resp. infinity) and on the metrics of all
    validated epochs before it, and not otherwise: the classifier saves as
    often as its accuracies set a new record, the regressor as often as its
    losses do. *)
Theorem saves_once_per_improvement {B : Backend} (a : FitArgs) (self : Ensemble) :
  save_model a = true ->
  truthy (test_loader a) = true ->
  length (saved_sets (trace_of (AdversarialTrainingClassifier.fit a self)))
  = count_records 0
      (acc_history (trace_of (AdversarialTrainingClassifier.fit a self)))
  /\ length (saved_sets (trace_of (AdversarialTrainingRegressor.fit a self)))
     = count_records_mse PosInf
         (mse_history (trace_of (AdversarialTrainingRegressor.fit a self))).
Proof.
  intros Hs Ht. split.
  - now apply classifier_saves.
  - now apply regressor_saves.
Qed.

Lemma saves_once_per_improvement_witness :
  length (saved_sets
            (trace_of (AdversarialTrainingClassifier.fit (B := Scenario.toy)
                         (Scenario.args 2 (1 # 1000) (Some Scenario.validation_set))
                         (Scenario.fresh 2))))
  = count_records 0
      (acc_history
         (trace_of (AdversarialTrainingClassifier.fit (B := Scenario.toy)
                      (Scenario.args 2 (1 # 1000) (Some Scenario.validation_set))
                      (Scenario.fresh 2))))
  /\ length (saved_sets
               (trace_of (AdversarialTrainingRegressor.fit (B := Scenario.toy)
                            (Scenario.args 2 (1 # 1000) (Some Scenario.validation_set))
                            (Scenario.fresh 2))))
     = count_records_mse PosInf
         (mse_history
            (trace_of (AdversarialTrainingRegressor.fit (B := Scenario.toy)
                         (Scenario.args 2 (1 # 1000) (Some Scenario.validation_set))
                         (Scenario.fresh 2)))).
Proof.
  apply (saves_once_per_improvement (B := Scenario.toy)
           (Scenario.args 2 (1 # 1000) (Some Scenario.validation_set))
           (Scenario.fresh 2)); reflexivity.
Defined.

(** X13: a fit called with save_model unset never invokes io.save, whether
    it returns or raises, with or without a validation loader. *)
Theorem never_saves_without_save_model {B : Backend} (a : FitArgs) (self : Ensemble) :
  save_model a = false ->
  saved_sets (trace_of (AdversarialTrainingClassifier.fit a self)) = []
  /\ saved_sets (trace_of (AdversarialTrainingRegressor.fit a self)) = [].
Proof.
  intros Hs. split.
  - now apply classifier_saves.
  - now apply regressor_saves.
Qed.

(** X14: a fit without a validation loader (none, or one without batches)
    runs no validation; if it returns it invokes io.save exactly once, after
    the last epoch and with the committed set, when save_model is set, and
    never otherwise; if it raises it has saved nothing. *)
Theorem fit_without_validation_saves_at_the_end {B : Backend} (a : FitArgs)
  (self : Ensemble) :
  truthy (test_loader a) = false ->
  (validation_events (trace_of (AdversarialTrainingClassifier.fit a self)) = []
   /\ (result_of (AdversarialTrainingClassifier.fit a self) = Ok tt ->
       saved_sets (trace_of (AdversarialTrainingClassifier.fit a self))
       = if save_model a
         then [estimators_ (state_of (AdversarialTrainingClassifier.fit a self))]
         else [])
   /\ (forall e,
         result_of (AdversarialTrainingClassifier.fit a self) = Raise e ->
         saved_sets (trace_of (AdversarialTrainingClassifier.fit a self)) = []))
  /\ (validation_events (trace_of (AdversarialTrainingRegressor.fit a self)) = []
      /\ (result_of (AdversarialTrainingRegressor.fit a self) = Ok tt ->
          saved_sets (trace_of (AdversarialTrainingRegressor.fit a self))
          = if save_model a
            then [estimators_ (state_of (AdversarialTrainingRegressor.fit a self))]
            else [])
      /\ (forall e,
            result_of (AdversarialTrainingRegressor.fit a self) = Raise e ->
            saved_sets (trace_of (AdversarialTrainingRegressor.fit a self)) = [])).
Proof.
  intros Ht. split.
  - now apply classifier_saves.
  - now apply regressor_saves.
Qed.

Lemma never_saves_without_save_model_witness :
  saved_sets (trace_of (AdversarialTrainingClassifier.fit (B := Scenario.toy)
                          Scenario.args_nosave (Scenario.fresh 2))) = []
  /\ saved_sets (trace_of (AdversarialTrainingRegressor.fit (B := Scenario.toy)
                             Scenario.args_nosave (Scenario.fresh 2))) = [].
Proof.
  apply (never_saves_without_save_model (B := Scenario.toy) Scenario.args_nosave
           (Scenario.fresh 2)).
  reflexivity.
Defined.

Lemma fit_without_validation_saves_at_the_end_witness :
  (validation_events
     (trace_of (AdversarialTrainingClassifier.fit (B := Scenario.toy)
                  (Scenario.args 1 (1 # 1000) None) (Scenario.fresh 3))) = []
   /\ (result_of (AdversarialTrainingClassifier.fit (B := Scenario.toy)
                    (Scenario.args 1 (1 # 1000) None) (Scenario.fresh 3)) = Ok tt ->
       saved_sets
         (trace_of (AdversarialTrainingClassifier.fit (B := Scenario.toy)
                      (Scenario.args 1 (1 # 1000) None) (Scenario.fresh 3)))
       = if save_model (Scenario.args 1 (1 # 1000) None)
         then [estimators_
                 (state_of (AdversarialTrainingClassifier.fit (B := Scenario.toy)
                              (Scenario.args 1 (1 # 1000) None) (Scenario.fresh 3)))]
         else [])
   /\ (forall e,
         result_of (AdversarialTrainingClassifier.fit (B := Scenario.toy)
                      (Scenario.args 1 (1 # 1000) None) (Scenario.fresh 3)) = Raise e ->
         saved_sets
           (trace_of (AdversarialTrainingClassifier.fit (B := Scenario.toy)
                        (Scenario.args 1 (1 # 1000) None) (Scenario.fresh 3))) = []))
  /\ (validation_events
        (trace_of (AdversarialTrainingRegressor.fit (B := Scenario.toy)
                     (Scenario.args 1 (1 # 1000) None) (Scenario.fresh 3))) = []
      /\ (result_of (AdversarialTrainingRegressor.fit (B := Scenario.toy)
                       (Scenario.args 1 (1 # 1000) None) (Scenario.fresh 3)) = Ok tt ->
          saved_sets
            (trace_of (AdversarialTrainingRegressor.fit (B := Scenario.toy)
                         (Scenario.args 1 (1 # 1000) None) (Scenario.fresh 3)))
          = if save_model (Scenario.args 1 (1 # 1000) None)
            then [estimators_
                    (state_of (AdversarialTrainingRegressor.fit (B := Scenario.toy)
                                 (Scenario.args 1 (1 # 1000) None)
                                 (Scenario.fresh 3)))]
            else [])
      /\ (forall e,
            result_of (AdversarialTrainingRegressor.fit (B := Scenario.toy)
                         (Scenario.args 1 (1 # 1000) None) (Scenario.fresh 3))
            = Raise e ->
            saved_sets
              (trace_of (AdversarialTrainingRegressor.fit (B := Scenario.toy)
                           (Scenario.args 1 (1 # 1000) None) (Scenario.fresh 3)))
            = [])).
Proof.
  apply (fit_without_validation_saves_at_the_end (B := Scenario.toy)
           (Scenario.args 1 (1 # 1000) None) (Scenario.fresh 3)).
  reflexivity.
Defined.

(** ** Estimators and optimizers that a fit constructs *)

Section Constructions.
Context {B : Backend}.

Lemma made_optimizers_app (t1 t2 : list Event) :
  made_optimizers (t1 ++ t2) = (made_optimizers t1 + made_optimizers t2)%nat.
Proof. unfold made_optimizers. now rewrite filter_app, length_app. Qed.

Lemma made_estimators_app (t1 t2 : list Event) :
  made_estimators (t1 ++ t2) = (made_estimators t1 + made_estimators t2)%nat.
Proof. unfold made_estimators. now rewrite filter_app, length_app. Qed.

Lemma print_events_count (t : list Event) :
  Forall print_event t -> made_optimizers t = 0%nat.
Proof.
  intros H. induction H as [|ev t Hev _ IH]; [reflexivity|].
  destruct ev; try contradiction. exact IH.
Qed.

Lemma fit_batches_prints (criterion : Criterion) (epoch : nat) (eps : Q)
  (log_interval : Z) (idx : nat) (is_classification : bool)
  (todo : list (nat * (Tensor * Tensor))) :
  forall optimizer estimator,
    Forall print_event
      (fst (fit_batches criterion epoch eps log_interval idx is_classification todo
              optimizer estimator)).
Proof.
  induction todo as [|[batch_idx [data target]] rest IH]; intros opt est; simpl.
  - constructor.
  - destruct (size_at data 0) as [batch_size|e]; [|constructor].
    destruct (_get_fgsm_samples data eps _) as [adv|e]; [|constructor].
    destruct (optimizer_step _ _ _ _ _ _) as [opt' est'].
    specialize (IH opt' est').
    destruct (fit_batches _ _ _ _ _ _ rest opt' est') as [evs' r].
    simpl in IH.
    destruct (Z.of_nat batch_idx mod log_interval =? 0)%Z; simpl.
    + destruct is_classification; simpl.
      * destruct (bind _ _) as [correct|e]; simpl; [|constructor].
        constructor; [exact I|exact IH].
      * constructor; [exact I|exact IH].
    + exact IH.
Qed.

(** A worker that returns has built one optimizer. *)
Lemma worker_builds_one_optimizer (loader : DataLoader) (lr wd : Q) (epoch : nat)
  (opt : string) (eps : Q) (log_interval : Z) (idx : nat) (estimator : Estimator)
  (criterion : Criterion) (is_classification : bool) (estimator' : Estimator) :
  snd (_parallel_fit_per_epoch loader lr wd epoch opt eps log_interval idx estimator
         criterion is_classification) = Ok estimator' ->
  made_optimizers
    (fst (_parallel_fit_per_epoch loader lr wd epoch opt eps log_interval idx
            estimator criterion is_classification)) = 1%nat.
Proof.
  unfold _parallel_fit_per_epoch.
  destruct (set_optimizer estimator opt lr wd) as [o|e]; [|discriminate].
  pose proof (fit_batches_prints criterion epoch eps log_interval idx
                is_classification (enumerate (batches loader)) o estimator) as H.
  destruct (fit_batches _ _ _ _ _ _ _ _ _) as [evs r]. simpl in *.
  intros _. unfold made_optimizers. simpl. f_equal.
  exact (print_events_count evs H).
Qed.

Lemma parallel_optimizers {A : Type} (tasks : list (list Event * Result A)) :
  forall results,
    snd (parallel tasks) = Ok results ->
    (forall task x, In task tasks -> snd task = Ok x ->
                    made_optimizers (fst task) = 1%nat) ->
    made_optimizers (fst (parallel tasks)) = length tasks.
Proof.
  induction tasks as [|[evs r] tasks IH]; intros results H Hone; simpl in *.
  - reflexivity.
  - destruct r as [x|e]; [|discriminate H].
    pose proof (Hone (evs, Ok x) x (or_introl eq_refl) eq_refl) as H1.
    destruct (parallel tasks) as [evs' [rs|e]] eqn:Ep; simpl in *; [|discriminate H].
    rewrite made_optimizers_app, H1.
    rewrite (IH rs eq_refl); [reflexivity|].
    intros task y Hin. apply Hone. now right.
Qed.

Lemma dispatch_optimizers (a : FitArgs) (criterion : Criterion)
  (is_classification : bool) (epoch : nat) (estimators rets : list Estimator) :
  snd (dispatch a criterion is_classification epoch estimators) = Ok rets ->
  made_optimizers (fst (dispatch a criterion is_classification epoch estimators))
  = length estimators.
Proof.
  intros H. rewrite dispatch_unfold in *.
  rewrite (parallel_optimizers _ rets H).
  - now rewrite length_map, length_combine, length_seq, Nat.min_id.
  - intros task x Hin Hx. apply in_map_iff in Hin.
    destruct Hin as ([idx est] & <- & _). simpl in *.
    eapply worker_builds_one_optimizer, Hx.
Qed.

Lemma classifier_loop_optimizers (a : FitArgs) (todo : list nat) :
  forall estimators rets best_acc self s t r,
    AdversarialTrainingClassifier.training_loop a todo estimators rets best_acc self
    = (s, t, Ok r) ->
    made_optimizers t = (length todo * length estimators)%nat.
Proof.
  induction todo as [|epoch rest IH]; intros estimators rets best_acc self s t r H;
    simpl in H.
  - injection H as _ <- _. reflexivity.
  - unfold mbind at 1 in H. unfold worker in H.
    pose proof (dispatch_optimizers a CrossEntropyLoss true epoch estimators) as Ho.
    pose proof (dispatch_result_positions a CrossEntropyLoss true epoch estimators)
      as Hp.
    destruct (dispatch a CrossEntropyLoss true epoch estimators) as [evs [rets'|e]];
      simpl in *; [|discriminate H].
    specialize (Ho rets' eq_refl). destruct (Hp rets' eq_refl) as [Hlen _].
    destruct (mbind _ _ self) as [[s2 t2] r2] eqn:E2.
    injection H as _ <- ->.
    rewrite made_optimizers_app, Ho.
    destruct (truthy (test_loader a)).
    + pose proof (classifier_validation_trace a epoch rets' best_acc self) as Hv.
      destruct (AdversarialTrainingClassifier.validation a epoch rets' best_acc self)
        as [[s1 t1] [best'|e]] eqn:Ev.
      * destruct Hv as (acc & Hb & Ht).
        rewrite (mbind_ok _ _ _ _ _ _ Ev) in E2.
        destruct (AdversarialTrainingClassifier.training_loop a rest rets'
                    (Some rets') best' s1) as [[s3 t3] r3] eqn:El.
        unfold state_of, trace_of, result_of in E2. simpl in E2.
        injection E2 as _ <- ->.
        rewrite made_optimizers_app, (IH _ _ _ _ _ _ _ El), Hlen.
        assert (H1 : made_optimizers t1 = 0%nat).
        { subst t1. rewrite made_optimizers_app.
          destruct (Qltb best_acc acc); [destruct (save_model a)|]; reflexivity. }
        rewrite H1. lia.
      * rewrite (mbind_raise _ _ _ _ _ _ Ev) in E2. discriminate E2.
    + rewrite (mbind_ok _ _ self self [] best_acc eq_refl) in E2.
      destruct (AdversarialTrainingClassifier.training_loop a rest rets'
                  (Some rets') best_acc self) as [[s3 t3] r3] eqn:El.
      unfold state_of, trace_of, result_of in E2. simpl in E2.
      injection E2 as _ <- ->.
      rewrite (IH _ _ _ _ _ _ _ El), Hlen. lia.
Qed.

Lemma regressor_loop_optimizers (a : FitArgs) (todo : list nat) :
  forall estimators rets best_mse self s t r,
    AdversarialTrainingRegressor.training_loop a todo estimators rets best_mse self
    = (s, t, Ok r) ->
    made_optimizers t = (length todo * length estimators)%nat.
Proof.
  induction todo as [|epoch rest IH]; intros estimators rets best_mse self s t r H;
    simpl in H.
  - injection H as _ <- _. reflexivity.
  - unfold mbind at 1 in H. unfold worker in H.
    pose proof (dispatch_optimizers a MSELoss false epoch estimators) as Ho.
    pose proof (dispatch_result_positions a MSELoss false epoch estimators) as Hp.
    destruct (dispatch a MSELoss false epoch estimators) as [evs [rets'|e]];
      simpl in *; [|discriminate H].
    specialize (Ho rets' eq_refl). destruct (Hp rets' eq_refl) as [Hlen _].
    destruct (mbind _ _ self) as [[s2 t2] r2] eqn:E2.
    injection H as _ <- ->.
    rewrite made_optimizers_app, Ho.
    destruct (truthy (test_loader a)).
    + pose proof (regressor_validation_trace a epoch rets' best_mse self) as Hv.
      destruct (AdversarialTrainingRegressor.validation a epoch rets' best_mse self)
        as [[s1 t1] [best'|e]] eqn:Ev.
      * destruct Hv as (mse & Hb & Ht).
        rewrite (mbind_ok _ _ _ _ _ _ Ev) in E2.
        destruct (AdversarialTrainingRegressor.training_loop a rest rets'
                    (Some rets') best' s1) as [[s3 t3] r3] eqn:El.
        unfold state_of, trace_of, result_of in E2. simpl in E2.
        injection E2 as _ <- ->.
        rewrite made_optimizers_app, (IH _ _ _ _ _ _ _ El), Hlen.
        assert (H1 : made_optimizers t1 = 0%nat).
        { subst t1. rewrite made_optimizers_app.
          destruct (ext_ltb mse best_mse); [destruct (save_model a)|]; reflexivity. }
        rewrite H1. lia.
      * rewrite (mbind_raise _ _ _ _ _ _ Ev) in E2. discriminate E2.
    + rewrite (mbind_ok _ _ self self [] best_mse eq_refl) in E2.
      destruct (AdversarialTrainingRegressor.training_loop a rest rets'
                  (Some rets') best_mse self) as [[s3 t3] r3] eqn:El.
      unfold state_of, trace_of, result_of in E2. simpl in E2.
      injection E2 as _ <- ->.
      rewrite (IH _ _ _ _ _ _ _ El), Hlen. lia.
Qed.

End Constructions.

Section FitReturns.
Context {B : Backend}.

(** What a returning [fit] of the classifier has run. *)
Lemma classifier_fit_returns (a : FitArgs) (self : Ensemble) :
  result_of (AdversarialTrainingClassifier.fit a self) = Ok tt ->
  exists n s t rets,
    valid_hyperparameters (lr a) (weight_decay a) (epochs a) (epsilon a)
      (log_interval a)
    /\ _decide_n_outputs (train_loader a) true = Ok n
    /\ AdversarialTrainingClassifier.training_loop a (seq 0 (Z.to_nat (epochs a)))
         (map base_estimator (seq 0 (n_estimators self))) None 0
         (mkEnsemble (n_estimators self) (Some n) (estimators_ self))
       = (s, t, Ok (Some rets))
    /\ trace_of (AdversarialTrainingClassifier.fit a self)
       = map EvMakeEstimator (seq 0 (n_estimators self)) ++ t
         ++ (if save_model a && negb (truthy (test_loader a))
             then [EvSave rets] else [])
    /\ state_of (AdversarialTrainingClassifier.fit a self)
       = mkEnsemble (n_estimators s) (n_outputs s) rets.
Proof.
  unfold AdversarialTrainingClassifier.fit.
  rewrite (mbind_ok _ _ self self [] self eq_refl).
  rewrite (mbind_ok _ _ _ _ _ _ (make_estimators_run _ self)).
  destruct (validate_run a self) as [[Hv Ev]|(msg & _ & Ev)].
  2: { rewrite (mbind_raise _ _ _ _ _ _ Ev). discriminate. }
  rewrite (mbind_ok _ _ _ _ _ _ Ev).
  destruct (_decide_n_outputs (train_loader a) true) as [n|e] eqn:En.
  2: { rewrite (mbind_raise _ _ self self [] e) by reflexivity. discriminate. }
  rewrite (mbind_ok _ _ self self [] n) by reflexivity.
  rewrite (mbind_ok _ _ self _ [] tt eq_refl).
  destruct (AdversarialTrainingClassifier.training_loop a
              (seq 0 (Z.to_nat (epochs a)))
              (map base_estimator (seq 0 (n_estimators self))) None 0
              (mkEnsemble (n_estimators self) (Some n) (estimators_ self)))
    as [[s t] [rets|e]] eqn:El.
  2: { rewrite (mbind_raise _ _ _ _ _ _ El). discriminate. }
  rewrite (mbind_ok _ _ _ _ _ _ El).
  destruct rets as [rets|]; [|discriminate].
  intros _. exists n, s, t, rets.
  split; [now apply validate_parameters_ok_iff|].
  split; [reflexivity|]. split; [exact El|].
  unfold mbind, set_estimators_, io_save, ret, trace_of, state_of. simpl.
  destruct (save_model a && negb (truthy (test_loader a))); simpl;
    split; reflexivity.
Qed.

Lemma regressor_fit_returns (a : FitArgs) (self : Ensemble) :
  result_of (AdversarialTrainingRegressor.fit a self) = Ok tt ->
  exists n s t rets,
    valid_hyperparameters (lr a) (weight_decay a) (epochs a) (epsilon a)
      (log_interval a)
    /\ _decide_n_outputs (train_loader a) true = Ok n
    /\ AdversarialTrainingRegressor.training_loop a (seq 0 (Z.to_nat (epochs a)))
         (map base_estimator (seq 0 (n_estimators self))) None PosInf
         (mkEnsemble (n_estimators self) (Some n) (estimators_ self))
       = (s, t, Ok (Some rets))
    /\ trace_of (AdversarialTrainingRegressor.fit a self)
       = map EvMakeEstimator (seq 0 (n_estimators self)) ++ t
         ++ (if save_model a && negb (truthy (test_loader a))
             then [EvSave rets] else [])
    /\ state_of (AdversarialTrainingRegressor.fit a self)
       = mkEnsemble (n_estimators s) (n_outputs s) rets.
Proof.
  unfold AdversarialTrainingRegressor.fit.
  rewrite (mbind_ok _ _ self self [] self eq_refl).
  rewrite (mbind_ok _ _ _ _ _ _ (make_estimators_run _ self)).
  destruct (validate_run a self) as [[Hv Ev]|(msg & _ & Ev)].
  2: { rewrite (mbind_raise _ _ _ _ _ _ Ev). discriminate. }
  rewrite (mbind_ok _ _ _ _ _ _ Ev).
  destruct (_decide_n_outputs (train_loader a) true) as [n|e] eqn:En.
  2: { rewrite (mbind_raise _ _ self self [] e) by reflexivity. discriminate. }
  rewrite (mbind_ok _ _ self self [] n) by reflexivity.
  rewrite (mbind_ok _ _ self _ [] tt eq_refl).
  destruct (AdversarialTrainingRegressor.training_loop a
              (seq 0 (Z.to_nat (epochs a)))
              (map base_estimator (seq 0 (n_estimators self))) None PosInf
              (mkEnsemble (n_estimators self) (Some n) (estimators_ self)))
    as [[s t] [rets|e]] eqn:El.
  2: { rewrite (mbind_raise _ _ _ _ _ _ El). discriminate. }
  rewrite (mbind_ok _ _ _ _ _ _ El).
  destruct rets as [rets|]; [|discriminate].
  intros _. exists n, s, t, rets.
  split; [now apply validate_parameters_ok_iff|].
  split; [reflexivity|]. split; [exact El|].
  unfold mbind, set_estimators_, io_save, ret, trace_of, state_of. simpl.
  destruct (save_model a && negb (truthy (test_loader a))); simpl;
    split; reflexivity.
Qed.

Lemma worker_events_make_no_estimator (t : list Event) :
  Forall worker_event t -> made_estimators t = 0%nat.
Proof.
  intros H. unfold made_estimators.
  induction H as [|ev t Hev _ IH]; [reflexivity|].
  destruct ev; try contradiction; simpl; exact IH.
Qed.

Lemma made_events_count (ks : list nat) :
  made_estimators (map EvMakeEstimator ks) = length ks.
Proof.
  unfold made_estimators. induction ks as [|k ks IH]; simpl; [reflexivity|].
  now rewrite IH.
Qed.

Lemma classifier_loop_makes_no_estimator (a : FitArgs) (todo : list nat) :
  forall estimators rets best_acc self s t r,
    AdversarialTrainingClassifier.training_loop a todo estimators rets best_acc self
    = (s, t, Ok r) ->
    made_estimators t = 0%nat.
Proof.
  induction todo as [|epoch rest IH]; intros estimators rets best_acc self s t r H;
    simpl in H.
  - injection H as _ <- _. reflexivity.
  - unfold mbind at 1 in H. unfold worker in H.
    pose proof (worker_events_make_no_estimator _
                  (dispatch_events a CrossEntropyLoss true epoch estimators)) as Hw.
    destruct (dispatch a CrossEntropyLoss true epoch estimators) as [evs [rets'|e]];
      simpl in *; [|discriminate H].
    destruct (mbind _ _ self) as [[s2 t2] r2] eqn:E2.
    injection H as _ <- ->.
    rewrite made_estimators_app, Hw.
    destruct (truthy (test_loader a)).
    + pose proof (classifier_validation_trace a epoch rets' best_acc self) as Hv.
      destruct (AdversarialTrainingClassifier.validation a epoch rets' best_acc self)
        as [[s1 t1] [best'|e]] eqn:Ev.
      * destruct Hv as (acc & Hb & Ht).
        rewrite (mbind_ok _ _ _ _ _ _ Ev) in E2.
        destruct (AdversarialTrainingClassifier.training_loop a rest rets'
                    (Some rets') best' s1) as [[s3 t3] r3] eqn:El.
        unfold state_of, trace_of, result_of in E2. simpl in E2.
        injection E2 as _ <- ->.
        rewrite made_estimators_app, (IH _ _ _ _ _ _ _ El).
        subst t1. rewrite made_estimators_app.
        destruct (Qltb best_acc acc); [destruct (save_model a)|]; reflexivity.
      * rewrite (mbind_raise _ _ _ _ _ _ Ev) in E2. discriminate E2.
    + rewrite (mbind_ok _ _ self self [] best_acc eq_refl) in E2.
      destruct (AdversarialTrainingClassifier.training_loop a rest rets'
                  (Some rets') best_acc self) as [[s3 t3] r3] eqn:El.
      unfold state_of, trace_of, result_of in E2. simpl in E2.
      injection E2 as _ <- ->.
      now rewrite (IH _ _ _ _ _ _ _ El).
Qed.

Lemma regressor_loop_makes_no_estimator (a : FitArgs) (todo : list nat) :
  forall estimators rets best_mse self s t r,
    AdversarialTrainingRegressor.training_loop a todo estimators rets best_mse self
    = (s, t, Ok r) ->
    made_estimators t = 0%nat.
Proof.
  induction todo as [|epoch rest IH]; intros estimators rets best_mse self s t r H;
    simpl in H.
  - injection H as _ <- _. reflexivity.
  - unfold mbind at 1 in H. unfold worker in H.
    pose proof (worker_events_make_no_estimator _
                  (dispatch_events a MSELoss false epoch estimators)) as Hw.
    destruct (dispatch a MSELoss false epoch estimators) as [evs [rets'|e]];
      simpl in *; [|discriminate H].
    destruct (mbind _ _ self) as [[s2 t2] r2] eqn:E2.
    injection H as _ <- ->.
    rewrite made_estimators_app, Hw.
    destruct (truthy (test_loader a)).
    + pose proof (regressor_validation_trace a epoch rets' best_mse self) as Hv.
      destruct (AdversarialTrainingRegressor.validation a epoch rets' best_mse self)
        as [[s1 t1] [best'|e]] eqn:Ev.
      * destruct Hv as (mse & Hb & Ht).
        rewrite (mbind_ok _ _ _ _ _ _ Ev) in E2.
        destruct (AdversarialTrainingRegressor.training_loop a rest rets'
                    (Some rets') best' s1) as [[s3 t3] r3] eqn:El.
        unfold state_of, trace_of, result_of in E2. simpl in E2.
        injection E2 as _ <- ->.
        rewrite made_estimators_app, (IH _ _ _ _ _ _ _ El).
        subst t1. rewrite made_estimators_app.
        destruct (ext_ltb mse best_mse); [destruct (save_model a)|]; reflexivity.
      * rewrite (mbind_raise _ _ _ _ _ _ Ev) in E2. discriminate E2.
    + rewrite (mbind_ok _ _ self self [] best_mse eq_refl) in E2.
      destruct (AdversarialTrainingRegressor.training_loop a rest rets'
                  (Some rets') best_mse self) as [[s3 t3] r3] eqn:El.
      unfold state_of, trace_of, result_of in E2. simpl in E2.
      injection E2 as _ <- ->.
      now rewrite (IH _ _ _ _ _ _ _ El).
Qed.

Lemma made_events_no_optimizers (ks : list nat) :
  made_optimizers (map EvMakeEstimator ks) = 0%nat.
Proof. unfold made_optimizers. induction ks; simpl; assumption || reflexivity. Qed.

End FitReturns.

(** X15: a fit of the classifier that returns has constructed n_estimators
    base estimators, and has built a fresh optimizer for every estimator in
    every epoch, n_estimators times epochs optimizers in all: no optimizer
    outlives the epoch it was built in. *)
Theorem classifier_fit_builds_optimizer_per_epoch {B : Backend} (a : FitArgs)
  (self : Ensemble) :
  result_of (AdversarialTrainingClassifier.fit a self) = Ok tt ->
  made_estimators (trace_of (AdversarialTrainingClassifier.fit a self))
  = n_estimators self
  /\ made_optimizers (trace_of (AdversarialTrainingClassifier.fit a self))
     = (Z.to_nat (epochs a) * n_estimators self)%nat.
Proof.
  intros H. destruct (classifier_fit_returns a self H)
    as (n & s & t & rets & _ & _ & El & -> & _).
  split.
  - rewrite !made_estimators_app, made_events_count, length_seq.
    rewrite (classifier_loop_makes_no_estimator a _ _ _ _ _ _ _ _ El).
    destruct (save_model a && negb (truthy (test_loader a)));
      unfold made_estimators; simpl; lia.
  - rewrite !made_optimizers_app, made_events_no_optimizers.
    rewrite (classifier_loop_optimizers a _ _ _ _ _ _ _ _ El).
    rewrite length_seq, length_map, length_seq.
    destruct (save_model a && negb (truthy (test_loader a)));
      unfold made_optimizers; simpl; lia.
Qed.

Lemma classifier_fit_builds_optimizer_per_epoch_witness :
  made_estimators
    (trace_of (AdversarialTrainingClassifier.fit (B := Scenario.toy)
                 (Scenario.args 2 (1 # 1000) (Some Scenario.validation_set))
                 (Scenario.fresh 2)))
  = 2%nat
  /\ made_optimizers
       (trace_of (AdversarialTrainingClassifier.fit (B := Scenario.toy)
                    (Scenario.args 2 (1 # 1000) (Some Scenario.validation_set))
                    (Scenario.fresh 2)))
     = (Z.to_nat 2 * 2)%nat.
Proof.
  apply (classifier_fit_builds_optimizer_per_epoch (B := Scenario.toy)
           (Scenario.args 2 (1 # 1000) (Some Scenario.validation_set))
           (Scenario.fresh 2)).
  reflexivity.
Defined.

(** X16: a fit of the regressor that returns has constructed n_estimators
    base estimators, and has built a fresh optimizer for every estimator in
    every epoch, n_estimators times epochs optimizers in all. *)
Theorem regressor_fit_builds_optimizer_per_epoch {B : Backend} (a : FitArgs)
  (self : Ensemble) :
  result_of (AdversarialTrainingRegressor.fit a self) = Ok tt ->
  made_estimators (trace_of (AdversarialTrainingRegressor.fit a self))
  = n_estimators self
  /\ made_optimizers (trace_of (AdversarialTrainingRegressor.fit a self))
     = (Z.to_nat (epochs a) * n_estimators self)%nat.
Proof.
  intros H. destruct (regressor_fit_returns a self H)
    as (n & s & t & rets & _ & _ & El & -> & _).
  split.
  - rewrite !made_estimators_app, made_events_count, length_seq.
    rewrite (regressor_loop_makes_no_estimator a _ _ _ _ _ _ _ _ El).
    destruct (save_model a && negb (truthy (test_loader a)));
      unfold made_estimators; simpl; lia.
  - rewrite !made_optimizers_app, made_events_no_optimizers.
    rewrite (regressor_loop_optimizers a _ _ _ _ _ _ _ _ El).
    rewrite length_seq, length_map, length_seq.
    destruct (save_model a && negb (truthy (test_loader a)));
      unfold made_optimizers; simpl; lia.
Qed.

Lemma regressor_fit_builds_optimizer_per_epoch_witness :
  made_estimators
    (trace_of (AdversarialTrainingRegressor.fit (B := Scenario.toy)
                 (Scenario.args 2 (1 # 1000) (Some Scenario.validation_set))
                 (Scenario.fresh 2)))
  = 2%nat
  /\ made_optimizers
       (trace_of (AdversarialTrainingRegressor.fit (B := Scenario.toy)
                    (Scenario.args 2 (1 # 1000) (Some Scenario.validation_set))
                    (Scenario.fresh 2)))
     = (Z.to_nat 2 * 2)%nat.
Proof.
  apply (regressor_fit_builds_optimizer_per_epoch (B := Scenario.toy)
           (Scenario.args 2 (1 # 1000) (Some Scenario.validation_set))
           (Scenario.fresh 2)).
  reflexivity.
Defined.

(** ** The evaluation of a committed ensemble *)

Section Predict.
Context {B : Backend}.

Lemma classifier_predict_loop_tallies (self : Ensemble)
  (todo : list (Tensor * Tensor)) :
  forall correct total,
    AdversarialTrainingClassifier.predict_loop self todo correct total
    = (tallies <- mapM (batch_tally self) todo ;;
       Ok ((correct + list_sum (map fst tallies))%nat,
           (total + list_sum (map snd tallies))%nat)).
Proof.
  induction todo as [|[data target] rest IH]; intros correct total; simpl.
  - now rewrite !Nat.add_0_r.
  - unfold batch_tally at 1. simpl.
    destruct (AdversarialTrainingClassifier.forward self data) as [output|e];
      simpl; [|reflexivity].
    destruct (torch_max_dim1 output) as [predicted|e]; simpl; [|reflexivity].
    destruct (count_equal predicted target) as [c|e]; simpl; [|reflexivity].
    destruct (size_at target 0) as [n|e]; simpl; [|reflexivity].
    rewrite IH.
    destruct (mapM (batch_tally self) rest) as [tallies|e]; simpl; [|reflexivity].
    now rewrite !Nat.add_assoc.
Qed.

Lemma mapM_permutation {X Y : Type} (f : X -> Result Y) (xs ys : list X) :
  Permutation xs ys ->
  forall rs, mapM f xs = Ok rs ->
             exists rs', mapM f ys = Ok rs' /\ Permutation rs rs'.
Proof.
  induction 1 as [|x xs ys Hp IH|x y xs|xs ys zs Hp1 IH1 Hp2 IH2]; intros rs H.
  - exists rs. split; [exact H|apply Permutation_refl].
  - simpl in *. destruct (f x) as [r|e]; simpl in *; [|discriminate H].
    destruct (mapM f xs) as [rs0|e]; simpl in *; [|discriminate H].
    injection H as <-. destruct (IH rs0 eq_refl) as (rs' & -> & Hperm).
    exists (r :: rs'). split; [reflexivity|now constructor].
  - simpl in *. destruct (f y) as [ry|e]; simpl in *; [|discriminate H].
    destruct (f x) as [rx|e]; simpl in *; [|discriminate H].
    destruct (mapM f xs) as [rs0|e]; simpl in *; [|discriminate H].
    injection H as <-. exists (rx :: ry :: rs0). split; [reflexivity|constructor].
  - destruct (IH1 rs H) as (rs1 & H1 & Hperm1).
    destruct (IH2 rs1 H1) as (rs2 & H2 & Hperm2).
    exists rs2. split; [exact H2|eapply Permutation_trans; eassumption].
Qed.

Lemma list_sum_permutation (xs ys : list nat) :
  Permutation xs ys -> list_sum xs = list_sum ys.
Proof.
  induction 1; simpl; lia.
Qed.

Lemma count_equal_bound (predicted : list nat) (target : Tensor) (c : nat) :
  count_equal predicted target = Ok c -> (c <= length (elems target))%nat.
Proof.
  unfold count_equal.
  destruct (Nat.eqb (length predicted) (length (elems target))) eqn:E;
    [|discriminate].
  apply Nat.eqb_eq in E. intros [= <-].
  eapply Nat.le_trans; [apply filter_length_le|].
  rewrite length_combine. lia.
Qed.

Lemma batch_tally_bound (self : Ensemble) (batch : Tensor * Tensor) (c n : nat) :
  label_vector (snd batch) ->
  batch_tally self batch = Ok (c, n) ->
  (c <= n)%nat.
Proof.
  unfold batch_tally, label_vector. intros Hv.
  destruct (AdversarialTrainingClassifier.forward self (fst batch)) as [output|e];
    simpl; [|discriminate].
  destruct (torch_max_dim1 output) as [predicted|e]; simpl; [|discriminate].
  destruct (count_equal predicted (snd batch)) as [c'|e] eqn:Ec; simpl;
    [|discriminate].
  unfold size_at. rewrite Hv. simpl. intros [= <- <-].
  now apply count_equal_bound in Ec.
Qed.

Lemma tallies_bound (self : Ensemble) (todo : list (Tensor * Tensor)) :
  forall tallies,
    (forall batch, In batch todo -> label_vector (snd batch)) ->
    mapM (batch_tally self) todo = Ok tallies ->
    (list_sum (map fst tallies) <= list_sum (map snd tallies))%nat.
Proof.
  induction todo as [|batch rest IH]; intros tallies Hv H; simpl in H.
  - injection H as <-. simpl. lia.
  - destruct (batch_tally self batch) as [[c n]|e] eqn:Eb; simpl in H;
      [|discriminate H].
    destruct (mapM (batch_tally self) rest) as [ts|e]; simpl in H; [|discriminate H].
    injection H as <-. simpl.
    apply batch_tally_bound in Eb; [|apply Hv; now left].
    specialize (IH ts (fun b Hb => Hv b (or_intror Hb)) eq_refl). lia.
Qed.

Lemma accuracy_range (correct total : nat) (acc : Q) :
  (correct <= total)%nat ->
  AdversarialTrainingClassifier.accuracy correct total = Ok acc ->
  0 <= acc <= 100 /\ (0 < total)%nat.
Proof.
  unfold AdversarialTrainingClassifier.accuracy. intros Hle.
  destruct (Nat.eqb total 0) eqn:E; [discriminate|].
  apply Nat.eqb_neq in E. intros H.
  assert (Hacc : acc = inject_Z (100 * Z.of_nat correct) / inject_Z (Z.of_nat total))
    by congruence.
  clear H. subst acc.
  assert (Ht : 0 < inject_Z (Z.of_nat total)).
  { change 0 with (inject_Z 0). rewrite <- Zlt_Qlt. lia. }
  split; [|lia]. split.
  - apply Qle_shift_div_l; [exact Ht|]. rewrite Qmult_0_l.
    change 0 with (inject_Z 0). rewrite <- Zle_Qle. lia.
  - apply Qle_shift_div_r; [exact Ht|].
    change 100 with (inject_Z 100). rewrite <- inject_Z_mult, <- Zle_Qle. lia.
Qed.

End Predict.

(** X17: when the target of every batch of the loader is a vector with one
    label for each sample of the batch, an accuracy that the classifier's
    predict returns lies between 0 and 100, and predict returns none for a
    loader without batches (there it raises, dividing by a total of
    zero). *)
Theorem classifier_predict_accuracy_range {B : Backend} (self : Ensemble)
  (test_loader : DataLoader) (acc : Q) :
  (forall batch, In batch (batches test_loader) -> labelled_samples batch) ->
  AdversarialTrainingClassifier.predict self test_loader = Ok acc ->
  0 <= acc <= 100 /\ batches test_loader <> [].
Proof.
  intros Hv. unfold AdversarialTrainingClassifier.predict.
  rewrite classifier_predict_loop_tallies.
  destruct (mapM (batch_tally self) (batches test_loader)) as [tallies|e] eqn:Em;
    simpl; [|discriminate].
  intros Hacc.
  pose proof (tallies_bound self _ tallies (fun b Hb => proj1 (Hv b Hb)) Em) as Hle.
  destruct (accuracy_range _ _ acc Hle Hacc) as [Hrange Hpos].
  split; [exact Hrange|]. intro E. rewrite E in Em. simpl in Em.
  injection Em as <-. simpl in Hpos. lia.
Qed.

Lemma classifier_predict_accuracy_range_witness :
  0 <= 400 # 5 <= 100 /\ batches Scenario.eval_loader <> [].
Proof.
  apply (classifier_predict_accuracy_range (B := Scenario.toy)
           Scenario.committed_pair Scenario.eval_loader (400 # 5)).
  - intros batch [<-|[<-|[]]]; split; reflexivity.
  - reflexivity.
Defined.

(** X18: the accuracy that the classifier's predict returns does not depend
    on the order of the batches: if predict returns an accuracy for a loader,
    it returns the same accuracy for every loader that yields the same
    batches in another order. *)
Theorem classifier_predict_ignores_batch_order {B : Backend} (self : Ensemble)
  (loader1 loader2 : DataLoader) (acc : Q) :
  Permutation (batches loader1) (batches loader2) ->
  AdversarialTrainingClassifier.predict self loader1 = Ok acc ->
  AdversarialTrainingClassifier.predict self loader2 = Ok acc.
Proof.
  intros Hperm. unfold AdversarialTrainingClassifier.predict.
  rewrite !classifier_predict_loop_tallies.
  destruct (mapM (batch_tally self) (batches loader1)) as [tallies|e] eqn:Em;
    simpl; [|discriminate].
  destruct (mapM_permutation _ _ _ Hperm tallies Em) as (tallies' & -> & Hp).
  simpl.
  rewrite (list_sum_permutation _ _ (Permutation_map fst Hp)).
  rewrite (list_sum_permutation _ _ (Permutation_map snd Hp)).
  trivial.
Qed.

Lemma classifier_predict_ignores_batch_order_witness :
  AdversarialTrainingClassifier.predict (B := Scenario.toy) Scenario.committed_pair
    Scenario.eval_loader_swapped = Ok (400 # 5).
Proof.
  apply (classifier_predict_ignores_batch_order (B := Scenario.toy)
           Scenario.committed_pair Scenario.eval_loader Scenario.eval_loader_swapped
           (400 # 5)).
  - apply perm_swap.
  - reflexivity.
Defined.

(** ** Evaluation before training *)

(** X21: predict needs a fitted ensemble and a loader with batches.  On an
    ensemble whose [n_outputs] was never set, both predict methods raise
    AttributeError at the first batch (IndexError if its data has no
    dimension), and on a loader without batches both raise
    ZeroDivisionError; neither returns a metric. *)
Theorem predict_before_fit_raises {B : Backend} (self : Ensemble)
  (test_loader : DataLoader) :
  n_outputs self = None ->
  exists e,
    AdversarialTrainingClassifier.predict self test_loader = Raise e
    /\ AdversarialTrainingRegressor.predict self test_loader = Raise e
    /\ e = match batches test_loader with
           | [] => ZeroDivisionError
           | (data, _) :: _ =>
               match size data with
               | [] => IndexError
               | _ :: _ => AttributeError
               end
           end.
Proof.
  intros Hout.
  unfold AdversarialTrainingClassifier.predict, AdversarialTrainingRegressor.predict.
  destruct (batches test_loader) as [|[data target] rest]; simpl.
  - exists ZeroDivisionError. repeat split.
  - unfold AdversarialTrainingClassifier.forward, AdversarialTrainingRegressor.forward,
      AdversarialTrainingClassifier._forward, AdversarialTrainingRegressor._forward,
      size_at.
    destruct (size data) as [|d ds]; simpl.
    + exists IndexError. repeat split.
    + rewrite Hout. simpl. exists AttributeError. repeat split.
Qed.

Lemma predict_before_fit_raises_witness :
  exists e,
    AdversarialTrainingClassifier.predict (B := Scenario.toy) (Scenario.fresh 2)
      Scenario.eval_loader = Raise e
    /\ AdversarialTrainingRegressor.predict (B := Scenario.toy) (Scenario.fresh 2)
         Scenario.eval_loader = Raise e
    /\ e = AttributeError.
Proof.
  apply (predict_before_fit_raises (B := Scenario.toy) (Scenario.fresh 2)
           Scenario.eval_loader).
  reflexivity.
Defined.

(** ** Training data from which the number of outputs cannot be read *)

(** X22: with valid hyperparameters, fit on a training loader that yields no
    batch and whose dataset has no [classes] attribute raises RuntimeError,
    for the classifier and for the regressor alike: the base estimators have
    been constructed, no optimizer is, and the ensemble is left as it
    was. *)
Theorem fit_raises_on_empty_unlabelled_loader {B : Backend} (a : FitArgs)
  (self : Ensemble) :
  valid_hyperparameters (lr a) (weight_decay a) (epochs a) (epsilon a)
    (log_interval a) ->
  batches (train_loader a) = [] ->
  dataset_classes (train_loader a) = None ->
  AdversarialTrainingClassifier.fit a self
  = (self, map EvMakeEstimator (seq 0 (n_estimators self)), Raise RuntimeError)
  /\ AdversarialTrainingRegressor.fit a self
     = (self, map EvMakeEstimator (seq 0 (n_estimators self)), Raise RuntimeError).
Proof.
  intros Hv Hb Hc. apply validate_parameters_ok_iff in Hv.
  destruct (validate_run a self) as [[_ Ev]|(msg & Hmsg & _)]; [|congruence].
  assert (En : lift (_decide_n_outputs (train_loader a) true) self
               = (self, [], Raise RuntimeError)).
  { unfold lift, _decide_n_outputs. rewrite Hc, Hb. reflexivity. }
  split.
  - unfold AdversarialTrainingClassifier.fit.
    rewrite (mbind_ok _ _ self self [] self eq_refl).
    rewrite (mbind_ok _ _ _ _ _ _ (make_estimators_run _ self)).
    rewrite (mbind_ok _ _ _ _ _ _ Ev).
    rewrite (mbind_raise _ _ _ _ _ _ En). simpl. now rewrite !app_nil_r.
  - unfold AdversarialTrainingRegressor.fit.
    rewrite (mbind_ok _ _ self self [] self eq_refl).
    rewrite (mbind_ok _ _ _ _ _ _ (make_estimators_run _ self)).
    rewrite (mbind_ok _ _ _ _ _ _ Ev).
    rewrite (mbind_raise _ _ _ _ _ _ En). simpl. now rewrite !app_nil_r.
Qed.

Lemma fit_raises_on_empty_unlabelled_loader_witness :
  AdversarialTrainingClassifier.fit (B := Scenario.toy) Scenario.empty_args
    (Scenario.fresh 2)
  = (Scenario.fresh 2, [EvMakeEstimator 0; EvMakeEstimator 1], Raise RuntimeError)
  /\ AdversarialTrainingRegressor.fit (B := Scenario.toy) Scenario.empty_args
       (Scenario.fresh 2)
     = (Scenario.fresh 2, [EvMakeEstimator 0; EvMakeEstimator 1], Raise RuntimeError).
Proof.
  apply (fit_raises_on_empty_unlabelled_loader (B := Scenario.toy) Scenario.empty_args
           (Scenario.fresh 2)).
  - unfold valid_hyperparameters. simpl. repeat split; try lia; try lra; discriminate.
  - reflexivity.
  - reflexivity.
Defined.

(** ** The number of outputs read from the labels *)

Lemma distinct_incl (xs : list Q) (x : Q) : In x (distinct xs) -> In x xs.
Proof.
  revert x. induction xs as [|y xs IH]; intros x Hx; simpl in *; [exact Hx|].
  destruct Hx as [Hx|Hx]; [now left|].
  apply filter_In in Hx. right. now apply IH.
Qed.

Lemma distinct_covers (xs : list Q) (x : Q) :
  In x xs -> exists y, In y (distinct xs) /\ y == x.
Proof.
  induction xs as [|z xs IH]; intros Hx; simpl in *; [contradiction|].
  destruct Hx as [->|Hx].
  - exists x. split; [now left|reflexivity].
  - destruct (IH Hx) as (y & Hy & Hyx).
    destruct (Qeq_bool z y) eqn:E.
    + exists z. split; [now left|].
      apply Qeq_bool_iff in E. now rewrite E.
    + exists y. split; [|exact Hyx]. right. apply filter_In.
      split; [exact Hy|]. now rewrite E.
Qed.

Lemma pairwise_filter (f : Q -> bool) (xs : list Q) :
  ForallOrdPairs (fun x y => ~ x == y) xs ->
  ForallOrdPairs (fun x y => ~ x == y) (filter f xs).
Proof.
  induction 1 as [|x xs Hx Hxs IH]; simpl; [constructor|].
  destruct (f x); [|exact IH]. constructor; [|exact IH].
  apply Forall_forall. intros y Hy. apply filter_In in Hy.
  rewrite Forall_forall in Hx. apply Hx. tauto.
Qed.

Lemma distinct_pairwise (xs : list Q) :
  ForallOrdPairs (fun x y => ~ x == y) (distinct xs).
Proof.
  induction xs as [|x xs IH]; simpl; constructor.
  - apply Forall_forall. intros y Hy. apply filter_In in Hy. destruct Hy as [_ Hy].
    apply negb_true_iff in Hy. intro E. apply Qeq_bool_iff in E. congruence.
  - now apply pairwise_filter.
Qed.

Lemma torch_cat_elems (ts : list Tensor) (t : Tensor) :
  torch_cat ts = Ok t -> elems t = concat (map elems ts).
Proof.
  unfold torch_cat. destruct ts as [|t0 rest]; [discriminate|].
  destruct (size t0) as [|d tl]; [discriminate|].
  destruct (forallb _ rest); [|discriminate].
  intros [= <-]. reflexivity.
Qed.

(** X23: when the dataset of the training loader has no [classes] attribute,
    the number of outputs that [_decide_n_outputs] returns for a
    classification is the number of distinct label values in the targets of
    all batches: it is the length of a list of pairwise different values,
    each of them a label of some batch, that holds every label of every
    batch. *)
Theorem decide_n_outputs_counts_distinct_labels (train_loader : DataLoader) (n : nat) :
  dataset_classes train_loader = None ->
  _decide_n_outputs train_loader true = Ok n ->
  exists labels,
    length labels = n
    /\ ForallOrdPairs (fun x y => ~ x == y) labels
    /\ (forall x, In x labels ->
          exists batch, In batch (batches train_loader) /\ In x (elems (snd batch)))
    /\ (forall batch x,
          In batch (batches train_loader) -> In x (elems (snd batch)) ->
          exists y, In y labels /\ y == x).
Proof.
  intros Hc. unfold _decide_n_outputs. rewrite Hc.
  destruct (torch_cat (map snd (batches train_loader))) as [t|e] eqn:Et;
    simpl; [|discriminate].
  unfold size_at, torch_unique. simpl. intros [= <-].
  apply torch_cat_elems in Et. rewrite map_map in Et.
  exists (distinct (elems t)). split; [reflexivity|].
  split; [apply distinct_pairwise|]. split.
  - intros x Hx. apply distinct_incl in Hx. rewrite Et in Hx.
    apply in_concat in Hx. destruct Hx as (es & Hes & Hx).
    apply in_map_iff in Hes. destruct Hes as (batch & <- & Hb).
    exists batch. split; assumption.
  - intros batch x Hb Hx. apply distinct_covers. rewrite Et.
    apply in_concat. exists (elems (snd batch)). split; [|exact Hx].
    apply in_map_iff. exists batch. split; [reflexivity|exact Hb].
Qed.

Lemma decide_n_outputs_counts_distinct_labels_witness :
  exists labels,
    length labels = 2%nat
    /\ ForallOrdPairs (fun x y => ~ x == y) labels
    /\ (forall x, In x labels ->
          exists batch, In batch (batches Scenario.bad_train)
                        /\ In x (elems (snd batch)))
    /\ (forall batch x,
          In batch (batches Scenario.bad_train) -> In x (elems (snd batch)) ->
          exists y, In y labels /\ y == x).
Proof.
  apply (decide_n_outputs_counts_distinct_labels Scenario.bad_train 2).
  - reflexivity.
  - reflexivity.
Defined.

(** ** Evaluation after training *)

Section PredictAfterFit.
Context {B : Backend}.

Lemma classifier_forward_settings (s1 s2 : Ensemble) (estimators : list Estimator)
  (data : Tensor) :
  n_estimators s1 = n_estimators s2 -> n_outputs s1 = n_outputs s2 ->
  AdversarialTrainingClassifier._forward s1 estimators data
  = AdversarialTrainingClassifier._forward s2 estimators data.
Proof.
  intros H1 H2. unfold AdversarialTrainingClassifier._forward. now rewrite H1, H2.
Qed.

Lemma count_correct_settings (s1 s2 : Ensemble) (estimators : list Estimator)
  (todo : list (Tensor * Tensor)) :
  n_estimators s1 = n_estimators s2 -> n_outputs s1 = n_outputs s2 ->
  forall correct total,
    AdversarialTrainingClassifier.count_correct s1 estimators todo correct total
    = AdversarialTrainingClassifier.count_correct s2 estimators todo correct total.
Proof.
  intros H1 H2. induction todo as [|[data target] rest IH]; intros correct total;
    simpl; [reflexivity|].
  rewrite (classifier_forward_settings s1 s2 estimators data H1 H2).
  destruct (AdversarialTrainingClassifier._forward s2 estimators data); simpl;
    [|reflexivity].
  destruct (torch_max_dim1 _); simpl; [|reflexivity].
  destruct (count_equal _ _); simpl; [|reflexivity].
  destruct (size_at target 0); simpl; [|reflexivity].
  apply IH.
Qed.

Lemma classifier_predict_loop_counts (self : Ensemble) (todo : list (Tensor * Tensor)) :
  forall correct total,
    AdversarialTrainingClassifier.predict_loop self todo correct total
    = AdversarialTrainingClassifier.count_correct self (estimators_ self) todo
        correct total.
Proof.
  induction todo as [|[data target] rest IH]; intros correct total; simpl;
    [reflexivity|].
  unfold AdversarialTrainingClassifier.forward.
  destruct (AdversarialTrainingClassifier._forward self (estimators_ self) data);
    simpl; [|reflexivity].
  destruct (torch_max_dim1 _); simpl; [|reflexivity].
  destruct (count_equal _ _); simpl; [|reflexivity].
  destruct (size_at target 0); simpl; [|reflexivity].
  apply IH.
Qed.

(** A validation block that returns has computed and logged one accuracy,
    and has left [n_estimators] and [n_outputs] as they were. *)
Lemma classifier_validation_last (a : FitArgs) (epoch : nat)
  (estimators : list Estimator) (best_acc best' : Q) (self s : Ensemble)
  (t : list Event) :
  AdversarialTrainingClassifier.validation a epoch estimators best_acc self
  = (s, t, Ok best') ->
  n_estimators s = n_estimators self
  /\ n_outputs s = n_outputs self
  /\ exists counts acc,
       AdversarialTrainingClassifier.count_correct self estimators
         (loader_batches (test_loader a)) 0 0 = Ok counts
       /\ AdversarialTrainingClassifier.accuracy (fst counts) (snd counts) = Ok acc
       /\ acc_history t = [acc].
Proof.
  unfold AdversarialTrainingClassifier.validation, mbind, get_self, lift, emit, ret,
    set_estimators_, io_save.
  destruct (AdversarialTrainingClassifier.count_correct _ _ _ _ _) as [counts|e];
    simpl; [|discriminate].
  destruct (AdversarialTrainingClassifier.accuracy _ _) as [acc|e] eqn:Ea;
    simpl; [|discriminate].
  destruct (Qltb best_acc acc); [destruct (save_model a)|]; simpl;
    intros H; injection H as <- <- _;
    (split; [reflexivity|]); (split; [reflexivity|]);
    exists counts, acc; repeat split; assumption.
Qed.

(** A loop over at least one epoch that returns, with a validation loader,
    has logged last the accuracy of the estimators it returns. *)
Lemma classifier_loop_last_accuracy (a : FitArgs) (todo : list nat) :
  truthy (test_loader a) = true ->
  todo <> [] ->
  forall estimators rets best_acc self s t r,
    AdversarialTrainingClassifier.training_loop a todo estimators rets best_acc self
    = (s, t, Ok (Some r)) ->
    n_estimators s = n_estimators self
    /\ n_outputs s = n_outputs self
    /\ exists counts acc accs,
         AdversarialTrainingClassifier.count_correct self r
           (loader_batches (test_loader a)) 0 0 = Ok counts
         /\ AdversarialTrainingClassifier.accuracy (fst counts) (snd counts) = Ok acc
         /\ acc_history t = accs ++ [acc].
Proof.
  intros Htruthy. induction todo as [|epoch rest IH]; intros Hne; [congruence|].
  intros estimators rets best_acc self s t r H. simpl in H.
  rewrite Htruthy in H.
  unfold mbind at 1 in H. unfold worker in H.
  pose proof (dispatch_events a CrossEntropyLoss true epoch estimators) as Hw.
  destruct (worker_events_unlogged _ Hw) as (Hwa & _).
  destruct (dispatch a CrossEntropyLoss true epoch estimators) as [evs [rets'|e]];
    simpl in *; [|discriminate H].
  destruct (mbind _ _ self) as [[s2 t2] r2] eqn:E.
  injection H as H1 H2 H3. subst s2 t r2.
  unfold mbind in E.
  destruct (AdversarialTrainingClassifier.validation a epoch rets' best_acc self)
    as [[s1 t1] [best'|e]] eqn:Ev; [|discriminate E].
  destruct (classifier_validation_last _ _ _ _ _ _ _ _ Ev)
    as (Hn1 & Ho1 & counts & acc & Hc & Ha & Hh).
  destruct (AdversarialTrainingClassifier.training_loop a rest rets' (Some rets')
              best' s1) as [[s3 t3] r3] eqn:El.
  injection E as E1 E2 E3. subst s3 t2 r3.
  destruct rest as [|epoch2 rest2].
  - simpl in El. unfold ret in El. injection El as <- <- <-.
    split; [exact Hn1|]. split; [exact Ho1|].
    exists counts, acc, []. split; [exact Hc|]. split; [exact Ha|].
    rewrite !acc_history_app, Hwa, Hh. reflexivity.
  - destruct (IH ltac:(discriminate) _ _ _ _ _ _ _ El)
      as (Hn & Ho & counts' & acc' & accs & Hc' & Ha' & Hh').
    split; [congruence|]. split; [congruence|].
    exists counts', acc', (acc :: accs).
    split; [now rewrite <- (count_correct_settings s1 self r _ Hn1 Ho1)|].
    split; [exact Ha'|].
    rewrite !acc_history_app, Hwa, Hh, Hh'. reflexivity.
Qed.

End PredictAfterFit.

(** X24: for estimators whose output is a function of the estimator and the
    input, evaluation after training reports the last epoch: when fit
    returns after validating on a loader with batches, predict on that
    loader returns the accuracy that the last epoch logged, whether or not
    that was the best one. *)
Theorem classifier_predict_after_fit_is_last_epoch {B : Backend} (a : FitArgs)
  (self : Ensemble) (loader : DataLoader) :
  test_loader a = Some loader ->
  batches loader <> [] ->
  result_of (AdversarialTrainingClassifier.fit a self) = Ok tt ->
  exists accs acc,
    acc_history (trace_of (AdversarialTrainingClassifier.fit a self)) = accs ++ [acc]
    /\ AdversarialTrainingClassifier.predict
         (state_of (AdversarialTrainingClassifier.fit a self)) loader = Ok acc.
Proof.
  intros Hl Hb Hfit.
  assert (Htruthy : truthy (test_loader a) = true).
  { rewrite Hl. simpl. destruct (batches loader); [congruence|reflexivity]. }
  destruct (classifier_fit_returns a self Hfit)
    as (n & s & t & rets & Hv & _ & Hloop & Htrace & Hstate).
  assert (Hepochs : seq 0 (Z.to_nat (epochs a)) <> []).
  { destruct Hv as (_ & _ & He & _).
    destruct (Z.to_nat (epochs a)) eqn:E; [lia|discriminate]. }
  destruct (classifier_loop_last_accuracy a _ Htruthy Hepochs _ _ _ _ _ _ _ Hloop)
    as (Hn & Ho & counts & acc & accs & Hc & Ha & Hh).
  exists accs, acc. split.
  - rewrite Htrace, Htruthy, andb_false_r, app_nil_r, acc_history_app, Hh.
    destruct (setup_events_unlogged _ (made_events_setup (seq 0 (n_estimators self))))
      as (_ & _ & Hs & _).
    now rewrite Hs.
  - rewrite Hstate. unfold AdversarialTrainingClassifier.predict.
    rewrite classifier_predict_loop_counts. simpl estimators_.
    rewrite Hl in Hc. simpl in Hc.
    rewrite (count_correct_settings _
               (mkEnsemble (n_estimators self) (Some n) (estimators_ self)) rets
               (batches loader)) by (simpl in *; assumption).
    rewrite Hc. simpl. exact Ha.
Qed.

Lemma classifier_predict_after_fit_is_last_epoch_witness :
  exists accs acc,
    acc_history
      (trace_of (AdversarialTrainingClassifier.fit (B := Scenario.toy)
                   (Scenario.args 2 (1 # 1000) (Some Scenario.validation_set))
                   (Scenario.fresh 2))) = accs ++ [acc]
    /\ AdversarialTrainingClassifier.predict (B := Scenario.toy)
         (state_of (AdversarialTrainingClassifier.fit (B := Scenario.toy)
                      (Scenario.args 2 (1 # 1000) (Some Scenario.validation_set))
                      (Scenario.fresh 2)))
         Scenario.validation_set = Ok acc.
Proof.
  apply (classifier_predict_after_fit_is_last_epoch (B := Scenario.toy)
           (Scenario.args 2 (1 # 1000) (Some Scenario.validation_set))
           (Scenario.fresh 2) Scenario.validation_set).
  - reflexivity.
  - discriminate.
  - vm_compute. reflexivity.
Defined.

Section RegressorPredictAfterFit.
Context {B : Backend}.

Lemma sum_mse_settings (s1 s2 : Ensemble) (estimators : list Estimator)
  (todo : list (Tensor * Tensor)) :
  n_estimators s1 = n_estimators s2 -> n_outputs s1 = n_outputs s2 ->
  forall mse,
    AdversarialTrainingRegressor.sum_mse s1 estimators todo mse
    = AdversarialTrainingRegressor.sum_mse s2 estimators todo mse.
Proof.
  intros H1 H2. induction todo as [|[data target] rest IH]; intros mse; simpl;
    [reflexivity|].
  unfold AdversarialTrainingRegressor._forward. rewrite H1, H2.
  destruct (size_at data 0); simpl; [|reflexivity].
  destruct (n_outputs s2); [|reflexivity].
  destruct (AdversarialTrainingRegressor.accumulate _ _ _ _); simpl; [|reflexivity].
  apply IH.
Qed.

Lemma regressor_predict_loop_sum (self : Ensemble) (todo : list (Tensor * Tensor)) :
  forall mse,
    AdversarialTrainingRegressor.predict_loop self todo mse
    = AdversarialTrainingRegressor.sum_mse self (estimators_ self) todo mse.
Proof.
  induction todo as [|[data target] rest IH]; intros mse; simpl; [reflexivity|].
  unfold AdversarialTrainingRegressor.forward.
  destruct (AdversarialTrainingRegressor._forward self (estimators_ self) data);
    simpl; [|reflexivity].
  apply IH.
Qed.

Lemma regressor_validation_last (a : FitArgs) (epoch : nat)
  (estimators : list Estimator) (best_mse best' : ExtQ) (self s : Ensemble)
  (t : list Event) :
  AdversarialTrainingRegressor.validation a epoch estimators best_mse self
  = (s, t, Ok best') ->
  n_estimators s = n_estimators self
  /\ n_outputs s = n_outputs self
  /\ exists total,
       AdversarialTrainingRegressor.sum_mse self estimators
         (loader_batches (test_loader a)) 0 = Ok total
       /\ mse_history t
          = [total / inject_Z (Z.of_nat (length (loader_batches (test_loader a))))].
Proof.
  unfold AdversarialTrainingRegressor.validation, mbind, get_self, lift, emit, ret,
    set_estimators_, io_save.
  destruct (AdversarialTrainingRegressor.sum_mse _ _ _ _) as [total|e];
    simpl; [|discriminate].
  destruct (ext_ltb _ best_mse); [destruct (save_model a)|]; simpl;
    intros H; injection H as <- <- _;
    (split; [reflexivity|]); (split; [reflexivity|]);
    exists total; split; reflexivity.
Qed.

Lemma regressor_loop_last_mse (a : FitArgs) (todo : list nat) :
  truthy (test_loader a) = true ->
  todo <> [] ->
  forall estimators rets best_mse self s t r,
    AdversarialTrainingRegressor.training_loop a todo estimators rets best_mse self
    = (s, t, Ok (Some r)) ->
    n_estimators s = n_estimators self
    /\ n_outputs s = n_outputs self
    /\ exists total mses,
         AdversarialTrainingRegressor.sum_mse self r
           (loader_batches (test_loader a)) 0 = Ok total
         /\ mse_history t
            = mses ++ [total / inject_Z (Z.of_nat (length (loader_batches
                                                               (test_loader a))))].
Proof.
  intros Htruthy. induction todo as [|epoch rest IH]; intros Hne; [congruence|].
  intros estimators rets best_mse self s t r H. simpl in H.
  rewrite Htruthy in H.
  unfold mbind at 1 in H. unfold worker in H.
  pose proof (dispatch_events a MSELoss false epoch estimators) as Hw.
  pose proof (worker_events_no_mse _ Hw) as Hwa.
  destruct (dispatch a MSELoss false epoch estimators) as [evs [rets'|e]];
    simpl in *; [|discriminate H].
  destruct (mbind _ _ self) as [[s2 t2] r2] eqn:E.
  injection H as H1 H2 H3. subst s2 t r2.
  unfold mbind in E.
  destruct (AdversarialTrainingRegressor.validation a epoch rets' best_mse self)
    as [[s1 t1] [best'|e]] eqn:Ev; [|discriminate E].
  destruct (regressor_validation_last _ _ _ _ _ _ _ _ Ev)
    as (Hn1 & Ho1 & total & Hc & Hh).
  destruct (AdversarialTrainingRegressor.training_loop a rest rets' (Some rets')
              best' s1) as [[s3 t3] r3] eqn:El.
  injection E as E1 E2 E3. subst s3 t2 r3.
  destruct rest as [|epoch2 rest2].
  - simpl in El. unfold ret in El. injection El as <- <- <-.
    split; [exact Hn1|]. split; [exact Ho1|].
    exists total, []. split; [exact Hc|].
    rewrite !mse_history_app, Hwa, Hh. reflexivity.
  - destruct (IH ltac:(discriminate) _ _ _ _ _ _ _ El)
      as (Hn & Ho & total' & mses & Hc' & Hh').
    split; [congruence|]. split; [congruence|].
    exists total', (total / inject_Z (Z.of_nat (length (loader_batches
                                                            (test_loader a)))) :: mses).
    split; [now rewrite <- (sum_mse_settings s1 self r _ Hn1 Ho1)|].
    rewrite !mse_history_app, Hwa, Hh, Hh'. reflexivity.
Qed.

End RegressorPredictAfterFit.

(** X25: the regressor's evaluation after training reports the last epoch as
    well: when its fit returns after validating on a loader with batches,
    predict on that loader returns the loss that the last epoch logged. *)
Theorem regressor_predict_after_fit_is_last_epoch {B : Backend} (a : FitArgs)
  (self : Ensemble) (loader : DataLoader) :
  test_loader a = Some loader ->
  batches loader <> [] ->
  result_of (AdversarialTrainingRegressor.fit a self) = Ok tt ->
  exists mses mse,
    mse_history (trace_of (AdversarialTrainingRegressor.fit a self)) = mses ++ [mse]
    /\ AdversarialTrainingRegressor.predict
         (state_of (AdversarialTrainingRegressor.fit a self)) loader = Ok mse.
Proof.
  intros Hl Hb Hfit.
  assert (Hlen : Nat.eqb (length (batches loader)) 0 = false).
  { destruct (batches loader); [congruence|reflexivity]. }
  assert (Htruthy : truthy (test_loader a) = true).
  { rewrite Hl. simpl. now rewrite Hlen. }
  destruct (regressor_fit_returns a self Hfit)
    as (n & s & t & rets & Hv & _ & Hloop & Htrace & Hstate).
  assert (Hepochs : seq 0 (Z.to_nat (epochs a)) <> []).
  { destruct Hv as (_ & _ & He & _).
    destruct (Z.to_nat (epochs a)) eqn:E; [lia|discriminate]. }
  destruct (regressor_loop_last_mse a _ Htruthy Hepochs _ _ _ _ _ _ _ Hloop)
    as (Hn & Ho & total & mses & Hc & Hh).
  rewrite Hl in Hc, Hh. simpl in Hc, Hh.
  exists mses, (total / inject_Z (Z.of_nat (length (batches loader)))). split.
  - rewrite Htrace, Htruthy, andb_false_r, app_nil_r, mse_history_app, Hh.
    now rewrite (setup_events_no_mse _ (made_events_setup (seq 0 (n_estimators self)))).
  - rewrite Hstate. unfold AdversarialTrainingRegressor.predict.
    rewrite regressor_predict_loop_sum. simpl estimators_.
    rewrite (sum_mse_settings _
               (mkEnsemble (n_estimators self) (Some n) (estimators_ self)) rets
               (batches loader)) by (simpl in *; assumption).
    rewrite Hc. simpl. now rewrite Hlen.
Qed.

Lemma regressor_predict_after_fit_is_last_epoch_witness :
  exists mses mse,
    mse_history
      (trace_of (AdversarialTrainingRegressor.fit (B := Scenario.toy)
                   (Scenario.args 2 (1 # 1000) (Some Scenario.validation_set))
                   (Scenario.fresh 2))) = mses ++ [mse]
    /\ AdversarialTrainingRegressor.predict (B := Scenario.toy)
         (state_of (AdversarialTrainingRegressor.fit (B := Scenario.toy)
                      (Scenario.args 2 (1 # 1000) (Some Scenario.validation_set))
                      (Scenario.fresh 2)))
         Scenario.validation_set = Ok mse.
Proof.
  apply (regressor_predict_after_fit_is_last_epoch (B := Scenario.toy)
           (Scenario.args 2 (1 # 1000) (Some Scenario.validation_set))
           (Scenario.fresh 2) Scenario.validation_set).
  - reflexivity.
  - discriminate.
  - vm_compute. reflexivity.
Defined.

(** ** Training again *)

Section Refit.
Context {B : Backend}.

Lemma agree_mbind {A C : Type} (m : M A) (k : A -> M C) :
  (forall s1 s2, same_settings s1 s2 -> agree (m s1) (m s2)) ->
  (forall x s1 s2, same_settings s1 s2 -> agree (k x s1) (k x s2)) ->
  forall s1 s2, same_settings s1 s2 -> agree (mbind m k s1) (mbind m k s2).
Proof.
  intros Hm Hk s1 s2 Hs. specialize (Hm s1 s2 Hs). unfold mbind.
  destruct (m s1) as [[s1' t1] r1], (m s2) as [[s2' t2] r2].
  destruct Hm as (Ht & Hr & Hs'). unfold trace_of, result_of, state_of in *.
  simpl in *. subst t2 r2.
  destruct r1 as [x|e].
  - specialize (Hk x s1' s2' Hs').
    destruct (k x s1') as [[s1'' t1'] r1'], (k x s2') as [[s2'' t2'] r2'].
    destruct Hk as (Ht' & Hr' & Hs''). unfold trace_of, result_of, state_of in *.
    simpl in *. subst t2' r2'.
    repeat split; apply Hs''.
  - repeat split; apply Hs'.
Qed.

Lemma agree_stateless {A : Type} (w : list Event) (r : Result A) :
  forall s1 s2, same_settings s1 s2 ->
    agree ((fun self => (self, w, r)) s1) ((fun self => (self, w, r)) s2).
Proof. intros s1 s2 Hs. repeat split; apply Hs. Qed.

Lemma classifier_validation_agrees (a : FitArgs) (epoch : nat)
  (estimators : list Estimator) (best_acc : Q) :
  forall s1 s2, same_settings s1 s2 ->
    agree (AdversarialTrainingClassifier.validation a epoch estimators best_acc s1)
          (AdversarialTrainingClassifier.validation a epoch estimators best_acc s2).
Proof.
  intros s1 s2 [Hn Ho].
  unfold AdversarialTrainingClassifier.validation, mbind, get_self, lift, emit, ret,
    set_estimators_, io_save.
  rewrite (count_correct_settings s1 s2 estimators _ Hn Ho).
  destruct (AdversarialTrainingClassifier.count_correct s2 _ _ _ _) as [counts|e];
    simpl; [|repeat split; assumption].
  destruct (AdversarialTrainingClassifier.accuracy _ _) as [acc|e];
    simpl; [|repeat split; assumption].
  destruct (Qltb best_acc acc); [destruct (save_model a)|]; simpl;
    repeat split; assumption.
Qed.

Lemma regressor_validation_agrees (a : FitArgs) (epoch : nat)
  (estimators : list Estimator) (best_mse : ExtQ) :
  forall s1 s2, same_settings s1 s2 ->
    agree (AdversarialTrainingRegressor.validation a epoch estimators best_mse s1)
          (AdversarialTrainingRegressor.validation a epoch estimators best_mse s2).
Proof.
  intros s1 s2 [Hn Ho].
  unfold AdversarialTrainingRegressor.validation, mbind, get_self, lift, emit, ret,
    set_estimators_, io_save.
  rewrite (sum_mse_settings s1 s2 estimators _ Hn Ho).
  destruct (AdversarialTrainingRegressor.sum_mse s2 _ _ _) as [total|e];
    simpl; [|repeat split; assumption].
  destruct (ext_ltb _ best_mse); [destruct (save_model a)|]; simpl;
    repeat split; assumption.
Qed.

Lemma classifier_loop_agrees (a : FitArgs) (todo : list nat) :
  forall estimators rets best_acc s1 s2, same_settings s1 s2 ->
    agree (AdversarialTrainingClassifier.training_loop a todo estimators rets
             best_acc s1)
          (AdversarialTrainingClassifier.training_loop a todo estimators rets
             best_acc s2).
Proof.
  induction todo as [|epoch rest IH]; intros estimators rets best_acc s1 s2 Hs; simpl.
  - now apply agree_stateless.
  - apply agree_mbind; [apply agree_stateless| |exact Hs].
    intros rets' s1' s2' Hs'. apply agree_mbind; [| |exact Hs'].
    + destruct (truthy (test_loader a));
        [apply classifier_validation_agrees|apply agree_stateless].
    + intros best'. apply IH.
Qed.

Lemma regressor_loop_agrees (a : FitArgs) (todo : list nat) :
  forall estimators rets best_mse s1 s2, same_settings s1 s2 ->
    agree (AdversarialTrainingRegressor.training_loop a todo estimators rets
             best_mse s1)
          (AdversarialTrainingRegressor.training_loop a todo estimators rets
             best_mse s2).
Proof.
  induction todo as [|epoch rest IH]; intros estimators rets best_mse s1 s2 Hs; simpl.
  - now apply agree_stateless.
  - apply agree_mbind; [apply agree_stateless| |exact Hs].
    intros rets' s1' s2' Hs'. apply agree_mbind; [| |exact Hs'].
    + destruct (truthy (test_loader a));
        [apply regressor_validation_agrees|apply agree_stateless].
    + intros best'. apply IH.
Qed.

End Refit.

(** X26: fit starts afresh.  Called on an ensemble that an earlier fit has
    left fitted, the classifier's fit emits the same events and ends in the
    same way as on the ensemble before that earlier fit, and when it
    returns it leaves the same ensemble: neither the earlier members nor
    the earlier number of outputs are used. *)
Theorem classifier_fit_discards_earlier_members {B : Backend} (a : FitArgs)
  (self : Ensemble) (earlier_outputs : option nat) (earlier : list Estimator) :
  trace_of (AdversarialTrainingClassifier.fit a
              (fitted_before self earlier_outputs earlier))
  = trace_of (AdversarialTrainingClassifier.fit a self)
  /\ result_of (AdversarialTrainingClassifier.fit a
                  (fitted_before self earlier_outputs earlier))
     = result_of (AdversarialTrainingClassifier.fit a self)
  /\ (result_of (AdversarialTrainingClassifier.fit a self) = Ok tt ->
      state_of (AdversarialTrainingClassifier.fit a
                  (fitted_before self earlier_outputs earlier))
      = state_of (AdversarialTrainingClassifier.fit a self)).
Proof.
  set (self' := fitted_before self earlier_outputs earlier).
  unfold AdversarialTrainingClassifier.fit.
  rewrite (mbind_ok _ _ self self [] self eq_refl).
  rewrite (mbind_ok _ _ self' self' [] self' eq_refl).
  rewrite (mbind_ok _ _ _ _ _ _ (make_estimators_run _ self)).
  rewrite (mbind_ok _ _ _ _ _ _ (make_estimators_run _ self')).
  change (n_estimators self') with (n_estimators self).
  destruct (validate_run a self) as [[Hv Ev]|(msg & Hv & Ev)];
    destruct (validate_run a self') as [[Hv' Ev']|(msg' & Hv' & Ev')];
    try congruence.
  2: { rewrite (mbind_raise _ _ _ _ _ _ Ev), (mbind_raise _ _ _ _ _ _ Ev').
       assert (msg' = msg) by congruence. subst msg'.
       unfold trace_of, result_of, state_of. simpl.
       split; [reflexivity|]. split; [reflexivity|discriminate]. }
  rewrite (mbind_ok _ _ _ _ _ _ Ev), (mbind_ok _ _ _ _ _ _ Ev').
  destruct (_decide_n_outputs (train_loader a) true) as [n|e] eqn:En.
  2: { rewrite (mbind_raise _ _ self self [] e) by reflexivity.
       rewrite (mbind_raise _ _ self' self' [] e) by reflexivity.
       unfold trace_of, result_of, state_of. simpl.
       split; [reflexivity|]. split; [reflexivity|discriminate]. }
  rewrite (mbind_ok _ _ self self [] n) by reflexivity.
  rewrite (mbind_ok _ _ self' self' [] n) by reflexivity.
  rewrite (mbind_ok _ _ self _ [] tt eq_refl).
  rewrite (mbind_ok _ _ self' _ [] tt eq_refl).
  change (n_estimators self') with (n_estimators self).
  change (estimators_ self') with earlier.
  pose proof (classifier_loop_agrees a (seq 0 (Z.to_nat (epochs a)))
                (map base_estimator (seq 0 (n_estimators self))) None 0
                (mkEnsemble (n_estimators self) (Some n) earlier)
                (mkEnsemble (n_estimators self) (Some n) (estimators_ self))
                (conj eq_refl eq_refl)) as Hl.
  destruct (AdversarialTrainingClassifier.training_loop a
              (seq 0 (Z.to_nat (epochs a)))
              (map base_estimator (seq 0 (n_estimators self))) None 0
              (mkEnsemble (n_estimators self) (Some n) earlier))
    as [[s1 t1] r1] eqn:El1.
  destruct (AdversarialTrainingClassifier.training_loop a
              (seq 0 (Z.to_nat (epochs a)))
              (map base_estimator (seq 0 (n_estimators self))) None 0
              (mkEnsemble (n_estimators self) (Some n) (estimators_ self)))
    as [[s2 t2] r2] eqn:El2.
  destruct Hl as (Ht & Hr & Hn & Ho).
  unfold trace_of, result_of, state_of in Ht, Hr, Hn, Ho.
  simpl in Ht, Hr, Hn, Ho. subst t2 r2.
  destruct r1 as [rets|e].
  2: { rewrite (mbind_raise _ _ _ _ _ _ El1), (mbind_raise _ _ _ _ _ _ El2).
       unfold trace_of, result_of, state_of. simpl.
       split; [reflexivity|]. split; [reflexivity|discriminate]. }
  rewrite (mbind_ok _ _ _ _ _ _ El1), (mbind_ok _ _ _ _ _ _ El2).
  destruct rets as [rets|].
  2: { unfold trace_of, result_of, state_of, lift. simpl.
       split; [reflexivity|]. split; [reflexivity|discriminate]. }
  unfold mbind, set_estimators_, io_save, ret, trace_of, result_of, state_of.
  destruct (save_model a && negb (truthy (test_loader a))); simpl;
    rewrite Hn, Ho; repeat split; reflexivity.
Qed.

(** X27: the regressor's fit starts afresh in the same way: on an ensemble
    that an earlier fit has left fitted it emits the same events and ends
    in the same way as on the ensemble before that fit, and when it returns
    it leaves the same ensemble. *)
Theorem regressor_fit_discards_earlier_members {B : Backend} (a : FitArgs)
  (self : Ensemble) (earlier_outputs : option nat) (earlier : list Estimator) :
  trace_of (AdversarialTrainingRegressor.fit a
              (fitted_before self earlier_outputs earlier))
  = trace_of (AdversarialTrainingRegressor.fit a self)
  /\ result_of (AdversarialTrainingRegressor.fit a
                  (fitted_before self earlier_outputs earlier))
     = result_of (AdversarialTrainingRegressor.fit a self)
  /\ (result_of (AdversarialTrainingRegressor.fit a self) = Ok tt ->
      state_of (AdversarialTrainingRegressor.fit a
                  (fitted_before self earlier_outputs earlier))
      = state_of (AdversarialTrainingRegressor.fit a self)).
Proof.
  set (self' := fitted_before self earlier_outputs earlier).
  unfold AdversarialTrainingRegressor.fit.
  rewrite (mbind_ok _ _ self self [] self eq_refl).
  rewrite (mbind_ok _ _ self' self' [] self' eq_refl).
  rewrite (mbind_ok _ _ _ _ _ _ (make_estimators_run _ self)).
  rewrite (mbind_ok _ _ _ _ _ _ (make_estimators_run _ self')).
  change (n_estimators self') with (n_estimators self).
  destruct (validate_run a self) as [[Hv Ev]|(msg & Hv & Ev)];
    destruct (validate_run a self') as [[Hv' Ev']|(msg' & Hv' & Ev')];
    try congruence.
  2: { rewrite (mbind_raise _ _ _ _ _ _ Ev), (mbind_raise _ _ _ _ _ _ Ev').
       assert (msg' = msg) by congruence. subst msg'.
       unfold trace_of, result_of, state_of. simpl.
       split; [reflexivity|]. split; [reflexivity|discriminate]. }
  rewrite (mbind_ok _ _ _ _ _ _ Ev), (mbind_ok _ _ _ _ _ _ Ev').
  destruct (_decide_n_outputs (train_loader a) true) as [n|e] eqn:En.
  2: { rewrite (mbind_raise _ _ self self [] e) by reflexivity.
       rewrite (mbind_raise _ _ self' self' [] e) by reflexivity.
       unfold trace_of, result_of, state_of. simpl.
       split; [reflexivity|]. split; [reflexivity|discriminate]. }
  rewrite (mbind_ok _ _ self self [] n) by reflexivity.
  rewrite (mbind_ok _ _ self' self' [] n) by reflexivity.
  rewrite (mbind_ok _ _ self _ [] tt eq_refl).
  rewrite (mbind_ok _ _ self' _ [] tt eq_refl).
  change (n_estimators self') with (n_estimators self).
  change (estimators_ self') with earlier.
  pose proof (regressor_loop_agrees a (seq 0 (Z.to_nat (epochs a)))
                (map base_estimator (seq 0 (n_estimators self))) None PosInf
                (mkEnsemble (n_estimators self) (Some n) earlier)
                (mkEnsemble (n_estimators self) (Some n) (estimators_ self))
                (conj eq_refl eq_refl)) as Hl.
  destruct (AdversarialTrainingRegressor.training_loop a
              (seq 0 (Z.to_nat (epochs a)))
              (map base_estimator (seq 0 (n_estimators self))) None PosInf
              (mkEnsemble (n_estimators self) (Some n) earlier))
    as [[s1 t1] r1] eqn:El1.
  destruct (AdversarialTrainingRegressor.training_loop a
              (seq 0 (Z.to_nat (epochs a)))
              (map base_estimator (seq 0 (n_estimators self))) None PosInf
              (mkEnsemble (n_estimators self) (Some n) (estimators_ self)))
    as [[s2 t2] r2] eqn:El2.
  destruct Hl as (Ht & Hr & Hn & Ho).
  unfold trace_of, result_of, state_of in Ht, Hr, Hn, Ho.
  simpl in Ht, Hr, Hn, Ho. subst t2 r2.
  destruct r1 as [rets|e].
  2: { rewrite (mbind_raise _ _ _ _ _ _ El1), (mbind_raise _ _ _ _ _ _ El2).
       unfold trace_of, result_of, state_of. simpl.
       split; [reflexivity|]. split; [reflexivity|discriminate]. }
  rewrite (mbind_ok _ _ _ _ _ _ El1), (mbind_ok _ _ _ _ _ _ El2).
  destruct rets as [rets|].
  2: { unfold trace_of, result_of, state_of, lift. simpl.
       split; [reflexivity|]. split; [reflexivity|discriminate]. }
  unfold mbind, set_estimators_, io_save, ret, trace_of, result_of, state_of.
  destruct (save_model a && negb (truthy (test_loader a))); simpl;
    rewrite Hn, Ho; repeat split; reflexivity.
Qed.

(** ** The status lines of a worker *)

Section StatusLines.
Context {B : Backend}.

Lemma printed_batches_app (t1 t2 : list Event) :
  printed_batches (t1 ++ t2) = printed_batches t1 ++ printed_batches t2.
Proof. apply flat_map_app. Qed.

Lemma fit_batches_printed (criterion : Criterion) (epoch : nat) (eps : Q)
  (log_interval : Z) (idx : nat) (is_classification : bool)
  (todo : list (nat * (Tensor * Tensor))) :
  forall optimizer estimator estimator',
    snd (fit_batches criterion epoch eps log_interval idx is_classification todo
           optimizer estimator) = Ok estimator' ->
    printed_batches
      (fst (fit_batches criterion epoch eps log_interval idx is_classification todo
              optimizer estimator))
    = filter (fun batch_idx => (Z.of_nat batch_idx mod log_interval =? 0)%Z)
        (map fst todo).
Proof.
  induction todo as [|[batch_idx [data target]] rest IH]; intros opt est est' H;
    simpl in *; [reflexivity|].
  destruct (size_at data 0) as [batch_size|e]; [|discriminate H].
  destruct (_get_fgsm_samples data eps _) as [adv|e]; [|discriminate H].
  destruct (optimizer_step _ _ _ _ _ _) as [opt' est''].
  specialize (IH opt' est'' est').
  destruct (fit_batches _ _ _ _ _ _ rest opt' est'') as [evs' r].
  simpl in IH.
  destruct (Z.of_nat batch_idx mod log_interval =? 0)%Z; simpl in *.
  - destruct is_classification; simpl in *.
    + destruct (bind _ _) as [correct|e]; simpl in *; [|discriminate H].
      f_equal. now apply IH.
    + f_equal. now apply IH.
  - now apply IH.
Qed.

Lemma enumerate_indices {A : Type} (xs : list A) :
  map fst (enumerate xs) = seq 0 (length xs).
Proof.
  unfold enumerate. generalize 0%nat as k.
  induction xs as [|x xs IH]; intros k; simpl; [reflexivity|].
  now rewrite IH.
Qed.

End StatusLines.

(** X28: a worker that returns has printed one status line for each batch
    whose index is a multiple of [log_interval], the first batch included,
    in the order of the batches, and for no other batch. *)
Theorem worker_prints_every_log_interval {B : Backend} (train_loader : DataLoader)
  (lr weight_decay : Q) (epoch : nat) (optimizer : string) (epsilon : Q)
  (log_interval : Z) (idx : nat) (estimator estimator' : Estimator)
  (criterion : Criterion) (is_classification : bool) :
  (0 < log_interval)%Z ->
  snd (_parallel_fit_per_epoch train_loader lr weight_decay epoch optimizer epsilon
         log_interval idx estimator criterion is_classification) = Ok estimator' ->
  printed_batches
    (fst (_parallel_fit_per_epoch train_loader lr weight_decay epoch optimizer
            epsilon log_interval idx estimator criterion is_classification))
  = filter (fun batch_idx => (Z.of_nat batch_idx mod log_interval =? 0)%Z)
      (seq 0 (length (batches train_loader))).
Proof.
  intros _. unfold _parallel_fit_per_epoch.
  destruct (set_optimizer estimator optimizer lr weight_decay) as [o|e];
    [|discriminate].
  pose proof (fit_batches_printed criterion epoch epsilon log_interval idx
                is_classification (enumerate (batches train_loader)) o estimator
                estimator') as H.
  destruct (fit_batches _ _ _ _ _ _ _ o estimator) as [evs r]. simpl in *.
  intros Hr. rewrite (H Hr), enumerate_indices. reflexivity.
Qed.

Lemma worker_prints_every_log_interval_witness :
  printed_batches
    (fst (_parallel_fit_per_epoch (B := Scenario.toy) Scenario.three_batches
            (1 # 1000) (5 # 10000) 0 "Adam"%string (1 # 2) 2 0 0%nat
            CrossEntropyLoss true))
  = [0%nat; 2%nat].
Proof.
  apply (worker_prints_every_log_interval (B := Scenario.toy) Scenario.three_batches
           (1 # 1000) (5 # 10000) 0 "Adam"%string (1 # 2) 2 0 0%nat 3%nat
           CrossEntropyLoss true).
  - lia.
  - reflexivity.
Defined.
